(** * Bulk import of epics and stories into a remote tracker

    A shallow embedding of the two import scripts
    [packages/dashboard/scripts/jira_import_cp.py] and
    [packages/dashboard/scripts/jira_import_dashboard.py], and the
    properties of their orchestration logic.

    Both scripts are straight-line Python that talks to the outside through
    three effects only: [print], [time.sleep] and [requests.post].  The
    embedding threads a [World] that records these effects in the order in
    which they happen, and an [oracle] that decides what the n-th call of
    [requests.post] yields: a response, or a raised exception. *)

From Stdlib Require Import ZArith String Ascii List Lia Bool.
From stdpp Require Import base option list gmap strings pretty.

Set Warnings "-register-all".

Local Open Scope Z_scope.
Local Open Scope string_scope.

(** ** Python values used by the scripts *)

(** The [json=] argument of [requests.post]: nested dict and list literals.
    A dict literal keeps the order in which its keys are written. *)
Inductive json : Type :=
  | JStr (s : string)
  | JInt (z : Z)
  | JArr (items : list json)
  | JObj (fields : list (string * json)).

(** [d[k]] on a dict literal, [None] when the key is absent. *)
Fixpoint assoc (k : string) (fields : list (string * json)) : option json :=
  match fields with
  | [] => None
  | (k', v) :: rest => if String.eqb k k' then Some v else assoc k rest
  end.

Definition jfield (k : string) (j : json) : option json :=
  match j with
  | JObj fields => assoc k fields
  | _ => None
  end.

(** The keys of a dict literal, in order. *)
Definition jkeys (j : json) : list string :=
  match j with
  | JObj fields => map fst fields
  | _ => []
  end.

(** Truth value of a [str]: only the empty string is false. *)
Definition truthy (s : string) : bool :=
  match s with
  | EmptyString => false
  | String _ _ => true
  end.

(** Truth value of an [Optional[str]]: [None] and [""] are false. *)
Definition truthy_opt (o : option string) : bool :=
  match o with
  | Some s => truthy s
  | None => false
  end.

(** [s[:n]].  A [string] here is a string of bytes; the text of the two
    catalogs is ASCII, one byte per character. *)
Definition slice_to (n : nat) (s : string) : string := substring 0 n s.

(** [s * n] for a string [s] *)
Fixpoint str_mul (s : string) (n : nat) : string :=
  match n with
  | O => ""
  | S n' => s ++ str_mul s n'
  end.

(** The newline character, written [\n] in the source. *)
Definition nl : string := String (ascii_of_nat 10) EmptyString.

(** [len(l)] *)
Definition len {A : Type} (l : list A) : Z := Z.of_nat (length l).

(** [enumerate(l, start)] *)
Fixpoint enumerate {A : Type} (start : Z) (l : list A) : list (Z * A) :=
  match l with
  | [] => []
  | x :: l' => (start, x) :: enumerate (start + 1) l'
  end.

(** [sum(l)] on a list of [int] *)
Definition py_sum (l : list Z) : Z := fold_right Z.add 0 l.

(** [str(n)] for an [int], as an f-string prints it. *)
Definition str_int (n : Z) : string := pretty n.

(** ** The outside world *)

(** What [requests.post] is called with. *)
Record Request : Type := mkRequest {
  req_url : string;
  req_auth : string * string;
  req_headers : list (string * string);
  req_json : json
}.

(** What the scripts read of a [requests.Response]: the status code, the body
    as text, and the body decoded by [response.json()].  The tracker answers
    with a flat object of strings ([id], [key], [self]); a body that is not
    such an object is [None] here, and [response.json()] raises on it. *)
Record Response : Type := mkResponse {
  status_code : Z;
  text : string;
  json_body : option (gmap string string)
}.

(** The exceptions that can travel through the scripts.  None of the two
    scripts has a [try] block, so a raised exception unwinds to the top. *)
Inductive exn : Type :=
  | RequestException (msg : string)
  | JSONDecodeError
  | KeyError (key : string)
  | SystemExit (code : Z).

(** One effect of a run.  A sleep is recorded in milliseconds
    ([time.sleep(0.2)] is [EvSleep 200]). *)
Inductive event : Type :=
  | EvPrint (line : string)
  | EvSleep (ms : Z)
  | EvPost (req : Request) (res : exn + Response).

(** The world: how many [requests.post] calls were served so far, and every
    effect so far, oldest first. *)
Record World : Type := mkWorld {
  served : nat;
  events : list event
}.

Definition world0 : World := {| served := 0; events := [] |}.

(** ** The monad of a script: state for the world, errors for exceptions *)

Inductive Result (A : Type) : Type :=
  | Ok (a : A)
  | Raise (e : exn).
Arguments Ok {A} a.
Arguments Raise {A} e.

Definition M (A : Type) : Type := World -> Result A * World.

Definition ret {A : Type} (a : A) : M A := fun w => (Ok a, w).

Definition bind {A B : Type} (m : M A) (k : A -> M B) : M B :=
  fun w =>
    match m w with
    | (Ok a, w') => k a w'
    | (Raise e, w') => (Raise e, w')
    end.

Definition raise {A : Type} (e : exn) : M A := fun w => (Raise e, w).

Declare Scope py_scope.
Delimit Scope py_scope with py.
Notation "x <- c1 ;; c2" := (bind c1 (fun x => c2))
  (at level 100, c1 at next level, right associativity) : py_scope.
Notation "c1 ;;; c2" := (bind c1 (fun _ => c2))
  (at level 100, right associativity) : py_scope.
Local Open Scope py_scope.

Definition emit (e : event) : M unit :=
  fun w => (Ok tt, {| served := served w; events := events w ++ [e] |}).

(** [print(line)] *)
Definition print (line : string) : M unit := emit (EvPrint line).

(** [time.sleep(ms / 1000)] *)
Definition sleep (ms : Z) : M unit := emit (EvSleep ms).

(** [for x in l: s = body(s, x)], the loop's variables threaded as [s]. *)
Fixpoint for_each {A S : Type} (body : S -> A -> M S) (l : list A) (s : S) : M S :=
  match l with
  | [] => ret s
  | x :: l' => s' <- body s x ;; for_each body l' s'
  end.

(** [response.json()] *)
Definition response_json (r : Response) : M (gmap string string) :=
  match json_body r with
  | Some d => ret d
  | None => raise JSONDecodeError
  end.

(** [d[k]] on a decoded body *)
Definition subscript (d : gmap string string) (k : string) : M string :=
  match d !! k with
  | Some v => ret v
  | None => raise (KeyError k)
  end.

(** [os.environ.get(k, "")] *)
Definition environ_get (environ : gmap string string) (k : string) : string :=
  default "" (environ !! k).

(** How the interpreter leaves: status 0 when the script runs off its end,
    the given code after [exit(code)], status 1 after an uncaught
    exception. *)
Definition exit_status (r : Result unit) : Z :=
  match r with
  | Ok _ => 0
  | Raise (SystemExit code) => code
  | Raise _ => 1
  end.

Section Transport.

(** The result of the n-th call of [requests.post] in this run. *)
Variable oracle : nat -> exn + Response.

(** [requests.post(url, auth=..., headers=..., json=...)] *)
Definition requests_post (req : Request) : M Response :=
  fun w =>
    let res := oracle (served w) in
    let w' := {| served := S (served w);
                 events := events w ++ [EvPost req res] |} in
    match res with
    | inl e => (Raise e, w')
    | inr r => (Ok r, w')
    end.

End Transport.

(** ** Reading a run off the world *)

(** A remote call and what came back. *)
Abbreviation exchange := (Request * (exn + Response))%type.

(** The remote calls among the effects, in order. *)
Fixpoint posts (es : list event) : list exchange :=
  match es with
  | [] => []
  | EvPost req res :: es' => (req, res) :: posts es'
  | _ :: es' => posts es'
  end.

(** The printed lines among the effects, in order. *)
Fixpoint printed (es : list event) : list string :=
  match es with
  | [] => []
  | EvPrint line :: es' => line :: printed es'
  | _ :: es' => printed es'
  end.

(** The key under which the scripts take a call as a creation: the response
    has status 201 and its body carries a non-empty [key]. *)
Definition created_key (res : exn + Response) : option string :=
  match res with
  | inr r =>
      if (status_code r =? 201)%Z then
        match json_body r with
        | Some data => if truthy_opt (data !! "key") then data !! "key" else None
        | None => None
        end
      else None
  | inl _ => None
  end.

(** What became of one catalog item in a run. *)
Inductive outcome : Type :=
  | Created (key : string)
  | Failed
  | Skipped.

Definition outcome_of (res : exn + Response) : outcome :=
  match created_key res with
  | Some k => Created k
  | None => Failed
  end.

Definition is_created (o : outcome) : bool :=
  match o with Created _ => true | _ => false end.
Definition is_skipped (o : outcome) : bool :=
  match o with Skipped => true | _ => false end.

Definition count (p : outcome -> bool) (os : list outcome) : Z :=
  len (List.filter p os).

(** A call was made for the item. *)
Definition attempted (o : outcome) : bool := negb (is_skipped o).


(** A response as the tracker's interface promises it: a 201 carries the
    key and id of the new issue. *)
Definition carries_key_id (r : Response) : Prop :=
  exists data key id,
    json_body r = Some data /\ data !! "key" = Some key /\ data !! "id" = Some id.

(** A transport that answers every call, and answers 201 only with the key
    and id of the new issue. *)
Definition answers (oracle : nat -> exn + Response) : Prop :=
  forall n, exists r,
    oracle n = inr r /\ (status_code r = 201 -> carries_key_id r).

(** Some earlier call in [xs] created a parent and the tracker named it
    [k]. *)
Definition known {Epic : Type} (epic_req : Epic -> Request) (k : string)
    (xs : list exchange) : Prop :=
  exists (i : nat) (e : Epic) (res : exn + Response),
    xs !! i = Some (epic_req e, res) /\ created_key res = Some k.

(** Every call in [xs] that creates a child names as its parent a key that
    an earlier call in [xs], one that created a parent, came back with. *)
Definition parents_known {Epic Story : Type} (epic_req : Epic -> Request)
    (story_req : Story -> string -> Request) (xs : list exchange) : Prop :=
  forall (j : nat) (s : Story) (k : string) (res' : exn + Response),
    xs !! j = Some (story_req s k, res') ->
    known epic_req k (take j xs).


(** ** [jira_import_cp.py] *)

Module jira_import_cp.

(** The dicts of the catalog literal, as records: every entry of the
    literal has exactly these keys. *)
Record Epic : Type := mkEpic {
  epic_name : string;
  epic_summary : string;
  epic_description : string
}.

Record Story : Type := mkStory {
  story_summary : string;
  story_points : Z;
  story_description : string
}.

Record Entry : Type := mkEntry {
  epic : Epic;
  stories : list Story
}.

Definition JIRA_BASE_URL : string := "https://aigos.atlassian.net".
Definition PROJECT_KEY : string := "CP".
Definition EPIC_TYPE_ID : string := "10197".
Definition STORY_TYPE_ID : string := "10196".

(** The catalog literal of the script. *)
Definition EPICS_AND_STORIES : list Entry := [
  {| epic := {|
       epic_name := "Project Foundation & Infrastructure";
       epic_summary := "[Dashboard] Project Foundation & Infrastructure";
       epic_description := "Set up the @aigrc/dashboard package with proper TypeScript configuration, build tooling, and development infrastructure." |};
     stories := [
       mkStory "Initialize @aigrc/dashboard package structure" 3
         "Create package.json, tsconfig.json, and directory structure following monorepo conventions.";
       mkStory "Configure Vite build system" 3
         "Set up Vite with React, TypeScript, and proper output configuration for library builds.";
       mkStory "Set up Tailwind CSS with AIGRC theme" 3
         "Configure Tailwind with governance-specific color palette and design tokens.";
       mkStory "Configure path aliases and module resolution" 2
         "Set up @/ path aliases for clean imports across the dashboard.";
       mkStory "Create development server configuration" 2
         "Configure hot reload, proxy settings for API development.";
       mkStory "Set up ESLint and Prettier" 2
         "Configure code quality tools consistent with monorepo standards.";
       mkStory "Create CI/CD pipeline configuration" 3
         "GitHub Actions for build, test, and deployment workflows.";
       mkStory "Document package setup and development workflow" 2
         "README with setup instructions, development commands, and contribution guidelines."
     ] |};
  {| epic := {|
       epic_name := "Core UI Component Library";
       epic_summary := "[Dashboard] Core UI Component Library";
       epic_description := "Implement the foundational UI components adapted from shadcn/ui for the AIGRC dashboard." |};
     stories := [
       mkStory "Implement Button component with governance variants" 3
         "Base button with minimal/limited/high/unacceptable risk level variants.";
       mkStory "Implement Card component system" 3
         "Card, CardHeader, CardContent, CardFooter with proper styling.";
       mkStory "Implement Badge component with risk/compliance variants" 3
         "Badges for risk levels and compliance status indicators.";
       mkStory "Implement Table component system" 5
         "Full table system with sorting, filtering, and pagination support.";
       mkStory "Implement Form components (Input, Select, Textarea)" 5
         "Form controls with validation states and accessibility.";
       mkStory "Implement Dialog and Modal components" 3
         "Accessible dialog system for confirmations and forms.";
       mkStory "Implement Tabs component" 3
         "Tab navigation for detail views and settings.";
       mkStory "Implement Progress component with compliance variant" 2
         "Progress bars with color coding based on compliance thresholds.";
       mkStory "Implement Tooltip and Popover components" 3
         "Information tooltips with proper positioning.";
       mkStory "Implement Skeleton loading components" 2
         "Loading states for async content.";
       mkStory "Implement Avatar component" 2
         "User avatars with fallback initials.";
       mkStory "Create component documentation and Storybook" 5
         "Document all components with usage examples."
     ] |};
  {| epic := {|
       epic_name := "Governance Display Components";
       epic_summary := "[Dashboard] Governance Display Components";
       epic_description := "Specialized components for displaying AI governance information including risk levels and compliance status." |};
     stories := [
       mkStory "Implement RiskLevelBadge component" 3
         "Badge with EU AI Act risk classification (minimal/limited/high/unacceptable) with tooltips.";
       mkStory "Implement ComplianceStatusBadge component" 3
         "Badge showing compliance status with score percentage.";
       mkStory "Implement RiskDistributionChart component" 5
         "Visual chart showing asset distribution across risk levels.";
       mkStory "Implement ComplianceTrendChart component" 5
         "Time-series chart for compliance score trends.";
       mkStory "Implement FrameworkDetectionCard component" 3
         "Display detected AI/ML frameworks with confidence scores.";
       mkStory "Implement PolicyViolationAlert component" 3
         "Alert banner for policy violations with severity levels.";
       mkStory "Implement ControlFindingsTable component" 5
         "Table for displaying compliance control findings.";
       mkStory "Implement RiskIndicatorList component" 3
         "List of risk indicators from detection scans."
     ] |};
  {| epic := {|
       epic_name := "Asset Management Components";
       epic_summary := "[Dashboard] Asset Management Components";
       epic_description := "Components for managing and displaying AI asset inventory." |};
     stories := [
       mkStory "Implement AssetCard component" 5
         "Card displaying asset summary with risk level, compliance status, and quick actions.";
       mkStory "Implement AssetListView component" 5
         "Paginated list view of assets with filtering and sorting.";
       mkStory "Implement AssetGridView component" 3
         "Grid layout for asset cards.";
       mkStory "Implement AssetFilterPanel component" 5
         "Filter panel for risk level, compliance status, department, tags.";
       mkStory "Implement AssetDetailHeader component" 3
         "Header section for asset detail page with key info and actions.";
       mkStory "Implement AssetMetadataPanel component" 3
         "Display asset metadata: owner, department, version, dates.";
       mkStory "Implement AssetRegistrationForm component" 8
         "Multi-step form for registering new AI assets.";
       mkStory "Implement AssetEditForm component" 5
         "Form for editing existing asset information."
     ] |};
  {| epic := {|
       epic_name := "Runtime Monitoring Components";
       epic_summary := "[Dashboard] Runtime Monitoring Components";
       epic_description := "Components for AIGOS runtime agent monitoring and control." |};
     stories := [
       mkStory "Implement RuntimeAgentCard component" 5
         "Card showing agent status, health, metrics, and quick actions.";
       mkStory "Implement RuntimeMetricsPanel component" 5
         "Real-time metrics display: requests/min, latency, error rate.";
       mkStory "Implement KillSwitchDialog component" 5
         "Confirmation dialog for agent termination with reason capture.";
       mkStory "Implement AgentHealthIndicator component" 3
         "Visual health status with pulse animation for live agents.";
       mkStory "Implement CapabilityBadgeList component" 2
         "Display agent capabilities as badge list.";
       mkStory "Implement RuntimeLogViewer component" 8
         "Streaming log viewer for agent output.";
       mkStory "Implement TraceViewer component" 8
         "Distributed trace visualization for agent requests.";
       mkStory "Implement EmergencyStopButton component" 3
         "Global kill switch for all agents with confirmation."
     ] |};
  {| epic := {|
       epic_name := "API Client & Data Layer";
       epic_summary := "[Dashboard] API Client & Data Layer";
       epic_description := "Implement the API client abstraction and data fetching layer." |};
     stories := [
       mkStory "Implement AigrcClient base class" 5
         "HTTP client with auth, error handling, retry logic.";
       mkStory "Implement assets API service" 3
         "CRUD operations for AI assets.";
       mkStory "Implement detection API service" 3
         "Scan triggers and result retrieval.";
       mkStory "Implement compliance API service" 3
         "Assessment operations and findings.";
       mkStory "Implement runtime API service" 5
         "Agent monitoring and control endpoints including kill switch.";
       mkStory "Implement policies API service" 3
         "Policy CRUD and evaluation.";
       mkStory "Implement useAssets React Query hook" 3
         "Data fetching hook with caching and mutations.";
       mkStory "Implement useRuntime React Query hook" 3
         "Real-time agent monitoring with polling.";
       mkStory "Implement useCompliance React Query hook" 3
         "Compliance data fetching and caching.";
       mkStory "Create mock data provider for development" 5
         "Realistic mock data for all entities."
     ] |};
  {| epic := {|
       epic_name := "Authentication & Authorization";
       epic_summary := "[Dashboard] Authentication & Authorization";
       epic_description := "Implement authentication context and role-based access control." |};
     stories := [
       mkStory "Implement AuthContext provider" 5
         "React context for authentication state management.";
       mkStory "Implement useAuth hook" 3
         "Hook for accessing auth state and methods.";
       mkStory "Implement PermissionGate component" 3
         "Component for permission-based rendering.";
       mkStory "Implement RoleGate component" 3
         "Component for role-based rendering.";
       mkStory "Implement ProtectedRoute component" 3
         "Route wrapper requiring authentication.";
       mkStory "Implement LoginPage component" 5
         "Login form with SSO support.";
       mkStory "Implement session management" 5
         "Token refresh, session timeout handling.";
       mkStory "Implement audit logging for auth events" 3
         "Log authentication and authorization events."
     ] |};
  {| epic := {|
       epic_name := "Dashboard Pages";
       epic_summary := "[Dashboard] Dashboard Pages";
       epic_description := "Implement the main dashboard pages using the component library." |};
     stories := [
       mkStory "Implement DashboardPage (overview)" 8
         "Main dashboard with KPIs, risk distribution, recent assets, active agents.";
       mkStory "Implement AssetsListPage" 8
         "Asset inventory with filtering, sorting, and pagination.";
       mkStory "Implement AssetDetailPage" 8
         "Detailed asset view with tabs for overview, detection, compliance, runtime.";
       mkStory "Implement RuntimeMonitorPage" 8
         "Real-time agent monitoring dashboard.";
       mkStory "Implement ComplianceOverviewPage" 8
         "Compliance dashboard with trends and assessments.";
       mkStory "Implement PolicyManagementPage" 8
         "Policy CRUD and rule builder interface.";
       mkStory "Implement SettingsPage" 5
         "User and organization settings.";
       mkStory "Implement NotFoundPage" 2
         "404 error page."
     ] |};
  {| epic := {|
       epic_name := "Layout & Navigation";
       epic_summary := "[Dashboard] Layout & Navigation";
       epic_description := "Implement the dashboard shell with navigation and layout components." |};
     stories := [
       mkStory "Implement DashboardLayout component" 5
         "Main layout wrapper with sidebar and header.";
       mkStory "Implement Sidebar navigation" 5
         "Collapsible sidebar with navigation links.";
       mkStory "Implement Header component" 3
         "Top header with search, notifications, user menu.";
       mkStory "Implement Breadcrumb navigation" 3
         "Breadcrumb trail for page hierarchy.";
       mkStory "Implement CommandPalette (Cmd+K)" 5
         "Quick navigation and action command palette.";
       mkStory "Implement NotificationCenter" 5
         "Notification dropdown with real-time updates.";
       mkStory "Implement UserMenu component" 3
         "User dropdown with profile and logout.";
       mkStory "Implement responsive mobile navigation" 5
         "Mobile-friendly navigation drawer."
     ] |};
  {| epic := {|
       epic_name := "Testing & Quality Assurance";
       epic_summary := "[Dashboard] Testing & Quality Assurance";
       epic_description := "Comprehensive testing suite for the dashboard components and pages." |};
     stories := [
       mkStory "Set up Vitest testing framework" 3
         "Configure Vitest with React Testing Library.";
       mkStory "Write unit tests for UI components" 8
         "Test all core UI components.";
       mkStory "Write unit tests for governance components" 5
         "Test RiskLevelBadge, ComplianceStatusBadge, etc.";
       mkStory "Write unit tests for hooks" 5
         "Test custom hooks with mock providers.";
       mkStory "Write integration tests for pages" 8
         "Test page rendering and interactions.";
       mkStory "Set up Playwright for E2E tests" 5
         "Configure Playwright with test fixtures.";
       mkStory "Write E2E tests for critical flows" 8
         "Test asset registration, runtime monitoring, compliance views.";
       mkStory "Set up visual regression testing" 5
         "Chromatic or Percy integration for visual testing.";
       mkStory "Achieve 80% code coverage" 5
         "Ensure comprehensive test coverage."
     ] |}
].

Section Script.

(** The two module constants read from the environment at load time. *)
Variables JIRA_EMAIL JIRA_API_TOKEN : string.
Variable oracle : nat -> exn + Response.

Definition create_issue (issue_data : json) : M (option string) :=
  let url := JIRA_BASE_URL ++ "/rest/api/3/issue" in
  response <- requests_post oracle
    {| req_url := url;
       req_auth := (JIRA_EMAIL, JIRA_API_TOKEN);
       req_headers := [("Content-Type", "application/json")];
       req_json := issue_data |} ;;
  if (status_code response =? 201)%Z then
    data <- response_json response ;;
    ret (data !! "key")
  else
    print ("Error creating issue: " ++ str_int (status_code response)) ;;;
    print (text response) ;;;
    ret None.

Definition epic_issue_data (epic_data : Epic) : json :=
  JObj [
    ("fields", JObj [
      ("project", JObj [("key", JStr PROJECT_KEY)]);
      ("summary", JStr (epic_summary epic_data));
      ("description", JObj [
        ("type", JStr "doc");
        ("version", JInt 1);
        ("content", JArr [
          JObj [
            ("type", JStr "paragraph");
            ("content", JArr [JObj [("type", JStr "text");
                                    ("text", JStr (epic_description epic_data))]])
          ]
        ])
      ]);
      ("issuetype", JObj [("id", JStr EPIC_TYPE_ID)])
    ])
  ].

Definition create_epic (epic_data : Epic) : M (option string) :=
  create_issue (epic_issue_data epic_data).

(** [story_data.get("description", "")] is the record's field: the key is
    never absent from a [Story]. *)
Definition story_issue_data (story_data : Story) (epic_key : string) : json :=
  JObj [
    ("fields", JObj [
      ("project", JObj [("key", JStr PROJECT_KEY)]);
      ("summary", JStr (story_summary story_data));
      ("description", JObj [
        ("type", JStr "doc");
        ("version", JInt 1);
        ("content", JArr [
          JObj [
            ("type", JStr "paragraph");
            ("content", JArr [JObj [("type", JStr "text");
                                    ("text", JStr (story_description story_data))]])
          ]
        ])
      ]);
      ("issuetype", JObj [("id", JStr STORY_TYPE_ID)]);
      ("parent", JObj [("key", JStr epic_key)])
    ])
  ].

Definition create_story (story_data : Story) (epic_key : string) : M (option string) :=
  create_issue (story_issue_data story_data epic_key).

(** The body of the inner [for j, story in enumerate(..., 1)] loop; the
    loop variable it updates is [created_stories]. *)
Definition story_loop_body (n_stories : Z) (epic_key : string)
    (created_stories : Z) (js : Z * Story) : M Z :=
  let '(j, story) := js in
  print ("  [" ++ str_int j ++ "/" ++ str_int n_stories ++ "] Creating Story: "
         ++ slice_to 50 (story_summary story) ++ "...") ;;;
  story_key <- create_story story epic_key ;;
  created_stories <-
    (if truthy_opt story_key then
       print ("    Created: " ++ default "" story_key) ;;;
       ret (created_stories + 1)
     else
       print "    FAILED to create story" ;;;
       ret created_stories) ;;
  sleep 200 ;;;
  ret created_stories.

(** The body of the outer [for i, epic_data in enumerate(..., 1)] loop;
    it updates [created_epics] and [created_stories]. *)
Definition epic_loop_body (total_epics : Z)
    (counters : Z * Z) (ie : Z * Entry) : M (Z * Z) :=
  let '(created_epics, created_stories) := counters in
  let '(i, epic_data) := ie in
  print (nl ++ "[" ++ str_int i ++ "/" ++ str_int total_epics ++ "] Creating Epic: "
         ++ epic_name (epic epic_data)) ;;;
  epic_key <- create_epic (epic epic_data) ;;
  counters <-
    (if truthy_opt epic_key then
       print ("  Created: " ++ default "" epic_key) ;;;
       created_stories <-
         for_each (story_loop_body (len (stories epic_data)) (default "" epic_key))
                  (enumerate 1 (stories epic_data)) created_stories ;;
       ret (created_epics + 1, created_stories)
     else
       print "  FAILED to create epic" ;;;
       ret (created_epics, created_stories)) ;;
  sleep 500 ;;;
  ret counters.

(** [main()], with the module constant [EPICS_AND_STORIES] it reads as
    its argument. *)
Definition main (catalog : list Entry) : M unit :=
  print ("Starting JIRA import to project " ++ PROJECT_KEY ++ "...") ;;;
  print (str_mul "=" 60) ;;;
  let total_epics := len catalog in
  let total_stories := py_sum (map (fun e => len (stories e)) catalog) in
  print ("Will create " ++ str_int total_epics ++ " Epics and "
         ++ str_int total_stories ++ " Stories") ;;;
  print (str_mul "=" 60) ;;;
  counters <- for_each (epic_loop_body total_epics) (enumerate 1 catalog) (0, 0) ;;
  let '(created_epics, created_stories) := counters in
  print (nl ++ str_mul "=" 60) ;;;
  print "Import complete!" ;;;
  print ("  Epics created: " ++ str_int created_epics ++ "/" ++ str_int total_epics) ;;;
  print ("  Stories created: " ++ str_int created_stories ++ "/"
         ++ str_int total_stories) ;;;
  print "  Total story points: 349" ;;;
  print (str_mul "=" 60).

End Script.

(** The script run as a program: the module-level credential check, then
    the [__main__] guard calling [main()]. *)
Definition script (environ : gmap string string) (oracle : nat -> exn + Response)
    : M unit :=
  let JIRA_EMAIL := environ_get environ "JIRA_EMAIL" in
  let JIRA_API_TOKEN := environ_get environ "JIRA_API_TOKEN" in
  if negb (truthy JIRA_EMAIL) || negb (truthy JIRA_API_TOKEN) then
    print "Error: JIRA_EMAIL and JIRA_API_TOKEN environment variables must be set" ;;;
    print "  export JIRA_EMAIL='your-email@example.com'" ;;;
    print "  export JIRA_API_TOKEN='your-api-token'" ;;;
    raise (SystemExit 1)
  else
    main JIRA_EMAIL JIRA_API_TOKEN oracle EPICS_AND_STORIES.

(** *** The shape of a run of this script

    The vocabulary in which the properties of [main] are stated: which
    remote calls a catalog gives rise to, and the outcome of every item. *)

Section Shape.

Variables JIRA_EMAIL JIRA_API_TOKEN : string.

(** The request [create_issue] posts for [issue_data]. *)
Definition issue_request (issue_data : json) : Request :=
  {| req_url := (JIRA_BASE_URL ++ "/rest/api/3/issue")%string;
     req_auth := (JIRA_EMAIL, JIRA_API_TOKEN);
     req_headers := [("Content-Type", "application/json")];
     req_json := issue_data |}.

(** The calls made for the children of a parent created as [k]: one per
    child, in the children's order, each naming [k] as its parent; and
    the children's outcomes. *)
Inductive child_calls (k : string)
    : list Story -> list exchange -> list outcome -> Prop :=
  | child_calls_nil : child_calls k [] [] []
  | child_calls_cons (s : Story) (ss : list Story) (res : exn + Response)
        (xs : list exchange) (os : list outcome) :
      child_calls k ss xs os ->
      child_calls k (s :: ss)
        ((issue_request (story_issue_data s k), res) :: xs)
        (outcome_of res :: os).

(** The calls made for a catalog, and for every entry the outcome of the
    parent and of its children.  A parent that is not created has no
    call made for its children; a created parent has its children's
    calls right after its own. *)
Inductive run_calls
    : list Entry -> list exchange -> list (outcome * list outcome) -> Prop :=
  | run_calls_nil : run_calls [] [] []
  | run_calls_failed (e : Entry) (cat : list Entry) (res : exn + Response)
        (xs : list exchange) (os : list (outcome * list outcome)) :
      created_key res = None ->
      run_calls cat xs os ->
      run_calls (e :: cat)
        ((issue_request (epic_issue_data (epic e)), res) :: xs)
        ((Failed, map (fun _ => Skipped) (stories e)) :: os)
  | run_calls_created (e : Entry) (cat : list Entry) (res : exn + Response)
        (k : string) (ys : list exchange) (cos : list outcome)
        (xs : list exchange) (os : list (outcome * list outcome)) :
      created_key res = Some k ->
      child_calls k (stories e) ys cos ->
      run_calls cat xs os ->
      run_calls (e :: cat)
        ((issue_request (epic_issue_data (epic e)), res) :: ys ++ xs)
        ((Created k, cos) :: os).

(** The request that creates a parent, and the one that creates a child
    under the parent named [k]. *)
Definition epic_request (e : Epic) : Request :=
  issue_request (epic_issue_data e).
Definition story_request (s : Story) (k : string) : Request :=
  issue_request (story_issue_data s k).

(** What holds of the calls at every moment of a run: every child call
    so far names a parent created so far. *)
Definition sound (w : World) : Prop :=
  parents_known epic_request story_request (posts (events w)).

(** A parent was created so far and named [k]. *)
Definition created_so_far (k : string) (w : World) : Prop :=
  known epic_request k (posts (events w)).

End Shape.

(** The lines [create_issue] prints after a call whose response is not a
    201. *)
Definition error_lines (res : exn + Response) : list event :=
  match res with
  | inr r =>
      if (status_code r =? 201)%Z then []
      else [EvPrint ("Error creating issue: " ++ str_int (status_code r))%string;
            EvPrint (text r)]
  | inl _ => []
  end.

(** The outcomes of an entry fit together: the children of a parent that
    was not created are all skipped, those of a created parent are all
    attempted. *)
Definition entry_outcome (e : Entry) (o : outcome * list outcome) : Prop :=
  match fst o with
  | Created _ =>
      length (snd o) = length (stories e) /\
      Forall (fun c => attempted c = true) (snd o)
  | Failed => snd o = map (fun _ => Skipped) (stories e)
  | Skipped => False
  end.

(** The outcomes of the parents, and of all children, of a run. *)
Definition parents (os : list (outcome * list outcome)) : list outcome :=
  map fst os.
Definition children (os : list (outcome * list outcome)) : list outcome :=
  concat (map snd os).

(** The closing report that [main] prints. *)
Definition report (created_epics total_epics created_stories total_stories : Z)
    : list string :=
  [ nl ++ str_mul "=" 60;
    "Import complete!";
    "  Epics created: " ++ str_int created_epics ++ "/" ++ str_int total_epics;
    "  Stories created: " ++ str_int created_stories ++ "/"
      ++ str_int total_stories;
    "  Total story points: 349";
    str_mul "=" 60 ]%string.

End jira_import_cp.

(** ** [jira_import_dashboard.py] *)

Module jira_import_dashboard.

Record Epic : Type := mkEpic {
  epic_key : string;
  epic_summary : string;
  epic_description : string;
  epic_labels : list string
}.

Record Story : Type := mkStory {
  story_epic : string;
  story_summary : string;
  story_points : Z;
  story_description : string
}.

Definition JIRA_URL : string := "https://aigos.atlassian.net".
Definition PROJECT_KEY : string := "AP".
Definition EPIC_TYPE_ID : string := "10049".
Definition STORY_TYPE_ID : string := "10048".
Definition STORY_POINTS_FIELD : string := "customfield_10016".

Definition EPICS : list Epic := [
  {| epic_key := "AD-1";
     epic_summary := "[P0] Dashboard Foundation & Package Setup";
     epic_description := "Set up the @aigrc/dashboard package structure, build configuration, and core dependencies. This epic establishes the foundation for the entire dashboard adoption project.";
     epic_labels := ["dashboard"; "foundation"; "p0"] |};
  {| epic_key := "AD-2";
     epic_summary := "[P0] UI Component Library";
     epic_description := "Adopt and adapt shadcn/ui components from aftrbell for AIGRC use cases. Includes governance-specific variants for risk levels and compliance status.";
     epic_labels := ["dashboard"; "components"; "ui"; "p0"] |};
  {| epic_key := "AD-3";
     epic_summary := "[P0] Authentication & Authorization";
     epic_description := "Implement authentication context and permission-based access control. Replace Supabase auth with AIGRC-native authentication.";
     epic_labels := ["dashboard"; "auth"; "security"; "p0"] |};
  {| epic_key := "AD-4";
     epic_summary := "[P1] Asset Management UI";
     epic_description := "Build the asset card management interface including list, detail, create, and edit views.";
     epic_labels := ["dashboard"; "assets"; "p1"] |};
  {| epic_key := "AD-5";
     epic_summary := "[P1] Detection Results UI";
     epic_description := "Build the framework detection results interface for viewing scan results and creating assets from suggestions.";
     epic_labels := ["dashboard"; "detection"; "p1"] |};
  {| epic_key := "AD-6";
     epic_summary := "[P1] Compliance Dashboard";
     epic_description := "Build the compliance tracking and assessment interface with support for multiple compliance profiles (EU AI Act, NIST AI RMF, CMMC).";
     epic_labels := ["dashboard"; "compliance"; "p1"] |};
  {| epic_key := "AD-7";
     epic_summary := "[P1] Runtime Governance UI";
     epic_description := "Build the AIGOS runtime monitoring and control interface including agent monitoring, kill switch controls, and policy decision logging.";
     epic_labels := ["dashboard"; "runtime"; "aigos"; "p1"] |};
  {| epic_key := "AD-8";
     epic_summary := "[P2] Dashboard Analytics";
     epic_description := "Build the executive dashboard with metrics and analytics for C-suite visibility.";
     epic_labels := ["dashboard"; "analytics"; "p2"] |};
  {| epic_key := "AD-9";
     epic_summary := "[P2] Air-Gap Variant";
     epic_description := "Create the air-gapped deployment variant with local backend for stand-alone installations.";
     epic_labels := ["dashboard"; "air-gap"; "deployment"; "p2"] |};
  {| epic_key := "AD-10";
     epic_summary := "[P2] Testing & Documentation";
     epic_description := "Comprehensive testing and documentation for the dashboard package.";
     epic_labels := ["dashboard"; "testing"; "documentation"; "p2"] |}
].

Definition STORIES : list Story := [
  mkStory "AD-1" "Create package.json with dependencies" 3
    "Set up the package.json file with all required dependencies including React, Radix UI, TanStack Query, and workspace dependency on @aigrc/core.";
  mkStory "AD-1" "Configure TypeScript for dashboard" 3
    "Create tsconfig.json with strict mode, path aliases, and composite project references.";
  mkStory "AD-1" "Set up Vite build configuration" 5
    "Configure Vite for development server and production builds with library mode for CJS/ESM output.";
  mkStory "AD-1" "Configure Tailwind CSS with AIGRC theme" 5
    "Set up Tailwind with shadcn base theme and AIGRC governance-specific colors.";
  mkStory "AD-1" "Create core utility functions" 3
    "Implement utility functions including cn() for class merging, date formatting, and risk/compliance color helpers.";
  mkStory "AD-1" "Set up ESLint and Prettier" 3
    "Configure linting and formatting to match monorepo standards.";
  mkStory "AD-1" "Create type definitions" 5
    "Define all TypeScript types for AIGRC dashboard, matching @aigrc/core schemas.";
  mkStory "AD-1" "Configure package exports" 5
    "Set up package exports for components, hooks, and types.";
  mkStory "AD-2" "Adopt Button component with governance variants" 3
    "Copy and adapt Button component with risk level and compliance variants.";
  mkStory "AD-2" "Adopt Card component" 2
    "Copy Card, CardHeader, CardContent, CardFooter components.";
  mkStory "AD-2" "Adopt Badge component with risk variants" 3
    "Copy Badge with risk level and compliance status variants.";
  mkStory "AD-2" "Adopt Table components" 3
    "Copy full table primitives with sortable headers and pagination support.";
  mkStory "AD-2" "Adopt Form components (Input, Select, Textarea)" 5
    "Copy all form primitives with validation states.";
  mkStory "AD-2" "Adopt Dialog and Modal components" 5
    "Copy Dialog primitives and create confirmation/form dialog variants.";
  mkStory "AD-2" "Adopt Navigation components (Tabs, Menu)" 5
    "Copy Tabs, dropdown menu, and navigation menu components.";
  mkStory "AD-2" "Adopt Feedback components (Toast, Alert)" 5
    "Copy Toast notifications, alerts, and progress indicators.";
  mkStory "AD-2" "Adopt Data display components (Skeleton, Avatar)" 3
    "Copy loading skeletons, avatar, and empty state components.";
  mkStory "AD-2" "Create RiskLevelBadge component" 5
    "Build governance-specific risk level badge with tooltip and animations.";
  mkStory "AD-2" "Create ComplianceStatusBadge component" 5
    "Build compliance status badge with score display and trend indicator.";
  mkStory "AD-2" "Create component documentation with Storybook" 5
    "Document all components with interactive examples.";
  mkStory "AD-3" "Create AuthContext provider" 5
    "Implement authentication context with user state management and token persistence.";
  mkStory "AD-3" "Implement login/logout flow" 5
    "Build login form, logout handling, and token storage.";
  mkStory "AD-3" "Create ProtectedRoute component" 3
    "Implement route protection with redirect and loading states.";
  mkStory "AD-3" "Create PermissionGate component" 3
    "Build permission-based rendering component.";
  mkStory "AD-3" "Create RoleGate component" 3
    "Build role-based rendering with hierarchy support.";
  mkStory "AD-3" "Implement organization switching" 5
    "Add multi-organization support with context updates.";
  mkStory "AD-3" "Create permission hook (usePermissions)" 5
    "Build hook for checking single and multiple permissions.";
  mkStory "AD-3" "Add MFA support infrastructure" 3
    "Add MFA state handling and challenge flow.";
  mkStory "AD-4" "Create AssetList component" 5
    "Build asset table with sorting, filtering, and search.";
  mkStory "AD-4" "Create AssetCard display component" 5
    "Build asset card display with risk factors and technical details.";
  mkStory "AD-4" "Create AssetCardForm component" 8
    "Build comprehensive asset card form with validation.";
  mkStory "AD-4" "Create AssetCreationWizard" 8
    "Build step-by-step asset creation with detection import.";
  mkStory "AD-4" "Implement asset filtering and search" 3
    "Add multi-filter support with URL state sync.";
  mkStory "AD-4" "Create AssetDetailPage" 5
    "Build full asset detail view with actions.";
  mkStory "AD-4" "Implement asset archival flow" 3
    "Add archive with reason and restore capability.";
  mkStory "AD-4" "Create Golden Thread visualization" 5
    "Display hash, verification status, and documentation links.";
  mkStory "AD-5" "Create ScanResultsList component" 5
    "Build scan results list with status and actions.";
  mkStory "AD-5" "Create ScanResultDetail component" 5
    "Show frameworks detected, model files, and risk indicators.";
  mkStory "AD-5" "Create FrameworkCard component" 3
    "Display framework name, version, confidence, and location.";
  mkStory "AD-5" "Create ScanInitiator component" 5
    "Build scan trigger with path input and progress.";
  mkStory "AD-5" "Create AssetSuggestionView" 3
    "Show suggested asset card with edit and create.";
  mkStory "AD-5" "Implement scan history pagination" 3
    "Add paginated list with date filter and export.";
  mkStory "AD-6" "Create ComplianceOverview component" 5
    "Build summary cards with profile selector.";
  mkStory "AD-6" "Create ComplianceProfileCard component" 3
    "Display profile details and control count.";
  mkStory "AD-6" "Create ControlStatusGrid component" 8
    "Build control grid with status indicators and filters.";
  mkStory "AD-6" "Create AssessmentResultView component" 5
    "Show assessment details, findings, and remediation.";
  mkStory "AD-6" "Create ComplianceTrendChart component" 5
    "Build time series chart with multi-profile support.";
  mkStory "AD-6" "Implement assessment runner UI" 5
    "Add asset/profile selection with progress tracking.";
  mkStory "AD-6" "Create ComplianceReportExport" 3
    "Add PDF and CSV export with date range.";
  mkStory "AD-6" "Create EvidenceAttachment component" 2
    "Add evidence upload and control linking.";
  mkStory "AD-7" "Create AgentList component" 5
    "Build active agents table with status and actions.";
  mkStory "AD-7" "Create AgentDetailView component" 5
    "Show full agent details with capabilities and budget.";
  mkStory "AD-7" "Create KillSwitchControl component" 8
    "Build terminate/pause/resume controls with confirmation.";
  mkStory "AD-7" "Create CapabilityManifestViewer" 5
    "Display tool permissions and resource restrictions.";
  mkStory "AD-7" "Create BudgetGauge component" 3
    "Show current/total budget with warning thresholds.";
  mkStory "AD-7" "Create PolicyDecisionLog component" 5
    "Display decision history with filters and metrics.";
  mkStory "AD-7" "Create AgentHierarchyTree component" 5
    "Build parent/child tree with capability decay visualization.";
  mkStory "AD-7" "Create RealTimeAgentMonitor" 8
    "Add WebSocket connection with live updates and alerts.";
  mkStory "AD-8" "Create DashboardMetricsCards component" 5
    "Build summary cards for total assets, agents, score, violations.";
  mkStory "AD-8" "Create RiskDistributionChart component" 5
    "Build pie/donut chart with click-to-filter.";
  mkStory "AD-8" "Create RecentActivityFeed component" 3
    "Display activity timeline with type icons.";
  mkStory "AD-8" "Create AssetTrendChart component" 5
    "Show assets over time by risk level.";
  mkStory "AD-8" "Create ComplianceScorecard component" 5
    "Display multi-profile scores with trends.";
  mkStory "AD-8" "Create ExecutiveSummaryExport" 5
    "Add PDF report with key metrics and trends.";
  mkStory "AD-9" "Create BackendAdapter interface" 5
    "Define abstract backend operations interface.";
  mkStory "AD-9" "Implement CloudAdapter (Supabase-like)" 5
    "Build cloud backend adapter with full API coverage.";
  mkStory "AD-9" "Implement LocalAdapter (Express/PostgreSQL)" 8
    "Build local backend adapter with direct DB access.";
  mkStory "AD-9" "Create Express API server template" 8
    "Build all endpoints with middleware and error handling.";
  mkStory "AD-9" "Implement local authentication (Passport.js)" 5
    "Add JWT strategy with session and password handling.";
  mkStory "AD-9" "Create offline asset bundler" 3
    "Bundle all dependencies and assets offline.";
  mkStory "AD-9" "Create installation scripts" 2
    "Add Windows installer and PostgreSQL setup.";
  mkStory "AD-9" "Document air-gap deployment" 2
    "Write deployment guide with security considerations.";
  mkStory "AD-10" "Set up Vitest for component testing" 3
    "Configure test runner with coverage and CI integration.";
  mkStory "AD-10" "Write unit tests for hooks" 5
    "Test all hooks with mock API client.";
  mkStory "AD-10" "Write integration tests for auth flow" 5
    "Test login/logout and permission checks.";
  mkStory "AD-10" "Create API client tests" 3
    "Test all methods with error handling.";
  mkStory "AD-10" "Write component accessibility tests" 3
    "Test ARIA compliance and keyboard navigation.";
  mkStory "AD-10" "Create comprehensive README and docs" 5
    "Write installation guide, API reference, and examples."
].

Definition headers : list (string * string) :=
  [("Accept", "application/json"); ("Content-Type", "application/json")].

Section Script.

Variables JIRA_EMAIL JIRA_API_TOKEN : string.
Variable oracle : nat -> exn + Response.

(** [HTTPBasicAuth(JIRA_EMAIL, JIRA_API_TOKEN)] *)
Definition auth : string * string := (JIRA_EMAIL, JIRA_API_TOKEN).

(** [epic_data.get("labels", [])] is the record's field. *)
Definition epic_payload (epic_data : Epic) : json :=
  JObj [
    ("fields", JObj [
      ("project", JObj [("key", JStr PROJECT_KEY)]);
      ("summary", JStr (epic_summary epic_data));
      ("description", JObj [
        ("type", JStr "doc");
        ("version", JInt 1);
        ("content", JArr [
          JObj [
            ("type", JStr "paragraph");
            ("content", JArr [JObj [("type", JStr "text");
                                    ("text", JStr (epic_description epic_data))]])
          ]
        ])
      ]);
      ("issuetype", JObj [("id", JStr EPIC_TYPE_ID)]);
      ("labels", JArr (map JStr (epic_labels epic_data)))
    ])
  ].

(** Returns the pair [(key, id)], or [(None, None)]. *)
Definition create_epic (epic_data : Epic) : M (option string * option string) :=
  let url := JIRA_URL ++ "/rest/api/3/issue" in
  let payload := epic_payload epic_data in
  response <- requests_post oracle
    {| req_url := url; req_auth := auth; req_headers := headers;
       req_json := payload |} ;;
  if (status_code response =? 201)%Z then
    data <- response_json response ;;
    key <- subscript data "key" ;;
    id <- subscript data "id" ;;
    ret (Some key, Some id)
  else
    print ("  [FAIL] Failed to create epic: " ++ str_int (status_code response)) ;;;
    print ("  Response: " ++ slice_to 200 (text response)) ;;;
    ret (None, None).

(** [story_data.get("points", 0)] is the record's field. *)
Definition story_payload (story_data : Story) (parent_key : string) : json :=
  JObj [
    ("fields", JObj [
      ("project", JObj [("key", JStr PROJECT_KEY)]);
      ("summary", JStr (story_summary story_data));
      ("description", JObj [
        ("type", JStr "doc");
        ("version", JInt 1);
        ("content", JArr [
          JObj [
            ("type", JStr "paragraph");
            ("content", JArr [JObj [("type", JStr "text");
                                    ("text", JStr (story_description story_data))]])
          ]
        ])
      ]);
      ("issuetype", JObj [("id", JStr STORY_TYPE_ID)]);
      ("parent", JObj [("key", JStr parent_key)]);
      (STORY_POINTS_FIELD, JInt (story_points story_data))
    ])
  ].

Definition create_story (story_data : Story) (parent_key : string)
    : M (option string) :=
  let url := JIRA_URL ++ "/rest/api/3/issue" in
  let payload := story_payload story_data parent_key in
  response <- requests_post oracle
    {| req_url := url; req_auth := auth; req_headers := headers;
       req_json := payload |} ;;
  if (status_code response =? 201)%Z then
    data <- response_json response ;;
    key <- subscript data "key" ;;
    ret (Some key)
  else
    print ("  [FAIL] Failed to create story: " ++ str_int (status_code response)) ;;;
    print ("  Response: " ++ slice_to 200 (text response)) ;;;
    ret None.

(** The body of [for epic in EPICS]; it updates the dict [epic_keys]. *)
Definition epic_loop_body (epic_keys : gmap string string) (epic : Epic)
    : M (gmap string string) :=
  key_id <- create_epic epic ;;
  let '(key, id) := key_id in
  epic_keys <-
    (if truthy_opt key then
       print ("  [OK] " ++ default "" key ++ " - "
              ++ slice_to 40 (epic_summary epic) ++ "...") ;;;
       ret (<[epic_key epic := default "" key]> epic_keys)
     else
       ret epic_keys) ;;
  sleep 500 ;;;
  ret epic_keys.

(** The body of [for story in STORIES]; it reads [epic_keys] and updates
    [created_stories] and [total_points].  The first branch is the
    [continue]. *)
Definition story_loop_body (epic_keys : gmap string string)
    (counters : Z * Z) (story : Story) : M (Z * Z) :=
  let '(created_stories, total_points) := counters in
  let parent_epic := epic_keys !! story_epic story in
  if negb (truthy_opt parent_epic) then
    print ("  [SKIP] No parent epic for: "
           ++ slice_to 30 (story_summary story) ++ "...") ;;;
    ret (created_stories, total_points)
  else
    key <- create_story story (default "" parent_epic) ;;
    counters <-
      (if truthy_opt key then
         print ("  [OK] " ++ default "" key ++ " ("
                ++ str_int (story_points story) ++ "pts) - "
                ++ slice_to 35 (story_summary story) ++ "...") ;;;
         ret (created_stories + 1, total_points + story_points story)
       else
         ret (created_stories, total_points)) ;;
    sleep 300 ;;;
    ret counters.

(** [main()], with the module constants [EPICS] and [STORIES] it reads as
    its arguments. *)
Definition main (epics : list Epic) (stories : list Story) : M unit :=
  print (str_mul "=" 60) ;;;
  print "AIGRC Dashboard Adoption - JIRA Import" ;;;
  print (str_mul "=" 60) ;;;
  print ("Project: " ++ PROJECT_KEY) ;;;
  print ("Total Epics: " ++ str_int (len epics)) ;;;
  print ("Total Stories: " ++ str_int (len stories)) ;;;
  print "" ;;;
  print "Creating Epics..." ;;;
  print (str_mul "-" 40) ;;;
  epic_keys <- for_each epic_loop_body epics ∅ ;;
  print "" ;;;
  print ("Created " ++ str_int (Z.of_nat (size epic_keys)) ++ "/"
         ++ str_int (len epics) ++ " epics") ;;;
  print "" ;;;
  print "Creating Stories..." ;;;
  print (str_mul "-" 40) ;;;
  counters <- for_each (story_loop_body epic_keys) stories (0, 0) ;;
  let '(created_stories, total_points) := counters in
  print "" ;;;
  print (str_mul "=" 60) ;;;
  print "IMPORT COMPLETE" ;;;
  print (str_mul "=" 60) ;;;
  print ("Epics created: " ++ str_int (Z.of_nat (size epic_keys)) ++ "/"
         ++ str_int (len epics)) ;;;
  print ("Stories created: " ++ str_int created_stories ++ "/"
         ++ str_int (len stories)) ;;;
  print ("Total story points: " ++ str_int total_points) ;;;
  print "" ;;;
  print "View the board at:" ;;;
  print ("  " ++ JIRA_URL ++ "/jira/software/projects/" ++ PROJECT_KEY ++ "/boards").

End Script.

(** The script run as a program: the module-level credential check, then
    the [__main__] guard calling [main()]. *)
Definition script (environ : gmap string string) (oracle : nat -> exn + Response)
    : M unit :=
  let JIRA_EMAIL := environ_get environ "JIRA_EMAIL" in
  let JIRA_API_TOKEN := environ_get environ "JIRA_API_TOKEN" in
  if negb (truthy JIRA_EMAIL) || negb (truthy JIRA_API_TOKEN) then
    print "Error: JIRA_EMAIL and JIRA_API_TOKEN environment variables must be set" ;;;
    print "  export JIRA_EMAIL='your-email@example.com'" ;;;
    print "  export JIRA_API_TOKEN='your-api-token'" ;;;
    raise (SystemExit 1)
  else
    main JIRA_EMAIL JIRA_API_TOKEN oracle EPICS STORIES.

(** *** The shape of a run of this script *)

Section Shape.

Variables JIRA_EMAIL JIRA_API_TOKEN : string.

(** The request [create_epic] and [create_story] post for [payload]. *)
Definition request (payload : json) : Request :=
  {| req_url := (JIRA_URL ++ "/rest/api/3/issue")%string;
     req_auth := auth JIRA_EMAIL JIRA_API_TOKEN;
     req_headers := headers;
     req_json := payload |}.

(** [epic_keys] after the turn of the first loop for [e], when the call
    for [e] came back as [res]. *)
Definition recorded (e : Epic) (res : exn + Response)
    (epic_keys : gmap string string) : gmap string string :=
  match created_key res with
  | Some k => <[epic_key e := k]> epic_keys
  | None => epic_keys
  end.

(** The calls of the first loop: one per epic, in the order of [EPICS];
    the outcome of every epic, and the dict the loop ends with. *)
Inductive epic_calls
    : gmap string string -> list Epic -> list exchange -> list outcome
      -> gmap string string -> Prop :=
  | epic_calls_nil (m : gmap string string) : epic_calls m [] [] [] m
  | epic_calls_cons (m m' : gmap string string) (e : Epic) (es : list Epic)
        (res : exn + Response) (xs : list exchange) (os : list outcome) :
      epic_calls (recorded e res m) es xs os m' ->
      epic_calls m (e :: es)
        ((request (epic_payload e), res) :: xs) (outcome_of res :: os) m'.

(** The calls of the second loop under the dict [m]: a story whose epic
    has no key in [m] is passed over without a call; any other story has
    one call, naming the key that [m] holds for its epic. *)
Inductive story_calls (m : gmap string string)
    : list Story -> list exchange -> list outcome -> Prop :=
  | story_calls_nil : story_calls m [] [] []
  | story_calls_skipped (s : Story) (ss : list Story)
        (xs : list exchange) (os : list outcome) :
      truthy_opt (m !! story_epic s) = false ->
      story_calls m ss xs os ->
      story_calls m (s :: ss) xs (Skipped :: os)
  | story_calls_called (s : Story) (ss : list Story) (k : string)
        (res : exn + Response) (xs : list exchange) (os : list outcome) :
      m !! story_epic s = Some k ->
      truthy k = true ->
      story_calls m ss xs os ->
      story_calls m (s :: ss)
        ((request (story_payload s k), res) :: xs) (outcome_of res :: os).

(** The request that creates a parent, and the one that creates a child
    under the parent named [k]. *)
Definition epic_request (e : Epic) : Request := request (epic_payload e).
Definition story_request (s : Story) (k : string) : Request :=
  request (story_payload s k).

(** What holds of the calls at every moment of a run: every child call
    so far names a parent created so far. *)
Definition sound (w : World) : Prop :=
  parents_known epic_request story_request (posts (events w)).

(** Every key held by the dict came back from a call that created a
    parent. *)
Definition dict_sound (epic_keys : gmap string string) (w : World) : Prop :=
  forall key k, epic_keys !! key = Some k ->
    known epic_request k (posts (events w)).

End Shape.

(** The points of the stories whose outcome is a creation. *)
Fixpoint created_points (ss : list Story) (os : list outcome) : Z :=
  match ss, os with
  | s :: ss', o :: os' =>
      (if is_created o then story_points s else 0) + created_points ss' os'
  | _, _ => 0
  end.

(** The lines [create_epic] ([what] is ["epic"]) and [create_story] ([what]
    is ["story"]) print after a call whose response is not a 201. *)
Definition fail_lines (what : string) (res : exn + Response) : list event :=
  match res with
  | inr r =>
      if (status_code r =? 201)%Z then []
      else [EvPrint ("  [FAIL] Failed to create " ++ what ++ ": "
                     ++ str_int (status_code r))%string;
            EvPrint ("  Response: " ++ slice_to 200 (text r))%string]
  | inl _ => []
  end.

(** The closing report that [main] prints. *)
Definition report (created_epics total_epics created_stories total_stories
    total_points : Z) : list string :=
  [ "";
    str_mul "=" 60;
    "IMPORT COMPLETE";
    str_mul "=" 60;
    "Epics created: " ++ str_int created_epics ++ "/" ++ str_int total_epics;
    "Stories created: " ++ str_int created_stories ++ "/"
      ++ str_int total_stories;
    "Total story points: " ++ str_int total_points;
    "";
    "View the board at:";
    "  " ++ JIRA_URL ++ "/jira/software/projects/" ++ PROJECT_KEY ++ "/boards"
  ]%string.

End jira_import_dashboard.

(** ** Words for the statements, and sample runs *)

(** [body] occurs somewhere inside the printed [line]. *)
Definition carries (line body : string) : bool :=
  match String.index 0 body line with
  | Some _ => true
  | None => false
  end.

(** The catalog entry [e] with the points of its stories replaced by [f]. *)
Definition with_points (f : jira_import_cp.Story -> Z) (e : jira_import_cp.Entry)
    : jira_import_cp.Entry :=
  jira_import_cp.mkEntry (jira_import_cp.epic e)
    (map (fun s => jira_import_cp.mkStory (jira_import_cp.story_summary s) (f s)
                     (jira_import_cp.story_description s))
         (jira_import_cp.stories e)).

(** The three lines both scripts print when a credential is missing. *)
Definition instructions : list string :=
  [ "Error: JIRA_EMAIL and JIRA_API_TOKEN environment variables must be set";
    "  export JIRA_EMAIL='your-email@example.com'";
    "  export JIRA_API_TOKEN='your-api-token'" ].

Module Samples.

(** An environment with both credentials, and one with none. *)
Definition credentials : gmap string string :=
  {[ "JIRA_EMAIL" := "dev@example.com"; "JIRA_API_TOKEN" := "secret" ]}.
Definition no_credentials : gmap string string := ∅.

Definition response_created (key id : string) : Response :=
  {| status_code := 201; text := "";
     json_body := Some {[ "key" := key; "id" := id ]} |}.

Definition response_error : Response :=
  {| status_code := 500; text := "Internal Server Error"; json_body := None |}.

(** The tracker creates every issue, naming the n-th one [K-n]. *)
Definition all_created : nat -> exn + Response :=
  fun n => inr (response_created ("K-" ++ pretty n) (pretty n)).

(** The tracker refuses every issue. *)
Definition all_refused : nat -> exn + Response :=
  fun _ => inr response_error.

(** The tracker cannot be reached. *)
Definition unreachable : nat -> exn + Response :=
  fun _ => inl (RequestException "connection refused").

(** The tracker creates every issue but the [n]-th, which it refuses. *)
Definition refused_at (n : nat) : nat -> exn + Response :=
  fun i => if Nat.eqb i n then inr response_error else all_created i.


Definition one_story : list jira_import_dashboard.Story :=
  [ jira_import_dashboard.mkStory "AD-1" "Child of the first epic" 3 "A child" ].

(** A CP catalog of one epic with one story. *)
Definition one_entry : list jira_import_cp.Entry :=
  [ jira_import_cp.mkEntry
      (jira_import_cp.mkEpic "Reporting" "[Dashboard] Reporting" "Reports")
      [ jira_import_cp.mkStory "Write the weekly report" 5 "A child" ] ].

End Samples.

(** ** Words for further statements *)

(** The sleeps among the effects, in milliseconds, in order. *)
Fixpoint sleeps (es : list event) : list Z :=
  match es with
  | [] => []
  | EvSleep ms :: es' => ms :: sleeps es'
  | _ :: es' => sleeps es'
  end.

(** Whether every call is separated by a sleep from the call before it.
    [ready] tells whether a call may come next; the result is [None] when two
    calls come with no sleep in between, and otherwise tells whether a call
    may come after [es]. *)
Fixpoint pace (ready : bool) (es : list event) : option bool :=
  match es with
  | [] => Some ready
  | EvPost _ _ :: es' => if ready then pace false es' else None
  | EvSleep _ :: es' => pace true es'
  | EvPrint _ :: es' => pace ready es'
  end.

(** The tracker answers every call with a status other than 201. *)
Definition refuses (oracle : nat -> exn + Response) : Prop :=
  forall n, exists r, oracle n = inr r /\ status_code r <> 201.

(** The tracker answers every call with a 201 that carries a non-empty key
    and an id. *)
Definition accepts (oracle : nat -> exn + Response) : Prop :=
  forall n, exists r data key id,
    oracle n = inr r /\ status_code r = 201 /\ json_body r = Some data /\
    data !! "key" = Some key /\ truthy key = true /\ data !! "id" = Some id.

(** A call of the CP script that is for an item of the catalog [cat], and
    whose result is what the transport gave: the call creates the epic of an
    entry, or a story of an entry under some parent key. *)
Definition cp_catalog_call (email token : string) (oracle : nat -> exn + Response)
    (cat : list jira_import_cp.Entry) (x : exchange) : Prop :=
  (exists n, snd x = oracle n) /\
  exists e, In e cat /\
    (fst x = jira_import_cp.epic_request email token (jira_import_cp.epic e) \/
     exists s k, In s (jira_import_cp.stories e) /\
       fst x = jira_import_cp.story_request email token s k).

(** The same for the dashboard script and its two lists. *)
Definition dash_catalog_call (email token : string)
    (oracle : nat -> exn + Response)
    (epics : list jira_import_dashboard.Epic)
    (stories : list jira_import_dashboard.Story) (x : exchange) : Prop :=
  (exists n, snd x = oracle n) /\
  ((exists e, In e epics /\
      fst x = jira_import_dashboard.epic_request email token e) \/
   (exists s k, In s stories /\
      fst x = jira_import_dashboard.story_request email token s k)).

(** The exception that a call of [create_issue] of the CP script ends with
    when the transport yields [res], if it ends with one: the exception of
    the transport, or that of decoding the body of a 201. *)
Definition cp_call_raises (res : exn + Response) : option exn :=
  match res with
  | inl ex => Some ex
  | inr r =>
      if (status_code r =? 201)%Z then
        match json_body r with
        | Some _ => None
        | None => Some JSONDecodeError
        end
      else None
  end.

(** The same for [create_story] of the dashboard script, which subscripts
    the decoded body with ["key"]. *)
Definition dash_story_call_raises (res : exn + Response) : option exn :=
  match res with
  | inl ex => Some ex
  | inr r =>
      if (status_code r =? 201)%Z then
        match json_body r with
        | Some data =>
            match data !! "key" with
            | Some _ => None
            | None => Some (KeyError "key")
            end
        | None => Some JSONDecodeError
        end
      else None
  end.

(** The same for [create_epic] of the dashboard script, which subscripts the
    decoded body with ["key"] and then with ["id"]. *)
Definition dash_epic_call_raises (res : exn + Response) : option exn :=
  match res with
  | inl ex => Some ex
  | inr r =>
      if (status_code r =? 201)%Z then
        match json_body r with
        | Some data =>
            match data !! "key", data !! "id" with
            | Some _, Some _ => None
            | Some _, None => Some (KeyError "id")
            | None, _ => Some (KeyError "key")
            end
        | None => Some JSONDecodeError
        end
      else None
  end.

(** What a turn of a loop leaves after its call and the lines it prints: the
    sleep, when the turn returns; nothing, when it raises. *)
Definition closing {A : Type} (r : Result A) (ms : Z) : list event :=
  match r with
  | Ok _ => [EvSleep ms]
  | Raise _ => []
  end.



(** The key that the call for the last created epic of [es] with the
    catalog key [key] came back with, [os] being the outcomes of [es]. *)
Fixpoint last_created (key : string) (es : list jira_import_dashboard.Epic)
    (os : list outcome) : option string :=
  match es, os with
  | e :: es', o :: os' =>
      match last_created key es' os' with
      | Some k => Some k
      | None =>
          if decide (jira_import_dashboard.epic_key e = key) then
            match o with
            | Created k => Some k
            | _ => None
            end
          else None
      end
  | _, _ => None
  end.

(** Two epics under one catalog key. *)
Definition twin_epics : list jira_import_dashboard.Epic :=
  [ jira_import_dashboard.mkEpic "AD-1" "First epic" "The first parent" [];
    jira_import_dashboard.mkEpic "AD-1" "Second epic" "The second parent" [] ].

(** * Properties *)

Local Open Scope list_scope.

(** Printed text stays folded in goals. *)
Arguments str_mul : simpl never.
Arguments str_int : simpl never.
Arguments slice_to : simpl never.
Arguments String.append : simpl never.

(** ** Generic facts about runs *)

Lemma posts_app (es es' : list event) : posts (es ++ es') = posts es ++ posts es'.
Proof.
  induction es as [|e es IH]; simpl; [reflexivity|].
  destruct e; simpl; rewrite ?IH; reflexivity.
Qed.

Lemma printed_app (es es' : list event) :
  printed (es ++ es') = printed es ++ printed es'.
Proof.
  induction es as [|e es IH]; simpl; [reflexivity|].
  destruct e; simpl; rewrite ?IH; reflexivity.
Qed.

Lemma bind_Ok {A B : Type} (m : M A) (k : A -> M B) (w w2 : World) (b : B) :
  bind m k w = (Ok b, w2) ->
  exists a w1, m w = (Ok a, w1) /\ k a w1 = (Ok b, w2).
Proof.
  unfold bind. destruct (m w) as [[a|e] w1]; intros H.
  - exists a, w1. split; [reflexivity | exact H].
  - discriminate H.
Qed.

Lemma bind_run {A B : Type} (m : M A) (k : A -> M B) (w w1 : World) (a : A) :
  m w = (Ok a, w1) -> bind m k w = k a w1.
Proof. unfold bind. intros ->. reflexivity. Qed.

Lemma emit_run (e : event) (w : World) :
  emit e w = (Ok tt, {| served := served w; events := events w ++ [e] |}).
Proof. reflexivity. Qed.

Lemma count_cons (p : outcome -> bool) (o : outcome) (os : list outcome) :
  count p (o :: os) = (if p o then 1 else 0) + count p os.
Proof.
  unfold count, len. simpl. destruct (p o); simpl length; lia.
Qed.

Lemma count_app (p : outcome -> bool) (os os' : list outcome) :
  count p (os ++ os') = count p os + count p os'.
Proof.
  unfold count, len. rewrite List.filter_app, length_app. lia.
Qed.


Lemma created_key_truthy (res : exn + Response) (k : string) :
  created_key res = Some k -> truthy k = true.
Proof.
  unfold created_key. destruct res as [e|r]; [discriminate|].
  destruct (status_code r =? 201)%Z; [|discriminate].
  destruct (json_body r) as [data|]; [|discriminate].
  destruct (truthy_opt (data !! "key")) eqn:Ht; [|discriminate].
  intros Hk. rewrite Hk in Ht. exact Ht.
Qed.

Lemma outcome_of_not_skipped (res : exn + Response) :
  is_skipped (outcome_of res) = false.
Proof. unfold outcome_of. destruct (created_key res); reflexivity. Qed.

(** An invariant of the world that every turn of a loop keeps, however the
    turn ends, is kept by the loop, however it ends. *)
Lemma for_each_inv {A S : Type} (body : S -> A -> M S) (I : World -> Prop) :
  (forall s x w r w', body s x w = (r, w') -> I w -> I w') ->
  forall l s w r w', for_each body l s w = (r, w') -> I w -> I w'.
Proof.
  intros Hbody. induction l as [|x l IH]; intros s w r w' H HI.
  - injection H as <- <-. exact HI.
  - simpl in H. unfold bind in H.
    destruct (body s x w) as [[s1|e] w1] eqn:Hb.
    + eapply IH; [exact H|]. eapply Hbody; eassumption.
    + injection H as <- <-. eapply Hbody; eassumption.
Qed.

(** The same for an invariant that also speaks of the loop's variables; [J]
    is what is left of it when a turn raises. *)
Lemma for_each_inv_state {A S : Type} (body : S -> A -> M S)
    (I : S -> World -> Prop) (J : World -> Prop) :
  (forall s x w s' w', body s x w = (Ok s', w') -> I s w -> I s' w') ->
  (forall s x w e w', body s x w = (Raise e, w') -> I s w -> J w') ->
  forall l s w r w', for_each body l s w = (r, w') -> I s w ->
    match r with Ok s' => I s' w' | Raise _ => J w' end.
Proof.
  intros Hok Hraise. induction l as [|x l IH]; intros s w r w' H HI.
  - injection H as <- <-. exact HI.
  - simpl in H. unfold bind in H.
    destruct (body s x w) as [[s1|e] w1] eqn:Hb.
    + eapply IH; [exact H|]. eapply Hok; eassumption.
    + injection H as <- <-. eapply Hraise; eassumption.
Qed.

Section Known.

Context {Epic Story : Type}.
Variable epic_req : Epic -> Request.
Variable story_req : Story -> string -> Request.
Hypothesis req_distinct : forall e s k, epic_req e <> story_req s k.
Hypothesis story_req_key :
  forall s k s' k', story_req s k = story_req s' k' -> k = k'.

Lemma known_app (k : string) (xs ys : list exchange) :
  known epic_req k xs -> known epic_req k (xs ++ ys).
Proof.
  intros (i & e & res & Hi & Hk). exists i, e, res.
  split; [|exact Hk]. apply lookup_app_l_Some. exact Hi.
Qed.

Lemma known_last (k : string) (xs : list exchange) (e : Epic)
    (res : exn + Response) :
  created_key res = Some k -> known epic_req k (xs ++ [(epic_req e, res)]).
Proof.
  intros Hk. exists (length xs), e, res. split; [|exact Hk].
  rewrite lookup_app_r by lia. rewrite Nat.sub_diag. reflexivity.
Qed.

Lemma parents_known_nil : parents_known epic_req story_req [].
Proof. intros j s k res' H. discriminate H. Qed.

(** A call that creates a parent never breaks the invariant. *)
Lemma parents_known_epic (xs : list exchange) (e : Epic)
    (res : exn + Response) :
  parents_known epic_req story_req xs ->
  parents_known epic_req story_req (xs ++ [(epic_req e, res)]).
Proof.
  intros Hxs j s k res' Hj.
  destruct (decide (j < length xs)%nat) as [Hlt|Hge].
  - rewrite lookup_app_l in Hj by exact Hlt.
    rewrite take_app_le by lia. exact (Hxs _ _ _ _ Hj).
  - rewrite lookup_app_r in Hj by lia.
    destruct (j - length xs)%nat; [|discriminate Hj].
    injection Hj as Hreq _. exfalso. exact (req_distinct _ _ _ Hreq).
Qed.

(** A call that creates a child keeps the invariant when it names a known
    key. *)
Lemma parents_known_story (xs : list exchange) (s : Story) (k : string)
    (res : exn + Response) :
  parents_known epic_req story_req xs ->
  known epic_req k xs ->
  parents_known epic_req story_req (xs ++ [(story_req s k, res)]).
Proof.
  intros Hxs Hk j s' k' res' Hj.
  destruct (decide (j < length xs)%nat) as [Hlt|Hge].
  - rewrite lookup_app_l in Hj by exact Hlt.
    rewrite take_app_le by lia. exact (Hxs _ _ _ _ Hj).
  - rewrite lookup_app_r in Hj by lia.
    destruct (j - length xs)%nat eqn:Hd; [|discriminate Hj].
    assert (j = length xs) as -> by lia.
    rewrite take_app_length.
    injection Hj as Hreq _.
    apply story_req_key in Hreq as ->. exact Hk.
Qed.

End Known.

(** A loop whose body always returns, returns. *)
Lemma for_each_total {A S : Type} (body : S -> A -> M S) (l : list A) :
  (forall s x w, exists s' w', body s x w = (Ok s', w')) ->
  forall s w, exists s' w', for_each body l s w = (Ok s', w').
Proof.
  intros Hbody. induction l as [|x l IH]; intros s w.
  - exists s, w. reflexivity.
  - destruct (Hbody s x w) as (s1 & w1 & H1).
    destruct (IH s1 w1) as (s' & w' & H').
    exists s', w'. simpl. rewrite (bind_run _ _ _ _ _ H1). exact H'.
Qed.

Ltac bind_inv H :=
  let a := fresh "a" in
  let w := fresh "w" in
  let H1 := fresh "Hrun" in
  apply bind_Ok in H; destruct H as (a & w & H1 & H).

(** ** Runs of [jira_import_cp.py] *)

Module CP.
Import jira_import_cp.

Section Runs.

Variables JIRA_EMAIL JIRA_API_TOKEN : string.
Variable oracle : nat -> exn + Response.

Local Abbreviation create_issue := (create_issue JIRA_EMAIL JIRA_API_TOKEN oracle).
Local Abbreviation issue_request := (issue_request JIRA_EMAIL JIRA_API_TOKEN).
Local Abbreviation story_loop_body := (story_loop_body JIRA_EMAIL JIRA_API_TOKEN oracle).
Local Abbreviation epic_loop_body := (epic_loop_body JIRA_EMAIL JIRA_API_TOKEN oracle).
Local Abbreviation main := (main JIRA_EMAIL JIRA_API_TOKEN oracle).
Local Abbreviation child_calls := (child_calls JIRA_EMAIL JIRA_API_TOKEN).
Local Abbreviation run_calls := (run_calls JIRA_EMAIL JIRA_API_TOKEN).
Local Abbreviation epic_request := (epic_request JIRA_EMAIL JIRA_API_TOKEN).
Local Abbreviation story_request := (story_request JIRA_EMAIL JIRA_API_TOKEN).
Local Abbreviation sound := (sound JIRA_EMAIL JIRA_API_TOKEN).
Local Abbreviation created_so_far :=
  (created_so_far JIRA_EMAIL JIRA_API_TOKEN).

(** [create_issue], case by case on what the transport yields. *)
Lemma cp_create_issue_run (issue_data : json) (w : World) :
  create_issue issue_data w =
    let res := oracle (served w) in
    let w1 := {| served := S (served w);
                 events := events w ++ EvPost (issue_request issue_data) res
                             :: error_lines res |} in
    match res with
    | inl e => (Raise e, w1)
    | inr r =>
        if (status_code r =? 201)%Z then
          match json_body r with
          | Some data => (Ok (data !! "key"), w1)
          | None => (Raise JSONDecodeError, w1)
          end
        else (Ok None, w1)
    end.
Proof.
  unfold create_issue, bind, requests_post, error_lines, issue_request. simpl.
  destruct (oracle (served w)) as [e|r]; simpl; [reflexivity|].
  destruct (status_code r =? 201)%Z; simpl.
  - unfold response_json. destruct (json_body r); reflexivity.
  - unfold print, emit. simpl. rewrite <- !app_assoc. reflexivity.
Qed.

(** A call that returns: the key it returns is true exactly when the call
    counts as a creation. *)
Lemma cp_create_issue_Ok (issue_data : json) (w w' : World) (key : option string) :
  create_issue issue_data w = (Ok key, w') ->
  let res := oracle (served w) in
  served w' = S (served w) /\
  events w' = events w ++ EvPost (issue_request issue_data) res :: error_lines res /\
  (if truthy_opt key then created_key res = key else created_key res = None).
Proof.
  rewrite cp_create_issue_run. cbv zeta.
  unfold created_key, error_lines.
  destruct (oracle (served w)) as [e|r]; [discriminate|].
  destruct (status_code r =? 201)%Z.
  - destruct (json_body r) as [data|]; [|discriminate].
    intros [= <- <-]. simpl.
    repeat split. destruct (truthy_opt (data !! "key")); reflexivity.
  - intros [= <- <-]. simpl. repeat split.
Qed.

Lemma cp_posts_error_lines (res : exn + Response) (tl : list event) :
  posts (error_lines res ++ tl) = posts tl.
Proof.
  unfold error_lines. destruct res as [e|r]; [reflexivity|].
  destruct (status_code r =? 201)%Z; reflexivity.
Qed.

(** One turn of the inner loop that returns: one call, for this child,
    and the counter moves exactly when the call counts as a creation. *)
Lemma cp_story_loop_body_Ok (n : Z) (k : string) (cs cs1 j : Z) (s : Story)
    (w w1 : World) :
  story_loop_body n k cs (j, s) w = (Ok cs1, w1) ->
  let res := oracle (served w) in
  exists es,
    events w1 = events w ++ es /\
    served w1 = S (served w) /\
    posts es = [(issue_request (story_issue_data s k), res)] /\
    cs1 = cs + (if is_created (outcome_of res) then 1 else 0).
Proof.
  unfold story_loop_body, create_story, bind, print, sleep, emit, ret.
  rewrite cp_create_issue_run. cbv zeta. simpl served. simpl events.
  unfold outcome_of, created_key.
  destruct (oracle (served w)) as [e|r]; [discriminate|].
  destruct (status_code r =? 201)%Z eqn:Hst.
  - destruct (json_body r) as [data|]; [|discriminate].
    destruct (truthy_opt (data !! "key")) eqn:Ht.
    + intros [= <- <-]. simpl. eexists. split; [|split; [reflexivity|split]].
      * rewrite <- !app_assoc. simpl. reflexivity.
      * simpl. rewrite Hst. reflexivity.
      * destruct (data !! "key"); [reflexivity | discriminate].
    + intros [= <- <-]. simpl. eexists. split; [|split; [reflexivity|split]].
      * rewrite <- !app_assoc. simpl. reflexivity.
      * simpl. rewrite Hst. reflexivity.
      * simpl. lia.
  - intros [= <- <-]. simpl. eexists. split; [|split; [reflexivity|split]].
    + rewrite <- !app_assoc. simpl. reflexivity.
    + simpl. rewrite Hst. reflexivity.
    + simpl. lia.
Qed.

(** The inner loop that returns: the calls of the children, in order. *)
Lemma cp_story_loop_Ok (n : Z) (k : string) (ss : list Story) :
  forall (j cs cs' : Z) (w w' : World),
    for_each (story_loop_body n k) (enumerate j ss) cs w = (Ok cs', w') ->
    exists es os,
      events w' = events w ++ es /\
      served w' = (served w + length ss)%nat /\
      child_calls k ss (posts es) os /\
      Forall (fun o => is_skipped o = false) os /\
      length os = length ss /\
      cs' = cs + count is_created os.
Proof.
  induction ss as [|s ss IH]; intros j cs cs' w w' H.
  - injection H as <- <-. exists [], []. rewrite app_nil_r, Nat.add_0_r.
    repeat (split; [reflexivity || constructor|]).
    unfold count, len. simpl. lia.
  - simpl in H. bind_inv H.
    apply cp_story_loop_body_Ok in Hrun as (es1 & He1 & Hs1 & Hp1 & Hc1).
    apply IH in H as (es2 & os & He2 & Hs2 & Hcalls & Hns & Hlen & Hc2).
    exists (es1 ++ es2), (outcome_of (oracle (served w)) :: os).
    split; [rewrite He2, He1, app_assoc; reflexivity|].
    split; [simpl; lia|].
    split; [rewrite posts_app, Hp1; simpl; constructor; exact Hcalls|].
    split.
    { constructor; [|exact Hns]. unfold outcome_of.
      destruct (created_key _); reflexivity. }
    split; [simpl; lia|].
    rewrite count_cons. lia.
Qed.

(** One turn of the outer loop that returns. *)
Lemma cp_epic_loop_body_Ok (te ce cs ce1 cs1 i : Z) (e : Entry) (w w1 : World) :
  epic_loop_body te (ce, cs) (i, e) w = (Ok (ce1, cs1), w1) ->
  let res := oracle (served w) in
  exists es,
    events w1 = events w ++ es /\
    match created_key res with
    | Some k =>
        exists ys os,
          posts es = (issue_request (epic_issue_data (epic e)), res) :: ys /\
          child_calls k (stories e) ys os /\
          Forall (fun o => is_skipped o = false) os /\
          length os = length (stories e) /\
          ce1 = ce + 1 /\ cs1 = cs + count is_created os
    | None =>
        es = EvPrint (nl ++ "[" ++ str_int i ++ "/" ++ str_int te
                      ++ "] Creating Epic: " ++ epic_name (epic e))%string
             :: EvPost (issue_request (epic_issue_data (epic e))) res
             :: error_lines res
             ++ [EvPrint "  FAILED to create epic"; EvSleep 500] /\
        ce1 = ce /\ cs1 = cs
    end.
Proof.
  intros H res. unfold epic_loop_body in H.
  bind_inv H. injection Hrun as _ <-.
  bind_inv H. unfold create_epic in Hrun.
  apply cp_create_issue_Ok in Hrun as (Hs & He & Hk). simpl in Hs, He, Hk.
  fold res in He, Hk.
  bind_inv H. bind_inv H. injection H as -> <-. injection Hrun0 as _ <-.
  destruct (truthy_opt a0) eqn:Ht.
  - rewrite Hk. destruct a0 as [k|]; [|discriminate]. simpl in Hrun.
    bind_inv Hrun. injection Hrun0 as _ <-.
    bind_inv Hrun. injection Hrun as <- <- <-.
    apply cp_story_loop_Ok in Hrun0 as (es2 & os & He2 & Hs2 & Hc & Hns & Hl & Hcs).
    simpl in He2. rewrite He in He2.
    eexists. split.
    + simpl. rewrite He2. rewrite <- !app_assoc. simpl.
      rewrite <- ?app_assoc. reflexivity.
    + exists (posts es2), os. simpl. rewrite cp_posts_error_lines.
      simpl. rewrite posts_app. simpl. rewrite app_nil_r.
      repeat (split; [reflexivity || assumption|]). exact Hcs.
  - rewrite Hk. bind_inv Hrun. injection Hrun0 as _ <-.
    injection Hrun as <- <- <-. simpl. rewrite He.
    eexists. split.
    + rewrite <- ?app_assoc. simpl. rewrite <- ?app_assoc. reflexivity.
    + repeat split.
Qed.

(** The outer loop that returns: the calls of the whole catalog. *)
Lemma cp_epic_loop_Ok (te : Z) (cat : list Entry) :
  forall (i ce cs ce' cs' : Z) (w w' : World),
    for_each (epic_loop_body te) (enumerate i cat) (ce, cs) w
      = (Ok (ce', cs'), w') ->
    exists es os,
      events w' = events w ++ es /\
      run_calls cat (posts es) os /\
      ce' = ce + count is_created (parents os) /\
      cs' = cs + count is_created (children os).
Proof.
  induction cat as [|e cat IH]; intros i ce cs ce' cs' w w' H.
  - injection H as <- <- <-. exists [], []. rewrite app_nil_r.
    split; [reflexivity|]. split; [constructor|].
    unfold count, len. simpl. lia.
  - simpl in H. bind_inv H. destruct a as [ce1 cs1].
    apply cp_epic_loop_body_Ok in Hrun as (es1 & He1 & Hcase).
    apply IH in H as (es2 & os & He2 & Hcalls & Hce & Hcs).
    destruct (created_key (oracle (served w))) as [k|] eqn:Hk.
    + destruct Hcase as (ys & cos & Hp & Hch & _ & _ & -> & ->).
      exists (es1 ++ es2), ((Created k, cos) :: os).
      split; [rewrite He2, He1, app_assoc; reflexivity|].
      split.
      { rewrite posts_app, Hp. simpl.
        apply run_calls_created; assumption. }
      unfold parents, children in *. simpl.
      rewrite count_cons, count_app. simpl. lia.
    + destruct Hcase as (-> & -> & ->).
      exists (EvPrint (nl ++ "[" ++ str_int i ++ "/" ++ str_int te
                        ++ "] Creating Epic: " ++ epic_name (epic e))%string
              :: EvPost (issue_request (epic_issue_data (epic e)))
                        (oracle (served w))
              :: error_lines (oracle (served w))
              ++ [EvPrint "  FAILED to create epic"; EvSleep 500] ++ es2),
             ((Failed, map (fun _ => Skipped) (stories e)) :: os).
      split.
      { rewrite He2, He1. rewrite <- !app_assoc. simpl.
        rewrite <- ?app_assoc. reflexivity. }
      split.
      { simpl. rewrite cp_posts_error_lines. simpl.
        apply run_calls_failed; assumption. }
      unfold parents, children in *. simpl.
      rewrite count_cons, count_app. simpl.
      assert (Hz : count is_created (map (fun _ : Story => Skipped) (stories e)) = 0).
      { induction (stories e) as [|s ss IHs]; [reflexivity|].
        simpl. rewrite count_cons. simpl. exact IHs. }
      lia.
Qed.

Lemma cp_child_calls_outcomes (k : string) (ss : list Story)
    (xs : list exchange) (os : list outcome) :
  child_calls k ss xs os ->
  length os = length ss /\ length xs = length ss /\
  Forall (fun o => is_skipped o = false) os.
Proof.
  induction 1 as [|s ss res xs os _ (IH1 & IH2 & IH3)].
  - repeat split; constructor.
  - simpl. repeat split; [lia | lia |].
    constructor; [|exact IH3]. unfold outcome_of.
    destruct (created_key res); reflexivity.
Qed.


(** A run of [main] that returns: its calls, and the report it ends
    with. *)
Lemma cp_main_Ok (cat : list Entry) (w w' : World) :
  main cat w = (Ok tt, w') ->
  exists es os progress,
    events w' = events w ++ es /\
    run_calls cat (posts es) os /\
    printed es = progress ++
      report (count is_created (parents os)) (len cat)
             (count is_created (children os))
             (py_sum (map (fun e => len (stories e)) cat)).
Proof.
  intros H. unfold main in H.
  do 4 (bind_inv H; injection Hrun as _ <-).
  bind_inv H. destruct a3 as [ce cs].
  apply cp_epic_loop_Ok in Hrun as (es & os & He & Hcalls & -> & ->).
  simpl in He.
  unfold bind, print, emit in H. simpl in H. injection H as <-.
  eexists _, os, _. split; [|split].
  - simpl. rewrite He. rewrite <- !app_assoc. simpl. reflexivity.
  - simpl. rewrite posts_app. simpl. rewrite app_nil_r. exact Hcalls.
  - simpl. rewrite !printed_app. simpl. rewrite !Z.add_0_l.
    unfold report. rewrite !app_comm_cons. reflexivity.
Qed.

Lemma cp_count_attempted_skipped (ss : list Story) :
  count attempted (map (fun _ : Story => Skipped) ss) = 0.
Proof.
  induction ss as [|s ss IH]; [reflexivity|].
  simpl. rewrite count_cons. simpl. exact IH.
Qed.

Lemma cp_count_attempted_all (os : list outcome) :
  Forall (fun o => is_skipped o = false) os -> count attempted os = len os.
Proof.
  induction 1 as [|o os Ho _ IH]; [reflexivity|].
  rewrite count_cons. unfold attempted at 1. rewrite Ho. simpl.
  unfold len in *. simpl length. lia.
Qed.

(** In the calls of a catalog: the outcomes of every entry fit together,
    and besides one call per parent there is one call per attempted child. *)
Lemma cp_run_calls_entries (cat : list Entry) (xs : list exchange)
    (os : list (outcome * list outcome)) :
  run_calls cat xs os ->
  Forall2 entry_outcome cat os /\
  len xs = len cat + count attempted (children os).
Proof.
  unfold children.
  induction 1 as [|e cat res xs os Hk _ (IH1 & IH2)
                  |e cat res k ys cos xs os Hk Hch _ (IH1 & IH2)].
  - split; [constructor | reflexivity].
  - split.
    + constructor; [reflexivity | exact IH1].
    + simpl. rewrite count_app, cp_count_attempted_skipped.
      unfold len in *. simpl length. lia.
  - apply cp_child_calls_outcomes in Hch as (Hl1 & Hl2 & Hns).
    split.
    + constructor; [|exact IH1]. unfold entry_outcome. simpl.
      split; [exact Hl1|].
      eapply Forall_impl; [exact Hns|]. intros o Ho.
      unfold attempted. rewrite Ho. reflexivity.
    + simpl. rewrite count_app, (cp_count_attempted_all _ Hns).
      unfold len in *. simpl length. rewrite length_app. lia.
Qed.

(** *** What holds of every run, however it ends *)

Lemma cp_request_distinct (e : Epic) (s : Story) (k : string) :
  epic_request e <> story_request s k.
Proof.
  unfold epic_request, story_request, jira_import_cp.issue_request,
    epic_issue_data, story_issue_data.
  congruence.
Qed.

Lemma cp_story_request_key (s : Story) (k : string) (s' : Story) (k' : string) :
  story_request s k = story_request s' k' -> k = k'.
Proof.
  unfold story_request, jira_import_cp.issue_request, story_issue_data.
  congruence.
Qed.

Lemma cp_story_loop_body_posts (n : Z) (k : string) (cs j : Z) (s : Story)
    (w w' : World) (r : Result Z) :
  story_loop_body n k cs (j, s) w = (r, w') ->
  posts (events w') =
    posts (events w)
      ++ [(issue_request (story_issue_data s k), oracle (served w))].
Proof.
  unfold story_loop_body, create_story, bind, print, sleep, emit, ret.
  rewrite cp_create_issue_run. cbv zeta. simpl served. simpl events.
  destruct (oracle (served w)) as [e|r0].
  - intros [= <- <-]. simpl. rewrite !posts_app. simpl.
    rewrite app_nil_r. reflexivity.
  - destruct (status_code r0 =? 201)%Z eqn:Hst.
    + destruct (json_body r0) as [data|].
      * destruct (truthy_opt (data !! "key")); intros [= <- <-]; simpl;
          rewrite !posts_app; simpl; rewrite Hst; simpl;
          rewrite ?app_nil_r; reflexivity.
      * intros [= <- <-]. simpl. rewrite !posts_app. simpl. rewrite Hst.
        simpl. rewrite app_nil_r. reflexivity.
    + intros [= <- <-]. simpl. rewrite !posts_app. simpl. rewrite Hst.
      simpl. rewrite ?app_nil_r. reflexivity.
Qed.

Lemma cp_story_loop_body_sound (n : Z) (k : string) (cs : Z) (js : Z * Story)
    (w w' : World) (r : Result Z) :
  story_loop_body n k cs js w = (r, w') ->
  sound w /\ created_so_far k w -> sound w' /\ created_so_far k w'.
Proof.
  destruct js as [j s]. intros H [Hs Hk].
  apply cp_story_loop_body_posts in H.
  unfold sound, created_so_far, jira_import_cp.sound,
    jira_import_cp.created_so_far in *.
  rewrite H. split.
  - exact (parents_known_story epic_request story_request
             cp_story_request_key _ s k _ Hs Hk).
  - apply known_app. exact Hk.
Qed.

Lemma cp_sound_same_posts (w w' : World) :
  posts (events w') = posts (events w) -> sound w -> sound w'.
Proof. unfold jira_import_cp.sound. intros ->. exact id. Qed.

Lemma cp_created_same_posts (k : string) (w w' : World) :
  posts (events w') = posts (events w) ->
  created_so_far k w -> created_so_far k w'.
Proof. unfold jira_import_cp.created_so_far. intros ->. exact id. Qed.

Lemma cp_epic_loop_body_sound (te : Z) (counters : Z * Z) (ie : Z * Entry)
    (w w' : World) (r : Result (Z * Z)) :
  epic_loop_body te counters ie w = (r, w') -> sound w -> sound w'.
Proof.
  destruct counters as [ce cs], ie as [i e].
  unfold epic_loop_body, create_epic.
  unfold bind at 1. unfold print at 1, emit at 1.
  unfold bind at 1. rewrite cp_create_issue_run. cbv zeta.
  simpl served. simpl events.
  intros H Hs.
  set (res := oracle (served w)) in *.
  set (w1 := {| served := S (served w);
                events := (events w ++ _) ++ _ :: error_lines res |}) in H.
  assert (Hp1 : posts (events w1)
                = posts (events w) ++ [(epic_request (epic e), res)]).
  { unfold w1. simpl. rewrite !posts_app. simpl.
    rewrite <- (app_nil_r (error_lines res)), cp_posts_error_lines.
    simpl. rewrite app_nil_r. reflexivity. }
  assert (Hs1 : sound w1).
  { unfold jira_import_cp.sound in *. rewrite Hp1.
    exact (parents_known_epic epic_request story_request cp_request_distinct
             _ (epic e) res Hs). }
  clearbody w1. clear Hs.
  destruct res as [ex|r0] eqn:Hres.
  { injection H as <- <-. exact Hs1. }
  destruct (status_code r0 =? 201)%Z eqn:Hst.
  2: { unfold bind, print, sleep, emit, ret in H. simpl in H.
       injection H as <- <-. apply (cp_sound_same_posts w1); [|exact Hs1].
       simpl. rewrite !posts_app. simpl. rewrite !app_nil_r. reflexivity. }
  destruct (json_body r0) as [data|] eqn:Hbody.
  2: { injection H as <- <-. exact Hs1. }
  destruct (truthy_opt (data !! "key")) eqn:Ht.
  2: { unfold bind, print, sleep, emit, ret in H. simpl in H.
       injection H as <- <-. apply (cp_sound_same_posts w1); [|exact Hs1].
       simpl. rewrite !posts_app. simpl. rewrite !app_nil_r. reflexivity. }
  destruct (data !! "key") as [k|] eqn:Hkey; [|discriminate Ht].
  cbn [default from_option id] in H.
  unfold bind at 1 in H. unfold bind at 1 in H.
  unfold print at 1, emit at 1 in H. unfold bind at 1 in H.
  match type of H with context [for_each ?b ?l ?s ?w0] =>
    destruct (for_each b l s w0) as [rl w2] eqn:Hloop end.
  assert (Hs2 : sound w2 /\ created_so_far k w2).
  { apply (for_each_inv _ (fun w => sound w /\ created_so_far k w)
             (fun s x w r w' => cp_story_loop_body_sound _ k s x w w' r)
             _ _ _ _ _ Hloop).
    split.
    - apply (cp_sound_same_posts w1); [|exact Hs1].
      simpl. rewrite !posts_app. simpl. rewrite !app_nil_r. reflexivity.
    - apply (cp_created_same_posts k w1).
      { simpl. rewrite !posts_app. simpl. rewrite !app_nil_r. reflexivity. }
      unfold jira_import_cp.created_so_far. rewrite Hp1.
      apply (known_last epic_request k _ (epic e)).
      unfold created_key. rewrite Hst, Hbody, Hkey. simpl.
      simpl in Ht. rewrite Ht. reflexivity. }
  destruct Hs2 as [Hs2 _].
  destruct rl as [cs'|ex].
  - unfold bind, sleep, emit, ret in H. simpl in H. injection H as <- <-.
    apply (cp_sound_same_posts w2); [|exact Hs2].
    simpl. rewrite !posts_app. simpl. rewrite !app_nil_r. reflexivity.
  - injection H as <- <-. exact Hs2.
Qed.

(** Every run of [main], however it ends, keeps the invariant. *)
Lemma cp_main_sound (cat : list Entry) (w w' : World) (r : Result unit) :
  main cat w = (r, w') -> sound w -> sound w'.
Proof.
  unfold main.
  do 4 (unfold bind at 1; unfold print at 1, emit at 1).
  unfold bind at 1. simpl served. simpl events.
  match goal with |- context [for_each ?b ?l ?s ?w0] =>
    destruct (for_each b l s w0) as [rl w1] eqn:Hloop end.
  intros H Hs.
  assert (Hs1 : sound w1).
  { apply (for_each_inv _ sound
             (fun s x w r w' => cp_epic_loop_body_sound _ s x w w' r)
             _ _ _ _ _ Hloop).
    apply (cp_sound_same_posts w); [|exact Hs].
    simpl. rewrite !posts_app. simpl. rewrite !app_nil_r. reflexivity. }
  destruct rl as [[ce cs]|ex].
  - unfold bind, print, emit in H. simpl in H. injection H as <- <-.
    apply (cp_sound_same_posts w1); [|exact Hs1].
    simpl. rewrite !posts_app. simpl. rewrite !app_nil_r. reflexivity.
  - injection H as <- <-. exact Hs1.
Qed.

(** *** Runs against a transport that answers *)

Hypothesis oracle_answers : answers oracle.

Lemma cp_create_issue_total (issue_data : json) (w : World) :
  exists key w', create_issue issue_data w = (Ok key, w').
Proof.
  rewrite cp_create_issue_run. cbv zeta.
  destruct (oracle_answers (served w)) as (r & -> & H201).
  destruct (status_code r =? 201)%Z eqn:Hst.
  - apply Z.eqb_eq in Hst.
    destruct (H201 Hst) as (data & key & id & -> & _).
    eauto.
  - eauto.
Qed.

Lemma cp_story_loop_body_total (n : Z) (k : string) (cs : Z) (js : Z * Story)
    (w : World) :
  exists cs' w', story_loop_body n k cs js w = (Ok cs', w').
Proof.
  destruct js as [j s]. unfold story_loop_body, create_story.
  unfold bind at 1. unfold print at 1, emit at 1.
  match goal with |- context [bind (create_issue ?d) _ ?w0] =>
    destruct (cp_create_issue_total d w0) as (key & w1 & H1) end.
  rewrite (bind_run _ _ _ _ _ H1).
  destruct (truthy_opt key); unfold bind, print, sleep, emit, ret; eauto.
Qed.

Lemma cp_epic_loop_body_total (te : Z) (counters : Z * Z) (ie : Z * Entry)
    (w : World) :
  exists counters' w', epic_loop_body te counters ie w = (Ok counters', w').
Proof.
  destruct counters as [ce cs], ie as [i e].
  unfold epic_loop_body, create_epic.
  unfold bind at 1. unfold print at 1, emit at 1.
  match goal with |- context [bind (create_issue ?d) _ ?w0] =>
    destruct (cp_create_issue_total d w0) as (key & w1 & H1) end.
  rewrite (bind_run _ _ _ _ _ H1).
  destruct (truthy_opt key).
  - unfold bind at 1. unfold bind at 1. unfold print at 1, emit at 1.
    match goal with |- context [bind (for_each ?b ?l ?s) _ ?w0] =>
      destruct (for_each_total b l (cp_story_loop_body_total _ _) s w0)
        as (cs' & w2 & H2) end.
    rewrite (bind_run _ _ _ _ _ H2).
    unfold bind, sleep, emit, ret. eauto.
  - unfold bind, print, sleep, emit, ret. eauto.
Qed.

(** Against a transport that answers, [main] runs to its end. *)
Lemma cp_main_total (cat : list Entry) (w : World) :
  exists w', main cat w = (Ok tt, w').
Proof.
  unfold main.
  do 4 (unfold bind at 1; unfold print at 1, emit at 1).
  match goal with |- context [bind (for_each ?b ?l ?s) _ ?w0] =>
    destruct (for_each_total b l (cp_epic_loop_body_total _) s w0)
      as ([ce cs] & w1 & H1) end.
  rewrite (bind_run _ _ _ _ _ H1).
  unfold bind, print, emit. eauto.
Qed.

End Runs.

End CP.

(** ** Runs of [jira_import_dashboard.py] *)

Module Dashboard.
Import jira_import_dashboard.

Section Runs.

Variables JIRA_EMAIL JIRA_API_TOKEN : string.
Variable oracle : nat -> exn + Response.

Local Abbreviation create_epic := (create_epic JIRA_EMAIL JIRA_API_TOKEN oracle).
Local Abbreviation create_story := (create_story JIRA_EMAIL JIRA_API_TOKEN oracle).
Local Abbreviation request := (request JIRA_EMAIL JIRA_API_TOKEN).
Local Abbreviation epic_loop_body :=
  (epic_loop_body JIRA_EMAIL JIRA_API_TOKEN oracle).
Local Abbreviation story_loop_body :=
  (story_loop_body JIRA_EMAIL JIRA_API_TOKEN oracle).
Local Abbreviation main := (main JIRA_EMAIL JIRA_API_TOKEN oracle).
Local Abbreviation epic_calls := (epic_calls JIRA_EMAIL JIRA_API_TOKEN).
Local Abbreviation story_calls := (story_calls JIRA_EMAIL JIRA_API_TOKEN).
Local Abbreviation epic_request := (epic_request JIRA_EMAIL JIRA_API_TOKEN).
Local Abbreviation story_request := (story_request JIRA_EMAIL JIRA_API_TOKEN).
Local Abbreviation sound := (sound JIRA_EMAIL JIRA_API_TOKEN).
Local Abbreviation dict_sound := (dict_sound JIRA_EMAIL JIRA_API_TOKEN).

Lemma dash_posts_fail_lines (what : string) (res : exn + Response) (tl : list event) :
  posts (fail_lines what res ++ tl) = posts tl.
Proof.
  unfold fail_lines. destruct res as [e|r]; [reflexivity|].
  destruct (status_code r =? 201)%Z; reflexivity.
Qed.

(** [create_epic], case by case on what the transport yields. *)
Lemma dash_create_epic_run (epic_data : Epic) (w : World) :
  create_epic epic_data w =
    let res := oracle (served w) in
    let w1 := {| served := S (served w);
                 events := events w ++ EvPost (request (epic_payload epic_data)) res
                             :: fail_lines "epic" res |} in
    match res with
    | inl e => (Raise e, w1)
    | inr r =>
        if (status_code r =? 201)%Z then
          match json_body r with
          | Some data =>
              match data !! "key" with
              | Some key =>
                  match data !! "id" with
                  | Some id => (Ok (Some key, Some id), w1)
                  | None => (Raise (KeyError "id"), w1)
                  end
              | None => (Raise (KeyError "key"), w1)
              end
          | None => (Raise JSONDecodeError, w1)
          end
        else (Ok (None, None), w1)
    end.
Proof.
  unfold create_epic, bind, requests_post, fail_lines, request. simpl.
  destruct (oracle (served w)) as [e|r]; simpl; [reflexivity|].
  destruct (status_code r =? 201)%Z; simpl.
  - unfold response_json. destruct (json_body r) as [data|]; [|reflexivity].
    simpl. unfold subscript.
    destruct (data !! "key"); [|reflexivity]. simpl.
    destruct (data !! "id"); reflexivity.
  - unfold print, emit. simpl. rewrite <- !app_assoc. reflexivity.
Qed.

(** [create_story], case by case on what the transport yields. *)
Lemma dash_create_story_run (story_data : Story) (parent_key : string) (w : World) :
  create_story story_data parent_key w =
    let res := oracle (served w) in
    let w1 := {| served := S (served w);
                 events := events w
                   ++ EvPost (request (story_payload story_data parent_key)) res
                   :: fail_lines "story" res |} in
    match res with
    | inl e => (Raise e, w1)
    | inr r =>
        if (status_code r =? 201)%Z then
          match json_body r with
          | Some data =>
              match data !! "key" with
              | Some key => (Ok (Some key), w1)
              | None => (Raise (KeyError "key"), w1)
              end
          | None => (Raise JSONDecodeError, w1)
          end
        else (Ok None, w1)
    end.
Proof.
  unfold create_story, bind, requests_post, fail_lines, request. simpl.
  destruct (oracle (served w)) as [e|r]; simpl; [reflexivity|].
  destruct (status_code r =? 201)%Z; simpl.
  - unfold response_json. destruct (json_body r) as [data|]; [|reflexivity].
    simpl. unfold subscript.
    destruct (data !! "key"); reflexivity.
  - unfold print, emit. simpl. rewrite <- !app_assoc. reflexivity.
Qed.

(** One turn of the first loop that returns: one call, for this epic,
    and the dict records the key exactly when the call counts as a
    creation. *)
Lemma dash_epic_loop_body_Ok (m m1 : gmap string string) (e : Epic) (w w1 : World) :
  epic_loop_body m e w = (Ok m1, w1) ->
  let res := oracle (served w) in
  exists es,
    events w1 = events w ++ es /\
    posts es = [(request (epic_payload e), res)] /\
    m1 = recorded e res m.
Proof.
  unfold epic_loop_body, bind. rewrite dash_create_epic_run. cbv zeta.
  unfold recorded, created_key.
  destruct (oracle (served w)) as [ex|r]; [discriminate|].
  destruct (status_code r =? 201)%Z eqn:Hst.
  - destruct (json_body r) as [data|]; [|discriminate].
    destruct (data !! "key") as [key|]; [|discriminate].
    destruct (data !! "id") as [id|]; [|discriminate].
    simpl. destruct (truthy key) eqn:Ht.
    + unfold print, sleep, emit, ret. simpl. intros [= <- <-]. simpl.
      eexists. split; [|split; [|reflexivity]].
      * rewrite <- !app_assoc. simpl. reflexivity.
      * simpl. rewrite Hst. reflexivity.
    + unfold print, sleep, emit, ret. simpl. intros [= <- <-]. simpl.
      eexists. split; [|split; [|reflexivity]].
      * rewrite <- !app_assoc. simpl. reflexivity.
      * simpl. rewrite Hst. reflexivity.
  - unfold print, sleep, emit, ret. simpl. intros [= <- <-]. simpl.
    eexists. split; [|split; [|reflexivity]].
    + rewrite <- !app_assoc. simpl. reflexivity.
    + simpl. rewrite Hst. reflexivity.
Qed.

(** The first loop that returns. *)
Lemma dash_epic_loop_Ok (epics : list Epic) :
  forall (m m' : gmap string string) (w w' : World),
    for_each epic_loop_body epics m w = (Ok m', w') ->
    exists es os,
      events w' = events w ++ es /\
      epic_calls m epics (posts es) os m'.
Proof.
  induction epics as [|e epics IH]; intros m m' w w' H.
  - injection H as <- <-. exists [], []. rewrite app_nil_r.
    split; [reflexivity | constructor].
  - simpl in H. bind_inv H.
    apply dash_epic_loop_body_Ok in Hrun as (es1 & He1 & Hp1 & ->).
    apply IH in H as (es2 & os & He2 & Hcalls).
    exists (es1 ++ es2), (outcome_of (oracle (served w)) :: os).
    split; [rewrite He2, He1, app_assoc; reflexivity|].
    rewrite posts_app, Hp1. simpl. constructor. exact Hcalls.
Qed.

(** One turn of the second loop that returns: either the story is passed
    over, with a line and no call, or one call is made for it. *)
Lemma dash_story_loop_body_Ok (m : gmap string string) (cs tp cs1 tp1 : Z)
    (s : Story) (w w1 : World) :
  story_loop_body m (cs, tp) s w = (Ok (cs1, tp1), w1) ->
  (truthy_opt (m !! story_epic s) = false /\
   events w1 = events w ++
     [EvPrint ("  [SKIP] No parent epic for: "
               ++ slice_to 30 (story_summary s) ++ "...")%string] /\
   cs1 = cs /\ tp1 = tp)
  \/
  (exists k es,
     let res := oracle (served w) in
     m !! story_epic s = Some k /\ truthy k = true /\
     events w1 = events w ++ es /\
     posts es = [(request (story_payload s k), res)] /\
     cs1 = cs + (if is_created (outcome_of res) then 1 else 0) /\
     tp1 = tp + (if is_created (outcome_of res) then story_points s else 0)).
Proof.
  unfold story_loop_body.
  destruct (truthy_opt (m !! story_epic s)) eqn:Hm; simpl negb; cbv iota.
  - destruct (m !! story_epic s) as [k|] eqn:Hk; [|discriminate].
    simpl in Hm. intros H. cbn [negb default from_option id] in H.
    right. exists k.
    unfold bind in H. rewrite dash_create_story_run in H. cbv zeta in H.
    unfold outcome_of, created_key.
    destruct (oracle (served w)) as [ex|r]; [discriminate|].
    destruct (status_code r =? 201)%Z eqn:Hst.
    + destruct (json_body r) as [data|]; [|discriminate].
      destruct (data !! "key") as [key|]; [|discriminate].
      simpl in H. simpl truthy_opt. destruct (truthy key) eqn:Ht.
      * unfold print, sleep, emit, ret in H. simpl in H.
        injection H as <- <- <-. simpl.
        eexists. split; [reflexivity|]. split; [exact Hm|].
        split; [rewrite <- !app_assoc; simpl; reflexivity|].
        split; [simpl; rewrite Hst; reflexivity|]. split; reflexivity.
      * unfold print, sleep, emit, ret in H. simpl in H.
        injection H as <- <- <-. simpl.
        eexists. split; [reflexivity|]. split; [exact Hm|].
        split; [rewrite <- !app_assoc; simpl; reflexivity|].
        split; [simpl; rewrite Hst; reflexivity|]. split; lia.
    + unfold print, sleep, emit, ret in H. simpl in H.
      injection H as <- <- <-. simpl.
      eexists. split; [reflexivity|]. split; [exact Hm|].
      split; [rewrite <- !app_assoc; simpl; reflexivity|].
      split; [simpl; rewrite Hst; reflexivity|]. split; lia.
  - unfold bind, print, emit, ret. simpl. intros [= <- <- <-].
    left. repeat split.
Qed.

(** The second loop that returns. *)
Lemma dash_story_loop_Ok (m : gmap string string) (ss : list Story) :
  forall (cs tp cs' tp' : Z) (w w' : World),
    for_each (story_loop_body m) ss (cs, tp) w = (Ok (cs', tp'), w') ->
    exists es os,
      events w' = events w ++ es /\
      story_calls m ss (posts es) os /\
      cs' = cs + count is_created os /\
      tp' = tp + created_points ss os.
Proof.
  induction ss as [|s ss IH]; intros cs tp cs' tp' w w' H.
  - injection H as <- <- <-. exists [], []. rewrite app_nil_r.
    split; [reflexivity|]. split; [constructor|].
    unfold count, len. simpl. lia.
  - simpl in H. bind_inv H. destruct a as [cs1 tp1].
    apply IH in H as (es2 & os & He2 & Hcalls & -> & ->).
    apply dash_story_loop_body_Ok in Hrun
      as [(Hm & He1 & -> & ->) | (k & es1 & Hm & Hk & He1 & Hp1 & -> & ->)].
    + eexists _, (Skipped :: os). split; [|split].
      * rewrite He2, He1, <- app_assoc. reflexivity.
      * simpl. apply story_calls_skipped; assumption.
      * rewrite count_cons. simpl. lia.
    + exists (es1 ++ es2), (outcome_of (oracle (served w)) :: os).
      split; [|split].
      * rewrite He2, He1, app_assoc. reflexivity.
      * rewrite posts_app, Hp1. simpl.
        apply story_calls_called; assumption.
      * rewrite count_cons. simpl.
        destruct (is_created (outcome_of (oracle (served w)))); lia.
Qed.

(** A run of [main] that returns: the calls of the first loop, then
    those of the second, and the report it ends with. *)
Lemma dash_main_Ok (epics : list Epic) (stories : list Story) (w w' : World) :
  main epics stories w = (Ok tt, w') ->
  exists es exs sxs eos sos m progress,
    events w' = events w ++ es /\
    posts es = exs ++ sxs /\
    epic_calls ∅ epics exs eos m /\
    story_calls m stories sxs sos /\
    printed es = progress ++
      report (Z.of_nat (size m)) (len epics)
             (count is_created sos) (len stories)
             (created_points stories sos).
Proof.
  intros H. unfold main in H.
  do 9 (bind_inv H; injection Hrun as _ <-).
  bind_inv H. rename a8 into m.
  apply dash_epic_loop_Ok in Hrun as (es1 & eos & He1 & Hepics).
  do 5 (bind_inv H; injection Hrun as _ <-).
  bind_inv H. destruct a13 as [cs tp].
  apply dash_story_loop_Ok in Hrun as (es2 & sos & He2 & Hstories & -> & ->).
  simpl in He1, He2.
  unfold bind, print, emit in H. simpl in H. injection H as <-.
  eexists _, (posts es1), (posts es2), eos, sos, m, _.
  split; [|split; [|split; [exact Hepics|split; [exact Hstories|]]]].
  - simpl. rewrite He2, He1. rewrite <- !app_assoc. simpl. reflexivity.
  - simpl. rewrite posts_app. simpl. rewrite posts_app. simpl.
    rewrite app_nil_r. reflexivity.
  - simpl. rewrite !printed_app. simpl. rewrite !printed_app. simpl.
    rewrite !Z.add_0_l. unfold report.
    rewrite !app_comm_cons, app_assoc. reflexivity.
Qed.

(** *** What the two phases say about the dict and the outcomes *)

Lemma dash_epic_calls_lengths (m m' : gmap string string) (es : list Epic)
    (xs : list exchange) (os : list outcome) :
  epic_calls m es xs os m' ->
  length xs = length es /\ length os = length es /\
  count is_skipped os = 0.
Proof.
  induction 1 as [m|m m' e es res xs os _ (IH1 & IH2 & IH3)].
  - repeat split.
  - simpl. rewrite count_cons, outcome_of_not_skipped.
    repeat split; lia.
Qed.

(** Every key the dict holds at the end was there at the start or came
    back from a call that created an epic. *)
Lemma dash_epic_calls_lookup (m m' : gmap string string) (es : list Epic)
    (xs : list exchange) (os : list outcome) (key k : string) :
  epic_calls m es xs os m' ->
  m' !! key = Some k ->
  m !! key = Some k \/
  exists (i : nat) (e : Epic) (res : exn + Response),
    es !! i = Some e /\ xs !! i = Some (request (epic_payload e), res) /\
    epic_key e = key /\ created_key res = Some k.
Proof.
  induction 1 as [m|m m' e es res xs os _ IH]; intros Hm'.
  - left. exact Hm'.
  - destruct (IH Hm') as [Hrec | (i & e' & res' & He & Hx & Hkey & Hk)].
    + unfold recorded in Hrec.
      destruct (created_key res) as [k'|] eqn:Hres; [|left; exact Hrec].
      destruct (decide (epic_key e = key)) as [Heq|Hne].
      * subst key. rewrite lookup_insert_eq in Hrec.
        injection Hrec as ->. right. exists 0%nat, e, res.
        repeat split. exact Hres.
      * rewrite lookup_insert_ne in Hrec by exact Hne. left. exact Hrec.
    + right. exists (S i), e', res'. repeat split; assumption.
Qed.

(** The dict holds non-empty keys only. *)
Lemma dash_epic_calls_truthy (m m' : gmap string string) (es : list Epic)
    (xs : list exchange) (os : list outcome) :
  epic_calls m es xs os m' ->
  (forall key k, m !! key = Some k -> truthy k = true) ->
  forall key k, m' !! key = Some k -> truthy k = true.
Proof.
  intros Hcalls Hm key k Hm'.
  destruct (dash_epic_calls_lookup _ _ _ _ _ _ _ Hcalls Hm')
    as [H | (i & e & res & _ & _ & _ & H)].
  - exact (Hm _ _ H).
  - exact (created_key_truthy _ _ H).
Qed.

(** With distinct catalog keys, the dict grows by one entry per created
    epic. *)
Lemma dash_epic_calls_size (m m' : gmap string string) (es : list Epic)
    (xs : list exchange) (os : list outcome) :
  epic_calls m es xs os m' ->
  NoDup (map epic_key es) ->
  (forall e, In e es -> m !! epic_key e = None) ->
  Z.of_nat (size m') = Z.of_nat (size m) + count is_created os.
Proof.
  induction 1 as [m|m m' e es res xs os _ IH]; intros Hnd Hfresh.
  - unfold count, len. simpl. lia.
  - simpl in Hnd. apply NoDup_cons in Hnd as [Hnotin Hnd].
    rewrite IH; [|exact Hnd|].
    + rewrite count_cons. unfold recorded, outcome_of.
      destruct (created_key res) as [k|]; simpl; [|lia].
      rewrite map_size_insert_None by (apply Hfresh; left; reflexivity).
      lia.
    + intros e' Hin. unfold recorded.
      destruct (created_key res) as [k|]; [|apply Hfresh; right; exact Hin].
      rewrite lookup_insert_ne; [apply Hfresh; right; exact Hin|].
      intros Heq. apply Hnotin. rewrite Heq.
      apply list_elem_of_In, in_map, Hin.
Qed.

Lemma dash_story_calls_lengths (m : gmap string string) (ss : list Story)
    (xs : list exchange) (os : list outcome) :
  story_calls m ss xs os -> length os = length ss.
Proof. induction 1; simpl; lia. Qed.

(** In the calls of the second loop: one call per attempted story, and a
    story is attempted exactly when the dict holds a key for its epic. *)
Lemma dash_story_calls_attempts (m : gmap string string) (ss : list Story)
    (xs : list exchange) (os : list outcome) :
  story_calls m ss xs os ->
  len xs = count attempted os /\
  Forall2 (fun s o => attempted o = truthy_opt (m !! story_epic s)) ss os.
Proof.
  induction 1 as [|s ss xs os Hm _ (IH1 & IH2)|s ss k res xs os Hm Hk _ (IH1 & IH2)].
  - split; [reflexivity | constructor].
  - split.
    + rewrite count_cons. simpl. exact IH1.
    + constructor; [|exact IH2]. rewrite Hm. reflexivity.
  - split.
    + rewrite count_cons. unfold attempted at 1.
      rewrite outcome_of_not_skipped. simpl.
      unfold len in *. simpl length. lia.
    + constructor; [|exact IH2]. rewrite Hm. simpl. rewrite Hk.
      unfold attempted. rewrite outcome_of_not_skipped. reflexivity.
Qed.

(** The first loop leaves alone the keys of epics that are not in its
    list. *)
Lemma dash_epic_calls_unchanged (m m' : gmap string string) (es : list Epic)
    (xs : list exchange) (os : list outcome) (key : string) :
  epic_calls m es xs os m' ->
  key ∉ map epic_key es ->
  m' !! key = m !! key.
Proof.
  induction 1 as [m|m m' e es res xs os _ IH]; intros Hnotin; [reflexivity|].
  simpl in Hnotin. apply not_elem_of_cons in Hnotin as [Hne Hnotin].
  rewrite (IH Hnotin). unfold recorded.
  destruct (created_key res); [|reflexivity].
  apply lookup_insert_ne. congruence.
Qed.

(** With distinct catalog keys, the dict holds for every epic the key its
    creation came back with, and nothing new for an epic that was not
    created. *)
Lemma dash_epic_calls_dict (m m' : gmap string string) (es : list Epic)
    (xs : list exchange) (os : list outcome) :
  epic_calls m es xs os m' ->
  NoDup (map epic_key es) ->
  forall (i : nat) (e : Epic) (o : outcome),
    es !! i = Some e -> os !! i = Some o ->
    m' !! epic_key e = match o with
                       | Created k => Some k
                       | _ => m !! epic_key e
                       end.
Proof.
  induction 1 as [m|m m' e es res xs os Hcalls IH]; intros Hnd i e' o' He' Ho'.
  { discriminate He'. }
  simpl in Hnd. apply NoDup_cons in Hnd as [Hnotin Hnd].
  destruct i as [|i]; simpl in He', Ho'.
  - injection He' as <-. injection Ho' as <-.
    rewrite (dash_epic_calls_unchanged _ _ _ _ _ _ Hcalls Hnotin).
    unfold recorded, outcome_of.
    destruct (created_key res) as [k|]; [|reflexivity].
    apply lookup_insert_eq.
  - rewrite (IH Hnd i e' o' He' Ho').
    assert (Hne : epic_key e <> epic_key e').
    { intros Heq. apply Hnotin. rewrite Heq.
      apply list_elem_of_fmap_2. eapply list_elem_of_lookup_2. exact He'. }
    destruct o' as [k'| |]; try reflexivity.
    all: unfold recorded; destruct (created_key res) as [k|]; [|reflexivity].
    all: apply lookup_insert_ne; exact Hne.
Qed.

(** *** What holds of every run, however it ends *)

Lemma dash_request_distinct (e : Epic) (s : Story) (k : string) :
  epic_request e <> story_request s k.
Proof.
  unfold epic_request, story_request, jira_import_dashboard.request,
    epic_payload, story_payload.
  congruence.
Qed.

Lemma dash_story_request_key (s : Story) (k : string) (s' : Story) (k' : string) :
  story_request s k = story_request s' k' -> k = k'.
Proof.
  unfold story_request, jira_import_dashboard.request, story_payload.
  congruence.
Qed.

Lemma dash_sound_same_posts (w w' : World) :
  posts (events w') = posts (events w) -> sound w -> sound w'.
Proof. unfold jira_import_dashboard.sound. intros ->. exact id. Qed.

Lemma dash_dict_sound_more_posts (m : gmap string string) (w w' : World)
    (xs : list exchange) :
  posts (events w') = posts (events w) ++ xs ->
  dict_sound m w -> dict_sound m w'.
Proof.
  unfold jira_import_dashboard.dict_sound. intros -> Hm key k Hk.
  apply known_app. exact (Hm key k Hk).
Qed.

Lemma dash_epic_loop_body_posts (m : gmap string string) (e : Epic)
    (w w' : World) (r : Result (gmap string string)) :
  epic_loop_body m e w = (r, w') ->
  posts (events w') = posts (events w) ++ [(epic_request e, oracle (served w))].
Proof.
  unfold epic_loop_body, bind. rewrite dash_create_epic_run. cbv zeta.
  unfold fail_lines, print, sleep, emit, ret.
  destruct (oracle (served w)) as [ex|r0].
  { intros [= <- <-]. simpl. rewrite !posts_app. simpl.
    rewrite ?app_nil_r. reflexivity. }
  destruct (status_code r0 =? 201)%Z eqn:Hst.
  2: { intros [= <- <-]. simpl. rewrite !posts_app. simpl.
       rewrite ?app_nil_r. reflexivity. }
  destruct (json_body r0) as [data|].
  2: { intros [= <- <-]. simpl. rewrite !posts_app. simpl.
       rewrite ?app_nil_r. reflexivity. }
  destruct (data !! "key") as [key|].
  2: { intros [= <- <-]. simpl. rewrite !posts_app. simpl.
       rewrite ?app_nil_r. reflexivity. }
  destruct (data !! "id") as [id|].
  2: { intros [= <- <-]. simpl. rewrite !posts_app. simpl.
       rewrite ?app_nil_r. reflexivity. }
  simpl. destruct (truthy key); intros [= <- <-]; simpl;
    rewrite !posts_app; simpl; rewrite ?app_nil_r; reflexivity.
Qed.

Lemma dash_epic_loop_body_sound (m : gmap string string) (e : Epic)
    (w w' : World) (r : Result (gmap string string)) :
  epic_loop_body m e w = (r, w') ->
  sound w /\ dict_sound m w ->
  match r with
  | Ok m' => sound w' /\ dict_sound m' w'
  | Raise _ => sound w'
  end.
Proof.
  intros H [Hs Hm].
  pose proof (dash_epic_loop_body_posts _ _ _ _ _ H) as Hp.
  assert (Hs' : sound w').
  { unfold jira_import_dashboard.sound in *. rewrite Hp.
    exact (parents_known_epic epic_request story_request dash_request_distinct
             _ e _ Hs). }
  destruct r as [m'|ex]; [|exact Hs'].
  split; [exact Hs'|].
  apply dash_epic_loop_body_Ok in H as (es & _ & _ & ->).
  unfold recorded.
  destruct (created_key (oracle (served w))) as [k|] eqn:Hk.
  - intros key k' Hlook.
    destruct (decide (epic_key e = key)) as [Heq|Hne].
    + subst key. rewrite lookup_insert_eq in Hlook. injection Hlook as <-.
      rewrite Hp. apply (known_last epic_request k _ e). exact Hk.
    + rewrite lookup_insert_ne in Hlook by exact Hne.
      rewrite Hp. apply known_app. exact (Hm _ _ Hlook).
  - exact (dash_dict_sound_more_posts _ _ _ _ Hp Hm).
Qed.

Lemma dash_story_loop_body_sound (m : gmap string string) (counters : Z * Z)
    (s : Story) (w w' : World) (r : Result (Z * Z)) :
  story_loop_body m counters s w = (r, w') ->
  sound w /\ dict_sound m w -> sound w' /\ dict_sound m w'.
Proof.
  destruct counters as [cs tp]. unfold story_loop_body.
  intros H [Hs Hm].
  destruct (m !! story_epic s) as [k|] eqn:Hk; simpl in H.
  2: { unfold bind, print, emit, ret in H. simpl in H.
       injection H as <- <-. split.
       - apply (dash_sound_same_posts w); [|exact Hs].
         simpl. rewrite posts_app. simpl. rewrite app_nil_r. reflexivity.
       - apply (dash_dict_sound_more_posts m w _ []); [|exact Hm].
         simpl. rewrite posts_app. reflexivity. }
  destruct (truthy k) eqn:Ht; simpl in H.
  2: { unfold bind, print, emit, ret in H. simpl in H.
       injection H as <- <-. split.
       - apply (dash_sound_same_posts w); [|exact Hs].
         simpl. rewrite posts_app. simpl. rewrite app_nil_r. reflexivity.
       - apply (dash_dict_sound_more_posts m w _ []); [|exact Hm].
         simpl. rewrite posts_app. reflexivity. }
  assert (Hp : posts (events w')
               = posts (events w) ++ [(story_request s k, oracle (served w))]).
  { unfold bind in H. rewrite dash_create_story_run in H. cbv zeta in H.
    unfold fail_lines, print, sleep, emit, ret in H.
    destruct (oracle (served w)) as [ex|r0].
    { injection H as <- <-. simpl. rewrite !posts_app. simpl.
      rewrite ?app_nil_r. reflexivity. }
    destruct (status_code r0 =? 201)%Z eqn:Hst.
    2: { injection H as <- <-. simpl. rewrite !posts_app. simpl.
         rewrite ?app_nil_r. reflexivity. }
    destruct (json_body r0) as [data|].
    2: { injection H as <- <-. simpl. rewrite !posts_app. simpl.
         rewrite ?app_nil_r. reflexivity. }
    destruct (data !! "key") as [key|].
    2: { injection H as <- <-. simpl. rewrite !posts_app. simpl.
         rewrite ?app_nil_r. reflexivity. }
    simpl in H. destruct (truthy key); injection H as <- <-; simpl;
      rewrite !posts_app; simpl; rewrite ?app_nil_r; reflexivity. }
  split.
  - unfold jira_import_dashboard.sound in *. rewrite Hp.
    exact (parents_known_story epic_request story_request
             dash_story_request_key _ s k _ Hs (Hm _ _ Hk)).
  - exact (dash_dict_sound_more_posts _ _ _ _ Hp Hm).
Qed.

(** Every run of [main], however it ends, keeps the invariant. *)
Lemma dash_main_sound (epics : list Epic) (stories : list Story)
    (w w' : World) (r : Result unit) :
  main epics stories w = (r, w') -> sound w -> sound w'.
Proof.
  unfold main.
  do 9 (unfold bind at 1; unfold print at 1, emit at 1).
  unfold bind at 1. simpl served. simpl events.
  match goal with |- context [for_each ?b ?l ?s ?w0] =>
    destruct (for_each b l s w0) as [rl w1] eqn:Hloop1 end.
  intros H Hs.
  apply (for_each_inv_state _ (fun m w => sound w /\ dict_sound m w) sound
           (fun s x w s' w' H => dash_epic_loop_body_sound s x w w' (Ok s') H)
           (fun s x w e w' H => dash_epic_loop_body_sound s x w w' (Raise e) H))
    in Hloop1.
  2: { split.
       - apply (dash_sound_same_posts w); [|exact Hs].
         simpl. rewrite !posts_app. simpl. rewrite !app_nil_r. reflexivity.
       - intros key k Hk. rewrite lookup_empty in Hk. discriminate Hk. }
  destruct rl as [m|ex].
  2: { injection H as <- <-. exact Hloop1. }
  do 5 (unfold bind at 1 in H; unfold print at 1, emit at 1 in H).
  unfold bind at 1 in H. simpl served in H. simpl events in H.
  match type of H with context [for_each ?b ?l ?s ?w0] =>
    destruct (for_each b l s w0) as [rl w2] eqn:Hloop2 end.
  apply (for_each_inv _ (fun w => sound w /\ dict_sound m w)
           (fun s x w r w' => dash_story_loop_body_sound m s x w w' r))
    in Hloop2.
  2: { destruct Hloop1 as [Hs1 Hm1]. split.
       - apply (dash_sound_same_posts w1); [|exact Hs1].
         simpl. rewrite !posts_app. simpl. rewrite !app_nil_r. reflexivity.
       - apply (dash_dict_sound_more_posts m w1 _ []); [|exact Hm1].
         simpl. rewrite !posts_app. simpl. rewrite !app_nil_r. reflexivity. }
  destruct Hloop2 as [Hs2 _].
  destruct rl as [[cs tp]|ex].
  - unfold bind, print, emit in H. simpl in H. injection H as <- <-.
    apply (dash_sound_same_posts w2); [|exact Hs2].
    simpl. rewrite !posts_app. simpl. rewrite !app_nil_r. reflexivity.
  - injection H as <- <-. exact Hs2.
Qed.

(** *** Runs against a transport that answers *)

Hypothesis oracle_answers : answers oracle.

Lemma dash_epic_loop_body_total (m : gmap string string) (e : Epic) (w : World) :
  exists m' w', epic_loop_body m e w = (Ok m', w').
Proof.
  unfold epic_loop_body, bind. rewrite dash_create_epic_run. cbv zeta.
  destruct (oracle_answers (served w)) as (r & -> & H201).
  destruct (status_code r =? 201)%Z eqn:Hst.
  - apply Z.eqb_eq in Hst.
    destruct (H201 Hst) as (data & key & id & -> & -> & ->).
    simpl. destruct (truthy key); unfold print, sleep, emit, ret; eauto.
  - simpl. unfold sleep, emit, ret. eauto.
Qed.

Lemma dash_story_loop_body_total (m : gmap string string) (counters : Z * Z)
    (s : Story) (w : World) :
  exists counters' w', story_loop_body m counters s w = (Ok counters', w').
Proof.
  destruct counters as [cs tp]. unfold story_loop_body.
  destruct (negb (truthy_opt (m !! story_epic s))).
  - unfold bind, print, emit, ret. eauto.
  - unfold bind. rewrite dash_create_story_run. cbv zeta.
    destruct (oracle_answers (served w)) as (r & -> & H201).
    destruct (status_code r =? 201)%Z eqn:Hst.
    + apply Z.eqb_eq in Hst.
      destruct (H201 Hst) as (data & key & id & -> & -> & _).
      simpl. destruct (truthy key); unfold print, sleep, emit, ret; eauto.
    + simpl. unfold sleep, emit, ret. eauto.
Qed.

(** Against a transport that answers, [main] runs to its end. *)
Lemma dash_main_total (epics : list Epic) (stories : list Story) (w : World) :
  exists w', main epics stories w = (Ok tt, w').
Proof.
  unfold main.
  do 9 (unfold bind at 1; unfold print at 1, emit at 1).
  match goal with |- context [bind (for_each ?b ?l ?s) _ ?w0] =>
    destruct (for_each_total b l dash_epic_loop_body_total s w0)
      as (m & w1 & H1) end.
  rewrite (bind_run _ _ _ _ _ H1).
  do 5 (unfold bind at 1; unfold print at 1, emit at 1).
  match goal with |- context [bind (for_each ?b ?l ?s) _ ?w0] =>
    destruct (for_each_total b l (dash_story_loop_body_total m) s w0)
      as ([cs tp] & w2 & H2) end.
  rewrite (bind_run _ _ _ _ _ H2).
  unfold bind, print, emit. eauto.
Qed.

End Runs.

End Dashboard.

(** * The claims of the specification *)

(** C7: when the account identifier or the API token is absent from the
    environment or empty, either script prints its three lines of
    instructions, makes no remote call at all, and exits with status 1. *)
Theorem missing_credentials_refused (environ : gmap string string)
    (oracle : nat -> exn + Response) :
  environ_get environ "JIRA_EMAIL" = "" \/
  environ_get environ "JIRA_API_TOKEN" = "" ->
  let refused :=
    (Raise (SystemExit 1) : Result unit,
     {| served := 0; events := map EvPrint instructions |}) in
  jira_import_cp.script environ oracle world0 = refused /\
  jira_import_dashboard.script environ oracle world0 = refused /\
  exit_status (fst refused) = 1 /\
  posts (events (snd refused)) = [].
Proof.
  intros Hmissing refused.
  assert (Hcheck : negb (truthy (environ_get environ "JIRA_EMAIL"))
                   || negb (truthy (environ_get environ "JIRA_API_TOKEN")) = true).
  { destruct Hmissing as [-> | ->]; simpl; [reflexivity|].
    apply orb_true_r. }
  unfold jira_import_cp.script, jira_import_dashboard.script.
  rewrite Hcheck. repeat split.
Qed.

Lemma missing_credentials_refused_witness :
  (environ_get Samples.no_credentials "JIRA_EMAIL" = "" \/
   environ_get Samples.no_credentials "JIRA_API_TOKEN" = "") /\
  exit_status
    (fst (jira_import_cp.script Samples.no_credentials Samples.all_created world0))
    = 1.
Proof.
  assert (H : environ_get Samples.no_credentials "JIRA_EMAIL" = "" \/
              environ_get Samples.no_credentials "JIRA_API_TOKEN" = "").
  { left. reflexivity. }
  split; [exact H|].
  destruct (missing_credentials_refused Samples.no_credentials
              Samples.all_created H) as (-> & _ & Hexit & _).
  exact Hexit.
Defined.


Lemma sample_answers (n : nat) : answers (Samples.refused_at n).
Proof.
  intros i. unfold Samples.refused_at, Samples.all_created.
  destruct (Nat.eqb i n).
  - exists Samples.response_error. split; [reflexivity|]. discriminate.
  - eexists. split; [reflexivity|]. intros _.
    eexists _, _, _. split; [reflexivity|]. split; reflexivity.
Qed.



Lemma for_each_cons {A S : Type} (body : S -> A -> M S) (x : A) (l : list A)
    (s : S) (w : World) :
  for_each body (x :: l) s w =
    match body s x w with
    | (Ok s', w') => for_each body l s' w'
    | (Raise e, w') => (Raise e, w')
    end.
Proof. reflexivity. Qed.

Lemma cp_story_loop_without_points (email token : string)
    (oracle : nat -> exn + Response) (f : jira_import_cp.Story -> Z)
    (n : Z) (k : string) (ss : list jira_import_cp.Story) :
  forall (j cs : Z) (w : World),
    for_each (jira_import_cp.story_loop_body email token oracle n k)
      (enumerate j
         (map (fun s => jira_import_cp.mkStory (jira_import_cp.story_summary s)
                          (f s) (jira_import_cp.story_description s)) ss))
      cs w
    = for_each (jira_import_cp.story_loop_body email token oracle n k)
        (enumerate j ss) cs w.
Proof.
  induction ss as [|s ss IH]; intros j cs w; [reflexivity|].
  rewrite map_cons. change (enumerate j (?x :: ?l)) with ((j, x) :: enumerate (j + 1) l).
  rewrite !for_each_cons.
  change (jira_import_cp.story_loop_body email token oracle n k cs
            (j, jira_import_cp.mkStory (jira_import_cp.story_summary s) (f s)
                  (jira_import_cp.story_description s)) w)
    with (jira_import_cp.story_loop_body email token oracle n k cs (j, s) w).
  destruct (jira_import_cp.story_loop_body email token oracle n k cs (j, s) w)
    as [[cs1|e] w1]; [apply IH | reflexivity].
Qed.

Lemma cp_epic_loop_without_points (email token : string)
    (oracle : nat -> exn + Response) (f : jira_import_cp.Story -> Z)
    (te : Z) (cat : list jira_import_cp.Entry) :
  forall (i : Z) (counters : Z * Z) (w : World),
    for_each (jira_import_cp.epic_loop_body email token oracle te)
      (enumerate i (map (with_points f) cat)) counters w
    = for_each (jira_import_cp.epic_loop_body email token oracle te)
        (enumerate i cat) counters w.
Proof.
  induction cat as [|e cat IH]; intros i counters w; [reflexivity|].
  rewrite map_cons. change (enumerate i (?x :: ?l)) with ((i, x) :: enumerate (i + 1) l).
  rewrite !for_each_cons.
  assert (Hbody : jira_import_cp.epic_loop_body email token oracle te counters
                    (i, with_points f e) w
                  = jira_import_cp.epic_loop_body email token oracle te counters
                      (i, e) w).
  { destruct counters as [ce cs].
    unfold jira_import_cp.epic_loop_body, with_points. simpl.
    unfold len. rewrite length_map.
    unfold bind.
    destruct (print _ w) as [[u|ex] w0]; [|reflexivity].
    destruct (jira_import_cp.create_epic email token oracle _ w0)
      as [[key|ex] w1]; [|reflexivity].
    destruct (truthy_opt key); [|reflexivity].
    destruct (print _ w1) as [[u1|ex] w2]; [|reflexivity].
    rewrite cp_story_loop_without_points. reflexivity. }
  rewrite Hbody.
  destruct (jira_import_cp.epic_loop_body email token oracle te counters (i, e) w)
    as [[c1|ex] w1]; [apply IH | reflexivity].
Qed.

(** C10: the payload that [create_story] of the CP script builds has the
    five fields project, summary, description, issuetype and parent, and
    none for story points; it is the same whatever the points of the story,
    and so is the whole run of [main]: the points never reach the
    tracker. *)
Theorem cp_story_points_never_sent (email token : string)
    (oracle : nat -> exn + Response) :
  (forall (s : jira_import_cp.Story) (k : string),
     jkeys (jira_import_cp.story_issue_data s k) = ["fields"] /\
     exists fields,
       jfield "fields" (jira_import_cp.story_issue_data s k) = Some fields /\
       jkeys fields = ["project"; "summary"; "description"; "issuetype"; "parent"])
  /\
  (forall (s : jira_import_cp.Story) (p : Z) (k : string),
     jira_import_cp.story_issue_data
       (jira_import_cp.mkStory (jira_import_cp.story_summary s) p
          (jira_import_cp.story_description s)) k
     = jira_import_cp.story_issue_data s k)
  /\
  (forall (f : jira_import_cp.Story -> Z) (cat : list jira_import_cp.Entry)
          (w : World),
     jira_import_cp.main email token oracle (map (with_points f) cat) w
     = jira_import_cp.main email token oracle cat w).
Proof.
  split; [|split].
  - intros s k. split; [reflexivity|]. eexists. split; reflexivity.
  - intros s p k. reflexivity.
  - intros f cat w. unfold jira_import_cp.main.
    assert (Hlen : len (map (with_points f) cat) = len cat).
    { unfold len. rewrite length_map. reflexivity. }
    assert (Hsum : py_sum (map (fun e => len (jira_import_cp.stories e))
                             (map (with_points f) cat))
                   = py_sum (map (fun e => len (jira_import_cp.stories e)) cat)).
    { rewrite List.map_map. f_equal. apply List.map_ext. intros e.
      unfold with_points, len. simpl. rewrite length_map. reflexivity. }
    rewrite Hlen, Hsum. unfold bind.
    repeat match goal with
           | |- context [print ?l ?w0] =>
               destruct (print l w0) as [[? | ?] ?]; [|reflexivity]
           end.
    rewrite cp_epic_loop_without_points. reflexivity.
Qed.

(** C9: in every run of either script, however it ends, every call that
    creates a child names as its parent a key that an earlier call of the
    same run, one that created a parent, came back with.  In the dashboard
    script the dict [epic_keys] that a completed first loop leaves holds only
    keys that came back from such calls, a story is posted only under the key
    the dict holds for its epic, and a story whose epic has no key in the dict
    is passed over: no call, and both counters stay as they are. *)
Theorem parent_reference_was_returned (email token : string)
    (oracle : nat -> exn + Response) :
  (forall (cat : list jira_import_cp.Entry),
     jira_import_cp.sound email token
       (snd (jira_import_cp.main email token oracle cat world0)))
  /\
  (forall (epics : list jira_import_dashboard.Epic)
          (stories : list jira_import_dashboard.Story),
     jira_import_dashboard.sound email token
       (snd (jira_import_dashboard.main email token oracle epics stories world0)))
  /\
  (forall (epics : list jira_import_dashboard.Epic)
          (stories : list jira_import_dashboard.Story) (w : World),
     fst (jira_import_dashboard.main email token oracle epics stories w) = Ok tt ->
     exists es exs sxs eos sos m,
       events (snd (jira_import_dashboard.main email token oracle epics stories w))
         = events w ++ es /\
       posts es = exs ++ sxs /\
       jira_import_dashboard.epic_calls email token ∅ epics exs eos m /\
       jira_import_dashboard.story_calls email token m stories sxs sos /\
       forall key k, m !! key = Some k ->
         exists (i : nat) (e : jira_import_dashboard.Epic) (res : exn + Response),
           epics !! i = Some e /\
           exs !! i = Some (jira_import_dashboard.epic_request email token e, res) /\
           jira_import_dashboard.epic_key e = key /\
           created_key res = Some k)
  /\
  (forall (m : gmap string string) (counters : Z * Z)
          (s : jira_import_dashboard.Story) (w : World),
     m !! jira_import_dashboard.story_epic s = None ->
     jira_import_dashboard.story_loop_body email token oracle m counters s w
     = (Ok counters,
        {| served := served w;
           events := events w ++
             [EvPrint ("  [SKIP] No parent epic for: "
                       ++ slice_to 30 (jira_import_dashboard.story_summary s)
                       ++ "...")%string] |})).
Proof.
  split; [|split; [|split]].
  - intros cat.
    destruct (jira_import_cp.main email token oracle cat world0) as [r w'] eqn:H.
    apply (CP.cp_main_sound _ _ _ _ _ _ _ H).
    apply parents_known_nil.
  - intros epics stories.
    destruct (jira_import_dashboard.main email token oracle epics stories world0)
      as [r w'] eqn:H.
    apply (Dashboard.dash_main_sound _ _ _ _ _ _ _ _ H).
    apply parents_known_nil.
  - intros epics stories w Hdone.
    destruct (jira_import_dashboard.main email token oracle epics stories w)
      as [r w'] eqn:H.
    simpl in Hdone. subst r.
    apply Dashboard.dash_main_Ok in H
      as (es & exs & sxs & eos & sos & m & progress & He & Hp & Hepics & Hstories & _).
    exists es, exs, sxs, eos, sos, m.
    repeat (split; [assumption|]).
    intros key k Hk.
    destruct (Dashboard.dash_epic_calls_lookup _ _ _ _ _ _ _ _ _ Hepics Hk)
      as [Hempty | Hfound].
    + rewrite lookup_empty in Hempty. discriminate Hempty.
    + exact Hfound.
  - intros m [cs tp] s w Hnone.
    unfold jira_import_dashboard.story_loop_body. rewrite Hnone. reflexivity.
Qed.

Lemma parent_reference_was_returned_witness :
  let run := jira_import_dashboard.main "dev@example.com" "secret"
               Samples.all_refused jira_import_dashboard.EPICS
               jira_import_dashboard.STORIES world0 in
  let orphan := jira_import_dashboard.mkStory "AD-1" "Orphan" 3 "" in
  fst run = Ok tt /\
  (∅ : gmap string string) !! jira_import_dashboard.story_epic orphan = None /\
  (exists es exs sxs eos sos m,
     events (snd run) = events world0 ++ es /\
     posts es = exs ++ sxs /\
     jira_import_dashboard.epic_calls "dev@example.com" "secret" ∅
       jira_import_dashboard.EPICS exs eos m /\
     jira_import_dashboard.story_calls "dev@example.com" "secret" m
       jira_import_dashboard.STORIES sxs sos /\
     forall key k, m !! key = Some k ->
       exists (i : nat) (e : jira_import_dashboard.Epic) (res : exn + Response),
         jira_import_dashboard.EPICS !! i = Some e /\
         exs !! i = Some (jira_import_dashboard.epic_request
                            "dev@example.com" "secret" e, res) /\
         jira_import_dashboard.epic_key e = key /\
         created_key res = Some k) /\
  fst (jira_import_dashboard.story_loop_body "dev@example.com" "secret"
         Samples.all_refused ∅ (0, 0) orphan world0) = Ok (0, 0).
Proof.
  intros run orphan.
  assert (Hdone : fst run = Ok tt) by (vm_compute; reflexivity).
  assert (Hnone : (∅ : gmap string string)
                    !! jira_import_dashboard.story_epic orphan = None)
    by reflexivity.
  destruct (parent_reference_was_returned "dev@example.com" "secret"
              Samples.all_refused) as (_ & _ & Hdict & Hskip).
  split; [exact Hdone|]. split; [exact Hnone|]. split.
  - exact (Hdict jira_import_dashboard.EPICS jira_import_dashboard.STORIES
             world0 Hdone).
  - rewrite (Hskip ∅ (0, 0) orphan world0 Hnone). reflexivity.
Defined.


Lemma EPICS_keys_distinct :
  NoDup (map jira_import_dashboard.epic_key jira_import_dashboard.EPICS).
Proof. apply (bool_decide_unpack _). vm_compute. reflexivity. Qed.





(** C3, as stated, fails on the CP script: when the parent is refused, the
    run makes the one call for the parent, and nothing it prints names the
    child: the child is not recorded, as skipped or otherwise. *)
Lemma cp_skipped_child_leaves_no_record :
  let run := jira_import_cp.main "dev@example.com" "secret" Samples.all_refused
               Samples.one_entry world0 in
  fst run = Ok tt /\
  length (posts (events (snd run))) = 1%nat /\
  printed (events (snd run)) =
    [ "Starting JIRA import to project CP...";
      str_mul "=" 60;
      "Will create 1 Epics and 1 Stories";
      str_mul "=" 60;
      (nl ++ "[1/1] Creating Epic: Reporting")%string;
      "Error creating issue: 500";
      "Internal Server Error";
      "  FAILED to create epic";
      (nl ++ str_mul "=" 60)%string;
      "Import complete!";
      "  Epics created: 0/1";
      "  Stories created: 0/1";
      "  Total story points: 349";
      str_mul "=" 60 ] /\
  ~ exists line,
      In line (printed (events (snd run))) /\
      carries line "Write the weekly report" = true.
Proof.
  intros run.
  split; [vm_compute; reflexivity|].
  split; [vm_compute; reflexivity|].
  split; [vm_compute; reflexivity|].
  intros (line & Hin & Hcarries).
  assert (Hnone : existsb (fun l => carries l "Write the weekly report")
                    (printed (events (snd run))) = false)
    by (vm_compute; reflexivity).
  assert (Hsome : existsb (fun l => carries l "Write the weekly report")
                    (printed (events (snd run))) = true).
  { apply existsb_exists. exists line. split; assumption. }
  rewrite Hnone in Hsome. discriminate Hsome.
Qed.

Example carries_finds_text :
  carries "  [1/1] Creating Story: Write the weekly report..."
          "Write the weekly report" = true.
Proof. reflexivity. Qed.

(** C3, amended: in a run that reaches its end a call is made for a child
    exactly when its parent was created: the children of a parent that was
    not created are all skipped, with no call, and are never counted as
    failed; the children of a created parent are all attempted; the calls of
    a run are one per parent and one per attempted child.  The CP script
    records nothing for a skipped child: the turn of a parent that is not
    created prints the parent's lines only and leaves the counters alone.  The
    dashboard script prints one [SKIP] line for a skipped story, and with
    distinct catalog keys its dict holds a key for an epic exactly when that
    epic was created. *)
Theorem child_attempted_iff_parent_created (email token : string)
    (oracle : nat -> exn + Response) :
  (forall (cat : list jira_import_cp.Entry) (w : World),
     fst (jira_import_cp.main email token oracle cat w) = Ok tt ->
     exists es os,
       events (snd (jira_import_cp.main email token oracle cat w))
         = events w ++ es /\
       jira_import_cp.run_calls email token cat (posts es) os /\
       Forall2 jira_import_cp.entry_outcome cat os /\
       len (posts es) = len cat + count attempted (jira_import_cp.children os))
  /\
  (forall (te ce cs ce1 cs1 i : Z) (e : jira_import_cp.Entry) (w w1 : World),
     jira_import_cp.epic_loop_body email token oracle te (ce, cs) (i, e) w
       = (Ok (ce1, cs1), w1) ->
     created_key (oracle (served w)) = None ->
     events w1 = events w ++
       EvPrint (nl ++ "[" ++ str_int i ++ "/" ++ str_int te
                ++ "] Creating Epic: "
                ++ jira_import_cp.epic_name (jira_import_cp.epic e))%string
       :: EvPost (jira_import_cp.epic_request email token (jira_import_cp.epic e))
                 (oracle (served w))
       :: jira_import_cp.error_lines (oracle (served w))
       ++ [EvPrint "  FAILED to create epic"; EvSleep 500] /\
     ce1 = ce /\ cs1 = cs)
  /\
  (forall (epics : list jira_import_dashboard.Epic)
          (stories : list jira_import_dashboard.Story) (w : World),
     NoDup (map jira_import_dashboard.epic_key epics) ->
     fst (jira_import_dashboard.main email token oracle epics stories w) = Ok tt ->
     exists es exs sxs eos sos m,
       events (snd (jira_import_dashboard.main email token oracle epics stories w))
         = events w ++ es /\
       posts es = exs ++ sxs /\
       jira_import_dashboard.epic_calls email token ∅ epics exs eos m /\
       jira_import_dashboard.story_calls email token m stories sxs sos /\
       len sxs = count attempted sos /\
       Forall2 (fun s o =>
                  attempted o
                  = truthy_opt (m !! jira_import_dashboard.story_epic s))
               stories sos /\
       forall (i : nat) (e : jira_import_dashboard.Epic) (o : outcome),
         epics !! i = Some e -> eos !! i = Some o ->
         m !! jira_import_dashboard.epic_key e
         = match o with Created k => Some k | _ => None end)
  /\
  (forall (m : gmap string string) (counters : Z * Z)
          (s : jira_import_dashboard.Story) (w : World),
     truthy_opt (m !! jira_import_dashboard.story_epic s) = false ->
     jira_import_dashboard.story_loop_body email token oracle m counters s w
     = (Ok counters,
        {| served := served w;
           events := events w ++
             [EvPrint ("  [SKIP] No parent epic for: "
                       ++ slice_to 30 (jira_import_dashboard.story_summary s)
                       ++ "...")%string] |})).
Proof.
  split; [|split; [|split]].
  - intros cat w Hdone.
    destruct (jira_import_cp.main email token oracle cat w) as [r w'] eqn:H.
    simpl in Hdone. subst r.
    apply CP.cp_main_Ok in H as (es & os & progress & He & Hcalls & _).
    exists es, os.
    destruct (CP.cp_run_calls_entries _ _ _ _ _ Hcalls) as [Hentries Hlen].
    repeat (split; [assumption|]). assumption.
  - intros te ce cs ce1 cs1 i e w w1 H Hfailed.
    apply CP.cp_epic_loop_body_Ok in H as (es & He & Hcase).
    rewrite Hfailed in Hcase. destruct Hcase as (-> & -> & ->).
    split; [exact He|]. split; reflexivity.
  - intros epics stories w Hnodup Hdone.
    destruct (jira_import_dashboard.main email token oracle epics stories w)
      as [r w'] eqn:H.
    simpl in Hdone. subst r.
    apply Dashboard.dash_main_Ok in H
      as (es & exs & sxs & eos & sos & m & progress & He & Hp & Hepics & Hstories & _).
    exists es, exs, sxs, eos, sos, m.
    destruct (Dashboard.dash_story_calls_attempts _ _ _ _ _ _ Hstories)
      as [Hcount Hiff].
    repeat (split; [assumption|]).
    intros i e o He' Ho'.
    rewrite (Dashboard.dash_epic_calls_dict _ _ _ _ _ _ _ Hepics Hnodup i e o He' Ho').
    destruct o; try reflexivity; apply lookup_empty.
  - intros m [cs tp] s w Hnone.
    unfold jira_import_dashboard.story_loop_body. rewrite Hnone. reflexivity.
Qed.

Lemma child_attempted_iff_parent_created_witness :
  let cp_run := jira_import_cp.main "dev@example.com" "secret"
                  (Samples.refused_at 0) jira_import_cp.EPICS_AND_STORIES world0 in
  let entry := jira_import_cp.mkEntry
                 (jira_import_cp.mkEpic "Reporting" "[Dashboard] Reporting" "Reports")
                 [jira_import_cp.mkStory "Write the weekly report" 5 "A child"] in
  let turn := jira_import_cp.epic_loop_body "dev@example.com" "secret"
                Samples.all_refused 1 (0, 0) (1, entry) world0 in
  let dash_run := jira_import_dashboard.main "dev@example.com" "secret"
                    (Samples.refused_at 0) jira_import_dashboard.EPICS
                    jira_import_dashboard.STORIES world0 in
  let orphan := jira_import_dashboard.mkStory "AD-1" "Orphan" 3 "" in
  fst cp_run = Ok tt /\
  turn = (Ok (0, 0), snd turn) /\
  created_key (Samples.all_refused (served world0)) = None /\
  NoDup (map jira_import_dashboard.epic_key jira_import_dashboard.EPICS) /\
  fst dash_run = Ok tt /\
  truthy_opt ((∅ : gmap string string) !! jira_import_dashboard.story_epic orphan)
    = false /\
  (exists es os,
     events (snd cp_run) = events world0 ++ es /\
     len (posts es) = 10 + count attempted (jira_import_cp.children os)) /\
  length (posts (events (snd turn))) = 1%nat /\
  (exists (sxs : list exchange) (sos : list outcome),
     len sxs = count attempted sos /\ length sos = 78%nat) /\
  fst (jira_import_dashboard.story_loop_body "dev@example.com" "secret"
         Samples.all_refused ∅ (0, 0) orphan world0) = Ok (0, 0).
Proof.
  intros cp_run entry turn dash_run orphan.
  assert (Hcp : fst cp_run = Ok tt) by (vm_compute; reflexivity).
  assert (Hturn : turn = (Ok (0, 0), snd turn)) by (vm_compute; reflexivity).
  assert (Hrefused : created_key (Samples.all_refused (served world0)) = None)
    by reflexivity.
  assert (Hdash : fst dash_run = Ok tt) by (vm_compute; reflexivity).
  assert (Hnone : truthy_opt ((∅ : gmap string string)
                                !! jira_import_dashboard.story_epic orphan) = false)
    by reflexivity.
  destruct (child_attempted_iff_parent_created "dev@example.com" "secret"
              (Samples.refused_at 0)) as (Hcp_claim & _ & Hdash_claim & _).
  destruct (child_attempted_iff_parent_created "dev@example.com" "secret"
              Samples.all_refused) as (_ & Hturn_claim & _ & Hskip_claim).
  split; [exact Hcp|]. split; [exact Hturn|]. split; [exact Hrefused|].
  split; [exact EPICS_keys_distinct|]. split; [exact Hdash|].
  split; [exact Hnone|]. split; [|split; [|split]].
  - destruct (Hcp_claim jira_import_cp.EPICS_AND_STORIES world0 Hcp)
      as (es & os & He & _ & _ & Hlen).
    exists es, os. split; [exact He | exact Hlen].
  - destruct (Hturn_claim 1 0 0 0 0 1 entry world0 (snd turn) Hturn Hrefused)
      as (-> & _ & _).
    reflexivity.
  - destruct (Hdash_claim jira_import_dashboard.EPICS jira_import_dashboard.STORIES
                world0 EPICS_keys_distinct Hdash)
      as (es & exs & sxs & eos & sos & m & _ & _ & _ & Hstories & Hcount & Hiff & _).
    exists sxs, sos. split; [exact Hcount|].
    symmetry. exact (Forall2_length _ _ _ Hiff).
  - rewrite (Hskip_claim ∅ (0, 0) orphan world0 Hnone). reflexivity.
Defined.

(** C5, as stated, fails: an error of the transport itself is not a
    response.  When the tracker cannot be reached, [requests.post] raises on
    the first call, neither script catches it, and the run is over: one call
    made, no report, exit status 1, the other nine parents never tried. *)
Lemma transport_error_aborts_run :
  let cp_run := jira_import_cp.script Samples.credentials Samples.unreachable
                  world0 in
  let dash_run := jira_import_dashboard.script Samples.credentials
                    Samples.unreachable world0 in
  fst cp_run = Raise (RequestException "connection refused") /\
  exit_status (fst cp_run) = 1 /\
  length (posts (events (snd cp_run))) = 1%nat /\
  length jira_import_cp.EPICS_AND_STORIES = 10%nat /\
  ~ In "Import complete!" (printed (events (snd cp_run))) /\
  fst dash_run = Raise (RequestException "connection refused") /\
  exit_status (fst dash_run) = 1 /\
  length (posts (events (snd dash_run))) = 1%nat /\
  length jira_import_dashboard.EPICS = 10%nat /\
  ~ In "IMPORT COMPLETE" (printed (events (snd dash_run))).
Proof.
  intros cp_run dash_run.
  assert (Hcp : printed (events (snd cp_run)) =
                [ "Starting JIRA import to project CP...";
                  str_mul "=" 60;
                  "Will create 10 Epics and 87 Stories";
                  str_mul "=" 60;
                  (nl ++ "[1/10] Creating Epic: Project Foundation & Infrastructure")%string ])
    by (vm_compute; reflexivity).
  assert (Hdash : printed (events (snd dash_run)) =
                  [ str_mul "=" 60;
                    "AIGRC Dashboard Adoption - JIRA Import";
                    str_mul "=" 60;
                    "Project: AP";
                    "Total Epics: 10";
                    "Total Stories: 78";
                    "";
                    "Creating Epics...";
                    str_mul "-" 40 ])
    by (vm_compute; reflexivity).
  repeat split; try (vm_compute; reflexivity).
  - rewrite Hcp. intros Hin. simpl in Hin.
    repeat (destruct Hin as [Hin|Hin]; [vm_compute in Hin; discriminate Hin|]).
    exact Hin.
  - rewrite Hdash. intros Hin. simpl in Hin.
    repeat (destruct Hin as [Hin|Hin]; [vm_compute in Hin; discriminate Hin|]).
    exact Hin.
Qed.

(** C5, amended: against a tracker that answers every call, with a 201
    that carries the new key and id or with any other status, no turn of
    either loop of either script raises, whatever the statuses: a call that
    is refused becomes a printed failure, [main] runs to its end, and every
    catalog entry has been gone through: every parent has its call and every
    child is attempted or skipped.  A call on which the transport raises
    makes the turn it belongs to raise the same exception: nothing in the
    scripts catches it, and the loop and the run end there. *)
Theorem refused_calls_do_not_abort (email token : string)
    (oracle : nat -> exn + Response) :
  (answers oracle ->
   (forall (n : Z) (k : string) (cs : Z) (js : Z * jira_import_cp.Story)
           (w : World),
      exists cs' w',
        jira_import_cp.story_loop_body email token oracle n k cs js w
        = (Ok cs', w'))
   /\
   (forall (te : Z) (counters : Z * Z) (ie : Z * jira_import_cp.Entry) (w : World),
      exists counters' w',
        jira_import_cp.epic_loop_body email token oracle te counters ie w
        = (Ok counters', w'))
   /\
   (forall (cat : list jira_import_cp.Entry) (w : World),
      exists w' es os,
        jira_import_cp.main email token oracle cat w = (Ok tt, w') /\
        events w' = events w ++ es /\
        jira_import_cp.run_calls email token cat (posts es) os /\
        Forall2 jira_import_cp.entry_outcome cat os)
   /\
   (forall (m : gmap string string) (e : jira_import_dashboard.Epic) (w : World),
      exists m' w',
        jira_import_dashboard.epic_loop_body email token oracle m e w
        = (Ok m', w'))
   /\
   (forall (m : gmap string string) (counters : Z * Z)
           (s : jira_import_dashboard.Story) (w : World),
      exists counters' w',
        jira_import_dashboard.story_loop_body email token oracle m counters s w
        = (Ok counters', w'))
   /\
   (forall (epics : list jira_import_dashboard.Epic)
           (stories : list jira_import_dashboard.Story) (w : World),
      exists w' es exs sxs eos sos m,
        jira_import_dashboard.main email token oracle epics stories w
        = (Ok tt, w') /\
        events w' = events w ++ es /\
        posts es = exs ++ sxs /\
        jira_import_dashboard.epic_calls email token ∅ epics exs eos m /\
        jira_import_dashboard.story_calls email token m stories sxs sos /\
        length eos = length epics /\
        length sos = length stories))
  /\
  (forall (w : World) (ex : exn),
     oracle (served w) = inl ex ->
     (forall (te : Z) (counters : Z * Z) (i : Z) (e : jira_import_cp.Entry),
        fst (jira_import_cp.epic_loop_body email token oracle te counters (i, e) w)
        = Raise ex)
     /\
     (forall (n : Z) (k : string) (cs j : Z) (s : jira_import_cp.Story),
        fst (jira_import_cp.story_loop_body email token oracle n k cs (j, s) w)
        = Raise ex)
     /\
     (forall (m : gmap string string) (e : jira_import_dashboard.Epic),
        fst (jira_import_dashboard.epic_loop_body email token oracle m e w)
        = Raise ex)
     /\
     (forall (m : gmap string string) (counters : Z * Z)
             (s : jira_import_dashboard.Story),
        truthy_opt (m !! jira_import_dashboard.story_epic s) = true ->
        fst (jira_import_dashboard.story_loop_body email token oracle m counters s w)
        = Raise ex)).
Proof.
  split.
  - intros Hanswers.
    split; [|split; [|split; [|split; [|split]]]].
    + intros n k cs js w. apply CP.cp_story_loop_body_total. exact Hanswers.
    + intros te counters ie w. apply CP.cp_epic_loop_body_total. exact Hanswers.
    + intros cat w.
      destruct (CP.cp_main_total email token oracle Hanswers cat w) as (w' & H).
      destruct (CP.cp_main_Ok _ _ _ _ _ _ H)
        as (es & os & progress & He & Hcalls & _).
      exists w', es, os.
      destruct (CP.cp_run_calls_entries _ _ _ _ _ Hcalls) as [Hentries _].
      repeat (split; [assumption|]). assumption.
    + intros m e w. apply Dashboard.dash_epic_loop_body_total. exact Hanswers.
    + intros m counters s w. apply Dashboard.dash_story_loop_body_total.
      exact Hanswers.
    + intros epics stories w.
      destruct (Dashboard.dash_main_total email token oracle Hanswers
                  epics stories w) as (w' & H).
      destruct (Dashboard.dash_main_Ok _ _ _ _ _ _ _ H)
        as (es & exs & sxs & eos & sos & m & progress
            & He & Hp & Hepics & Hstories & _).
      exists w', es, exs, sxs, eos, sos, m.
      destruct (Dashboard.dash_epic_calls_lengths _ _ _ _ _ _ _ Hepics)
        as (_ & Hle & _).
      pose proof (Dashboard.dash_story_calls_lengths _ _ _ _ _ _ Hstories) as Hls.
      repeat (split; [assumption|]). assumption.
  - intros w ex Hraise. split; [|split; [|split]].
    + intros te [ce cs] i e.
      unfold jira_import_cp.epic_loop_body, jira_import_cp.create_epic.
      unfold bind at 1. unfold print at 1, emit at 1.
      unfold bind at 1. rewrite CP.cp_create_issue_run. cbv zeta.
      simpl served. rewrite Hraise. reflexivity.
    + intros n k cs j s.
      unfold jira_import_cp.story_loop_body, jira_import_cp.create_story.
      unfold bind at 1. unfold print at 1, emit at 1.
      unfold bind at 1. rewrite CP.cp_create_issue_run. cbv zeta.
      simpl served. rewrite Hraise. reflexivity.
    + intros m e. unfold jira_import_dashboard.epic_loop_body.
      unfold bind at 1. rewrite Dashboard.dash_create_epic_run. cbv zeta.
      rewrite Hraise. reflexivity.
    + intros m [cs tp] s Hkey.
      unfold jira_import_dashboard.story_loop_body. rewrite Hkey.
      cbn [negb]. unfold bind at 1.
      rewrite Dashboard.dash_create_story_run. cbv zeta.
      rewrite Hraise. reflexivity.
Qed.

Lemma refused_calls_do_not_abort_witness :
  let entry := jira_import_cp.mkEntry
                 (jira_import_cp.mkEpic "Reporting" "[Dashboard] Reporting" "Reports")
                 [jira_import_cp.mkStory "Write the weekly report" 5 "A child"] in
  let held : gmap string string := {[ "AD-1" := "AP-1" ]} in
  let story := jira_import_dashboard.mkStory "AD-1" "A story" 3 "A child" in
  answers (Samples.refused_at 3) /\
  Samples.unreachable (served world0)
    = inl (RequestException "connection refused") /\
  truthy_opt (held !! jira_import_dashboard.story_epic story) = true /\
  (exists w' es os,
     jira_import_cp.main "dev@example.com" "secret" (Samples.refused_at 3)
       jira_import_cp.EPICS_AND_STORIES world0 = (Ok tt, w') /\
     events w' = events world0 ++ es /\
     jira_import_cp.run_calls "dev@example.com" "secret"
       jira_import_cp.EPICS_AND_STORIES (posts es) os /\
     Forall2 jira_import_cp.entry_outcome jira_import_cp.EPICS_AND_STORIES os) /\
  fst (jira_import_cp.epic_loop_body "dev@example.com" "secret"
         Samples.unreachable 1 (0, 0) (1, entry) world0)
    = Raise (RequestException "connection refused") /\
  fst (jira_import_dashboard.story_loop_body "dev@example.com" "secret"
         Samples.unreachable held (0, 0) story world0)
    = Raise (RequestException "connection refused").
Proof.
  intros entry held story.
  assert (Hraise : Samples.unreachable (served world0)
                   = inl (RequestException "connection refused")) by reflexivity.
  assert (Hheld : truthy_opt (held !! jira_import_dashboard.story_epic story) = true)
    by reflexivity.
  split; [exact (sample_answers 3)|]. split; [exact Hraise|].
  split; [exact Hheld|]. split; [|split].
  - destruct (proj1 (refused_calls_do_not_abort "dev@example.com" "secret"
                       (Samples.refused_at 3)) (sample_answers 3))
      as (_ & _ & Hmain & _).
    exact (Hmain jira_import_cp.EPICS_AND_STORIES world0).
  - destruct (proj2 (refused_calls_do_not_abort "dev@example.com" "secret"
                       Samples.unreachable) world0 _ Hraise) as (Hturn & _).
    exact (Hturn 1 (0, 0) 1 entry).
  - destruct (proj2 (refused_calls_do_not_abort "dev@example.com" "secret"
                       Samples.unreachable) world0 _ Hraise) as (_ & _ & _ & Hturn).
    exact (Hturn held (0, 0) story Hheld).
Defined.




(** C1 fails on the CP script, whose report prints the constant 349 for the
    point total.  When the tracker refuses every call no story is created and
    the total of the created stories is 0; when it creates every issue all 87
    stories are created and their points add up to 372; the report says 349
    both times.  (The dashboard script adds up the points of the created
    stories, see [Dashboard.dash_main_Ok]; 349 is the sum over its own
    catalog.) *)
Theorem cp_report_prints_constant_total :
  let refused := jira_import_cp.script Samples.credentials Samples.all_refused
                   world0 in
  let created := jira_import_cp.script Samples.credentials Samples.all_created
                   world0 in
  let last_lines (w : World) :=
    drop (length (printed (events w)) - 6) (printed (events w)) in
  fst refused = Ok tt /\
  Forall (fun x => created_key (snd x) = None) (posts (events (snd refused))) /\
  last_lines (snd refused) =
    [ (nl ++ str_mul "=" 60)%string;
      "Import complete!";
      "  Epics created: 0/10";
      "  Stories created: 0/87";
      "  Total story points: 349";
      str_mul "=" 60 ] /\
  fst created = Ok tt /\
  last_lines (snd created) =
    [ (nl ++ str_mul "=" 60)%string;
      "Import complete!";
      "  Epics created: 10/10";
      "  Stories created: 87/87";
      "  Total story points: 349";
      str_mul "=" 60 ] /\
  py_sum (map jira_import_cp.story_points
            (concat (map jira_import_cp.stories jira_import_cp.EPICS_AND_STORIES)))
    = 372 /\
  py_sum (map jira_import_dashboard.story_points jira_import_dashboard.STORIES)
    = 349.
Proof.
  intros refused created last_lines.
  split; [vm_compute; reflexivity|].
  split.
  { apply Forall_forall. intros x Hin.
    assert (Hall : forallb (fun x => match created_key (snd x) with
                                     | None => true
                                     | Some _ => false
                                     end)
                     (posts (events (snd refused))) = true)
      by (vm_compute; reflexivity).
    rewrite forallb_forall in Hall.
    apply list_elem_of_In in Hin. specialize (Hall x Hin).
    destruct (created_key (snd x)); [discriminate Hall | reflexivity]. }
  split; [vm_compute; reflexivity|].
  split; [vm_compute; reflexivity|].
  split; [vm_compute; reflexivity|].
  split; vm_compute; reflexivity.
Qed.

(** * More properties of the two scripts *)

Lemma sleeps_app (es es' : list event) : sleeps (es ++ es') = sleeps es ++ sleeps es'.
Proof.
  induction es as [|e es IH]; simpl; [reflexivity|].
  destruct e; simpl; rewrite ?IH; reflexivity.
Qed.

Lemma enumerate_In {A : Type} (l : list A) :
  forall (i j : Z) (x : A), In (j, x) (enumerate i l) -> In x l.
Proof.
  induction l as [|y l IH]; intros i j x Hin; [exact Hin|].
  simpl in Hin. destruct Hin as [Heq|Hin].
  - injection Heq as _ ->. left. reflexivity.
  - right. exact (IH _ _ _ Hin).
Qed.

(** An invariant of the world that the turns for the elements of [l] keep,
    however they end, is kept by the loop over [l]. *)
Lemma for_each_inv_In {A St : Type} (body : St -> A -> M St) (I : World -> Prop) :
  forall l,
    (forall s x w r w', In x l -> body s x w = (r, w') -> I w -> I w') ->
    forall s w r w', for_each body l s w = (r, w') -> I w -> I w'.
Proof.
  induction l as [|x l IH]; intros Hbody s w r w' H HI.
  - injection H as <- <-. exact HI.
  - simpl in H. unfold bind in H.
    destruct (body s x w) as [[s1|e] w1] eqn:Hb.
    + eapply IH; [|exact H|].
      * intros s0 x0 w0 r0 w0' Hin. apply Hbody. right. exact Hin.
      * eapply Hbody; [left; reflexivity | exact Hb | exact HI].
    + injection H as <- <-.
      eapply Hbody; [left; reflexivity | exact Hb | exact HI].
Qed.

Lemma refuses_answers (oracle : nat -> exn + Response) :
  refuses oracle -> answers oracle.
Proof.
  intros Href n. destruct (Href n) as (r & Hr & Hst).
  exists r. split; [exact Hr|]. intros H201. contradiction.
Qed.

Lemma refuses_created_key (oracle : nat -> exn + Response) (n : nat) :
  refuses oracle -> created_key (oracle n) = None.
Proof.
  intros Href. destruct (Href n) as (r & -> & Hst).
  unfold created_key. apply Z.eqb_neq in Hst. rewrite Hst. reflexivity.
Qed.

Lemma accepts_answers (oracle : nat -> exn + Response) :
  accepts oracle -> answers oracle.
Proof.
  intros Hacc n. destruct (Hacc n) as (r & data & key & id & Hr & _ & Hb & Hk & _ & Hi).
  exists r. split; [exact Hr|]. intros _. exists data, key, id. auto.
Qed.

Lemma accepts_created_key (oracle : nat -> exn + Response) (n : nat) :
  accepts oracle -> exists k, created_key (oracle n) = Some k.
Proof.
  intros Hacc.
  destruct (Hacc n) as (r & data & key & id & -> & Hst & Hb & Hk & Ht & _).
  exists key. unfold created_key. apply Z.eqb_eq in Hst.
  rewrite Hst, Hb, Hk. simpl. rewrite Ht. reflexivity.
Qed.

Lemma sample_refuses : refuses Samples.all_refused.
Proof. intros n. exists Samples.response_error. split; [reflexivity | discriminate]. Qed.

Lemma sample_accepts : accepts Samples.all_created.
Proof.
  intros n. eexists _, _, _, _. split; [reflexivity|].
  split; [reflexivity|]. split; [reflexivity|].
  split; [reflexivity|]. split; reflexivity.
Qed.

(** ** More on the runs of [jira_import_cp.py] *)

Module CPx.
Import jira_import_cp.

Section Runs.

Variables JIRA_EMAIL JIRA_API_TOKEN : string.
Variable oracle : nat -> exn + Response.

Local Abbreviation create_issue := (create_issue JIRA_EMAIL JIRA_API_TOKEN oracle).
Local Abbreviation issue_request := (issue_request JIRA_EMAIL JIRA_API_TOKEN).
Local Abbreviation story_loop_body := (story_loop_body JIRA_EMAIL JIRA_API_TOKEN oracle).
Local Abbreviation epic_loop_body := (epic_loop_body JIRA_EMAIL JIRA_API_TOKEN oracle).
Local Abbreviation main := (main JIRA_EMAIL JIRA_API_TOKEN oracle).
Local Abbreviation child_calls := (child_calls JIRA_EMAIL JIRA_API_TOKEN).
Local Abbreviation run_calls := (run_calls JIRA_EMAIL JIRA_API_TOKEN).
Local Abbreviation epic_request := (epic_request JIRA_EMAIL JIRA_API_TOKEN).
Local Abbreviation story_request := (story_request JIRA_EMAIL JIRA_API_TOKEN).
Local Abbreviation catalog_call :=
  (cp_catalog_call JIRA_EMAIL JIRA_API_TOKEN oracle).

Lemma cpx_story_body_catalog (cat : list Entry) (e : Entry) (n : Z) (k : string)
    (cs j : Z) (s : Story) (w w' : World) (r : Result Z) :
  In e cat -> In s (stories e) ->
  story_loop_body n k cs (j, s) w = (r, w') ->
  Forall (catalog_call cat) (posts (events w)) ->
  Forall (catalog_call cat) (posts (events w')).
Proof.
  intros He Hs H Hinv.
  apply CP.cp_story_loop_body_posts in H. rewrite H.
  apply Forall_app. split; [exact Hinv|].
  constructor; [|constructor].
  split; [exists (served w); reflexivity|].
  exists e. split; [exact He|]. right. exists s, k. split; [exact Hs | reflexivity].
Qed.

Lemma cpx_epic_body_catalog (cat : list Entry) (te : Z) (counters : Z * Z)
    (i : Z) (e : Entry) (w w' : World) (r : Result (Z * Z)) :
  In e cat ->
  epic_loop_body te counters (i, e) w = (r, w') ->
  Forall (catalog_call cat) (posts (events w)) ->
  Forall (catalog_call cat) (posts (events w')).
Proof.
  destruct counters as [ce cs]. intros He.
  unfold epic_loop_body, create_epic.
  unfold bind at 1. unfold print at 1, emit at 1.
  unfold bind at 1. rewrite CP.cp_create_issue_run. cbv zeta.
  simpl served. simpl events.
  intros H Hinv.
  set (res := oracle (served w)) in *.
  set (w1 := {| served := S (served w);
                events := (events w ++ _) ++ _ :: error_lines res |}) in H.
  assert (Hp1 : posts (events w1)
                = posts (events w) ++ [(epic_request (epic e), res)]).
  { unfold w1. simpl. rewrite !posts_app. simpl.
    rewrite <- (app_nil_r (error_lines res)), CP.cp_posts_error_lines.
    simpl. rewrite app_nil_r. reflexivity. }
  assert (Hinv1 : Forall (catalog_call cat) (posts (events w1))).
  { rewrite Hp1. apply Forall_app. split; [exact Hinv|].
    constructor; [|constructor].
    split; [exists (served w); reflexivity|].
    exists e. split; [exact He|]. left. reflexivity. }
  clearbody w1. clear Hinv.
  destruct res as [ex|r0] eqn:Hres.
  { injection H as <- <-. exact Hinv1. }
  destruct (status_code r0 =? 201)%Z eqn:Hst.
  2: { unfold bind, print, sleep, emit, ret in H. simpl in H.
       injection H as <- <-. simpl.
       rewrite !posts_app. simpl. rewrite !app_nil_r. exact Hinv1. }
  destruct (json_body r0) as [data|] eqn:Hbody.
  2: { injection H as <- <-. exact Hinv1. }
  destruct (truthy_opt (data !! "key")) eqn:Ht.
  2: { unfold bind, print, sleep, emit, ret in H. simpl in H.
       injection H as <- <-. simpl.
       rewrite !posts_app. simpl. rewrite !app_nil_r. exact Hinv1. }
  unfold bind at 1 in H. unfold bind at 1 in H.
  unfold print at 1, emit at 1 in H. unfold bind at 1 in H.
  match type of H with context [for_each ?b ?l ?s ?w0] =>
    destruct (for_each b l s w0) as [rl w2] eqn:Hloop end.
  assert (Hinv2 : Forall (catalog_call cat) (posts (events w2))).
  { apply (for_each_inv_In _
             (fun w => Forall (catalog_call cat) (posts (events w)))
             _ (fun s x w r w' Hin =>
                  match x return In x _ -> _ with
                  | (j, st) => fun Hin' =>
                      cpx_story_body_catalog cat e _ _ s j st w w' r He
                        (enumerate_In _ _ _ _ Hin')
                  end Hin)
             _ _ _ _ Hloop).
    simpl. rewrite !posts_app. simpl. rewrite app_nil_r. exact Hinv1. }
  destruct rl as [cs'|ex].
  - unfold bind, sleep, emit, ret in H. simpl in H. injection H as <- <-.
    simpl. rewrite !posts_app. simpl. rewrite !app_nil_r. exact Hinv2.
  - injection H as <- <-. exact Hinv2.
Qed.

Lemma cpx_main_catalog (cat : list Entry) (w w' : World) (r : Result unit) :
  main cat w = (r, w') ->
  Forall (catalog_call cat) (posts (events w)) ->
  Forall (catalog_call cat) (posts (events w')).
Proof.
  unfold main.
  do 4 (unfold bind at 1; unfold print at 1, emit at 1).
  unfold bind at 1. simpl served. simpl events.
  match goal with |- context [for_each ?b ?l ?s ?w0] =>
    destruct (for_each b l s w0) as [rl w1] eqn:Hloop end.
  intros H Hinv.
  assert (Hinv1 : Forall (catalog_call cat) (posts (events w1))).
  { apply (for_each_inv_In _
             (fun w => Forall (catalog_call cat) (posts (events w)))
             _ (fun s x w r w' Hin =>
                  match x return In x _ -> _ with
                  | (i, e) => fun Hin' =>
                      cpx_epic_body_catalog cat _ s i e w w' r
                        (enumerate_In _ _ _ _ Hin')
                  end Hin)
             _ _ _ _ Hloop).
    simpl. rewrite !posts_app. simpl. rewrite !app_nil_r. exact Hinv. }
  destruct rl as [[ce cs]|ex].
  - unfold bind, print, emit in H. simpl in H. injection H as <- <-.
    simpl. rewrite !posts_app. simpl. rewrite !app_nil_r. exact Hinv1.
  - injection H as <- <-. exact Hinv1.
Qed.

(** *** When every call is refused, or every call is accepted *)

Lemma cpx_count_created_skipped (ss : list Story) :
  count is_created (map (fun _ : Story => Skipped) ss) = 0.
Proof.
  induction ss as [|s ss IH]; [reflexivity|].
  simpl. rewrite count_cons. simpl. exact IH.
Qed.

Lemma cpx_run_calls_refused (cat : list Entry) (xs : list exchange)
    (os : list (outcome * list outcome)) :
  run_calls cat xs os ->
  Forall (fun x => created_key (snd x) = None) xs ->
  map fst xs = map (fun e => epic_request (epic e)) cat /\
  count is_created (parents os) = 0 /\
  count is_created (children os) = 0.
Proof.
  unfold parents, children.
  induction 1 as [|e cat res xs os Hk _ IH
                  |e cat res k ys cos xs os Hk Hch _ IH]; intros Hall.
  - repeat split.
  - apply Forall_cons in Hall as [_ Hall].
    destruct (IH Hall) as (IH1 & IH2 & IH3).
    simpl. rewrite IH1, count_cons, count_app, cpx_count_created_skipped.
    simpl. repeat split; lia.
  - apply Forall_cons in Hall as [Hnone _]. simpl in Hnone. congruence.
Qed.



End Runs.

End CPx.

(** X1: in every run of the CP script, however it ends, every remote call is
    for an item of the catalog: it creates the epic of an entry, or a story of
    an entry, and nothing else is ever posted; its request goes to the issue
    endpoint with the two credentials, and its result is one that the
    transport gave. *)
Theorem cp_calls_are_for_catalog_items (email token : string)
    (oracle : nat -> exn + Response) (cat : list jira_import_cp.Entry) :
  Forall (cp_catalog_call email token oracle cat)
    (posts (events (snd (jira_import_cp.main email token oracle cat world0)))).
Proof.
  destruct (jira_import_cp.main email token oracle cat world0) as [r w'] eqn:H.
  apply (CPx.cpx_main_catalog _ _ _ _ _ _ _ H). constructor.
Qed.

(** X2: when the tracker refuses every call, a run of the CP script on any
    catalog reaches its end having made exactly one call per parent, in
    catalog order, and none for a child; its report counts no epic and no
    story as created. *)
Theorem cp_run_all_refused (email token : string)
    (oracle : nat -> exn + Response) (cat : list jira_import_cp.Entry) :
  refuses oracle ->
  let run := jira_import_cp.main email token oracle cat world0 in
  fst run = Ok tt /\
  map fst (posts (events (snd run)))
    = map (fun e => jira_import_cp.epic_request email token (jira_import_cp.epic e))
          cat /\
  exists progress,
    printed (events (snd run)) = progress ++
      jira_import_cp.report 0 (len cat) 0
        (py_sum (map (fun e => len (jira_import_cp.stories e)) cat)).
Proof.
  intros Href run. subst run.
  pose proof (cp_calls_are_catalog := CPx.cpx_main_catalog email token oracle cat world0).
  destruct (CP.cp_main_total email token oracle (refuses_answers _ Href) cat world0)
    as (w' & H).
  specialize (cp_calls_are_catalog _ _ H (List.Forall_nil _)).
  rewrite H. simpl.
  destruct (CP.cp_main_Ok _ _ _ _ _ _ H) as (es & os & progress & He & Hcalls & Hpr).
  simpl in He. subst es.
  assert (Hnone : Forall (fun x => created_key (snd x) = None) (posts (events w'))).
  { eapply Forall_impl; [exact cp_calls_are_catalog|].
    intros x [(n & ->) _]. apply refuses_created_key. exact Href. }
  destruct (CPx.cpx_run_calls_refused _ _ _ _ _ Hcalls Hnone) as (Hreqs & Hp & Hc).
  split; [reflexivity|]. split; [exact Hreqs|].
  exists progress. rewrite Hpr, Hp, Hc. reflexivity.
Qed.

Lemma cp_run_all_refused_witness :
  refuses Samples.all_refused /\
  length (posts (events (snd (jira_import_cp.main "dev@example.com" "secret"
                                Samples.all_refused
                                jira_import_cp.EPICS_AND_STORIES world0))))
    = 10%nat.
Proof.
  split; [exact sample_refuses|].
  destruct (cp_run_all_refused "dev@example.com" "secret" Samples.all_refused
              jira_import_cp.EPICS_AND_STORIES sample_refuses) as (_ & Hreqs & _).
  rewrite <- (length_map fst), Hreqs, length_map. reflexivity.
Defined.



(** ** More on the runs of [jira_import_dashboard.py] *)

Module DX.
Import jira_import_dashboard.

Section Runs.

Variables JIRA_EMAIL JIRA_API_TOKEN : string.
Variable oracle : nat -> exn + Response.

Local Abbreviation create_epic := (create_epic JIRA_EMAIL JIRA_API_TOKEN oracle).
Local Abbreviation create_story := (create_story JIRA_EMAIL JIRA_API_TOKEN oracle).
Local Abbreviation request := (request JIRA_EMAIL JIRA_API_TOKEN).
Local Abbreviation epic_loop_body :=
  (epic_loop_body JIRA_EMAIL JIRA_API_TOKEN oracle).
Local Abbreviation story_loop_body :=
  (story_loop_body JIRA_EMAIL JIRA_API_TOKEN oracle).
Local Abbreviation main := (main JIRA_EMAIL JIRA_API_TOKEN oracle).
Local Abbreviation epic_calls := (epic_calls JIRA_EMAIL JIRA_API_TOKEN).
Local Abbreviation story_calls := (story_calls JIRA_EMAIL JIRA_API_TOKEN).
Local Abbreviation epic_request := (epic_request JIRA_EMAIL JIRA_API_TOKEN).
Local Abbreviation story_request := (story_request JIRA_EMAIL JIRA_API_TOKEN).
Local Abbreviation catalog_call :=
  (dash_catalog_call JIRA_EMAIL JIRA_API_TOKEN oracle).

(** The calls of one turn of the second loop, however the turn ends. *)
Lemma dx_story_loop_body_posts (m : gmap string string) (counters : Z * Z)
    (s : Story) (w w' : World) (r : Result (Z * Z)) :
  story_loop_body m counters s w = (r, w') ->
  posts (events w') =
    posts (events w) ++
    match m !! story_epic s with
    | Some k => if truthy k
                then [(story_request s k, oracle (served w))]
                else []
    | None => []
    end.
Proof.
  destruct counters as [cs tp]. unfold story_loop_body. intros H.
  destruct (m !! story_epic s) as [k|] eqn:Hk; simpl in H.
  2: { unfold bind, print, emit, ret in H. simpl in H.
       injection H as <- <-. simpl. rewrite posts_app. reflexivity. }
  destruct (truthy k) eqn:Ht; simpl in H.
  2: { unfold bind, print, emit, ret in H. simpl in H.
       injection H as <- <-. simpl. rewrite posts_app. reflexivity. }
  unfold bind in H. rewrite Dashboard.dash_create_story_run in H. cbv zeta in H.
  unfold fail_lines, print, sleep, emit, ret in H.
  destruct (oracle (served w)) as [ex|r0].
  { injection H as <- <-. simpl. rewrite !posts_app. simpl.
    rewrite ?app_nil_r. reflexivity. }
  destruct (status_code r0 =? 201)%Z eqn:Hst.
  2: { injection H as <- <-. simpl. rewrite !posts_app. simpl.
       rewrite ?app_nil_r. reflexivity. }
  destruct (json_body r0) as [data|].
  2: { injection H as <- <-. simpl. rewrite !posts_app. simpl.
       rewrite ?app_nil_r. reflexivity. }
  destruct (data !! "key") as [key|].
  2: { injection H as <- <-. simpl. rewrite !posts_app. simpl.
       rewrite ?app_nil_r. reflexivity. }
  simpl in H. destruct (truthy key); injection H as <- <-; simpl;
    rewrite !posts_app; simpl; rewrite ?app_nil_r; reflexivity.
Qed.

Lemma dx_epic_body_catalog (epics : list Epic) (stories : list Story)
    (m : gmap string string) (e : Epic) (w w' : World)
    (r : Result (gmap string string)) :
  In e epics ->
  epic_loop_body m e w = (r, w') ->
  Forall (catalog_call epics stories) (posts (events w)) ->
  Forall (catalog_call epics stories) (posts (events w')).
Proof.
  intros He H Hinv.
  apply Dashboard.dash_epic_loop_body_posts in H. rewrite H.
  apply Forall_app. split; [exact Hinv|].
  constructor; [|constructor].
  split; [exists (served w); reflexivity|].
  left. exists e. split; [exact He | reflexivity].
Qed.

Lemma dx_story_body_catalog (epics : list Epic) (stories : list Story)
    (m : gmap string string) (counters : Z * Z) (s : Story) (w w' : World)
    (r : Result (Z * Z)) :
  In s stories ->
  story_loop_body m counters s w = (r, w') ->
  Forall (catalog_call epics stories) (posts (events w)) ->
  Forall (catalog_call epics stories) (posts (events w')).
Proof.
  intros Hs H Hinv.
  apply dx_story_loop_body_posts in H. rewrite H.
  apply Forall_app. split; [exact Hinv|].
  destruct (m !! story_epic s) as [k|]; [|constructor].
  destruct (truthy k); [|constructor].
  constructor; [|constructor].
  split; [exists (served w); reflexivity|].
  right. exists s, k. split; [exact Hs | reflexivity].
Qed.

Lemma dx_main_catalog (epics : list Epic) (stories : list Story)
    (w w' : World) (r : Result unit) :
  main epics stories w = (r, w') ->
  Forall (catalog_call epics stories) (posts (events w)) ->
  Forall (catalog_call epics stories) (posts (events w')).
Proof.
  unfold main.
  do 9 (unfold bind at 1; unfold print at 1, emit at 1).
  unfold bind at 1. simpl served. simpl events.
  match goal with |- context [for_each ?b ?l ?s ?w0] =>
    destruct (for_each b l s w0) as [rl w1] eqn:Hloop1 end.
  intros H Hinv.
  apply (for_each_inv_In _
           (fun w => Forall (catalog_call epics stories) (posts (events w)))
           _ (fun s x w r w' Hin => dx_epic_body_catalog epics stories s x w w' r Hin))
    in Hloop1.
  2: { simpl. rewrite !posts_app. simpl. rewrite !app_nil_r. exact Hinv. }
  destruct rl as [m|ex].
  2: { injection H as <- <-. exact Hloop1. }
  do 5 (unfold bind at 1 in H; unfold print at 1, emit at 1 in H).
  unfold bind at 1 in H. simpl served in H. simpl events in H.
  match type of H with context [for_each ?b ?l ?s ?w0] =>
    destruct (for_each b l s w0) as [rl w2] eqn:Hloop2 end.
  apply (for_each_inv_In _
           (fun w => Forall (catalog_call epics stories) (posts (events w)))
           _ (fun s x w r w' Hin =>
                dx_story_body_catalog epics stories m s x w w' r Hin))
    in Hloop2.
  2: { simpl. rewrite !posts_app. simpl. rewrite !app_nil_r. exact Hloop1. }
  destruct rl as [[cs tp]|ex].
  - unfold bind, print, emit in H. simpl in H. injection H as <- <-.
    simpl. rewrite !posts_app. simpl. rewrite !app_nil_r. exact Hloop2.
  - injection H as <- <-. exact Hloop2.
Qed.

(** *** When every call is refused, or every call is accepted *)

Lemma dx_epic_calls_refused (m m' : gmap string string) (es : list Epic)
    (xs : list exchange) (os : list outcome) :
  epic_calls m es xs os m' ->
  Forall (fun x => created_key (snd x) = None) xs ->
  m' = m /\
  map fst xs = map epic_request es /\
  count is_created os = 0.
Proof.
  induction 1 as [m|m m' e es res xs os _ IH]; intros Hall.
  - repeat split.
  - apply Forall_cons in Hall as [Hnone Hall]. simpl in Hnone.
    destruct (IH Hall) as (-> & IH2 & IH3).
    unfold recorded, outcome_of. rewrite count_cons. rewrite Hnone.
    simpl. rewrite IH2. repeat split. unfold outcome_of in IH3.
    lia.
Qed.

Lemma dx_story_calls_empty (ss : list Story) (xs : list exchange)
    (os : list outcome) :
  story_calls ∅ ss xs os ->
  xs = [] /\ os = map (fun _ => Skipped) ss.
Proof.
  induction 1 as [|s ss xs os Hm _ (IH1 & IH2)|s ss k res xs os Hm Hk _ _].
  - split; reflexivity.
  - subst. split; reflexivity.
  - rewrite lookup_empty in Hm. discriminate Hm.
Qed.

Lemma dx_skipped_counts (ss : list Story) :
  count is_created (map (fun _ : Story => Skipped) ss) = 0 /\
  count is_skipped (map (fun _ : Story => Skipped) ss) = len ss /\
  created_points ss (map (fun _ : Story => Skipped) ss) = 0.
Proof.
  induction ss as [|s ss (IH1 & IH2 & IH3)]; [repeat split|].
  simpl. rewrite !count_cons. simpl. unfold len in *. simpl length.
  repeat split; lia.
Qed.

Lemma dx_epic_calls_keep (m m' : gmap string string) (es : list Epic)
    (xs : list exchange) (os : list outcome) (key : string) :
  epic_calls m es xs os m' -> is_Some (m !! key) -> is_Some (m' !! key).
Proof.
  induction 1 as [m|m m' e es res xs os _ IH]; intros Hm; [exact Hm|].
  apply IH. unfold recorded. destruct (created_key res) as [k|]; [|exact Hm].
  destruct (decide (epic_key e = key)) as [<-|Hne].
  - rewrite lookup_insert_eq. eauto.
  - rewrite lookup_insert_ne by exact Hne. exact Hm.
Qed.

Lemma dx_epic_calls_accepted (m m' : gmap string string) (es : list Epic)
    (xs : list exchange) (os : list outcome) :
  epic_calls m es xs os m' ->
  Forall (fun x => created_key (snd x) <> None) xs ->
  (forall e, In e es -> is_Some (m' !! epic_key e)) /\
  count is_created os = len es /\
  len xs = len es.
Proof.
  induction 1 as [m|m m' e es res xs os Hcalls IH]; intros Hall.
  - split; [intros e []|]. split; reflexivity.
  - apply Forall_cons in Hall as [Hsome Hall]. simpl in Hsome.
    destruct (IH Hall) as (IH1 & IH2 & IH3).
    split; [|split].
    + intros e' [<-|Hin]; [|exact (IH1 _ Hin)].
      apply (dx_epic_calls_keep _ _ _ _ _ _ Hcalls).
      unfold recorded. destruct (created_key res) as [k|]; [|contradiction].
      rewrite lookup_insert_eq. eauto.
    + rewrite count_cons, IH2. unfold outcome_of.
      destruct (created_key res); [|contradiction].
      unfold len. simpl. lia.
    + unfold len in *. simpl. lia.
Qed.

Lemma dx_story_calls_accepted (m : gmap string string) (ss : list Story)
    (xs : list exchange) (os : list outcome) :
  story_calls m ss xs os ->
  (forall s, In s ss -> truthy_opt (m !! story_epic s) = true) ->
  Forall (fun x => created_key (snd x) <> None) xs ->
  count is_created os = len ss /\
  created_points ss os = py_sum (map story_points ss) /\
  len xs = len ss.
Proof.
  induction 1 as [|s ss xs os Hm _ IH|s ss k res xs os Hm Hk _ IH];
    intros Hheld Hall.
  - repeat split.
  - rewrite (Hheld s (or_introl eq_refl)) in Hm. discriminate Hm.
  - apply Forall_cons in Hall as [Hsome Hall]. simpl in Hsome.
    destruct (IH (fun s' Hin => Hheld s' (or_intror Hin)) Hall)
      as (IH1 & IH2 & IH3).
    rewrite count_cons. simpl. rewrite IH1, IH2. unfold outcome_of.
    destruct (created_key res); [|contradiction].
    unfold len in *. simpl. repeat split; lia.
Qed.

End Runs.

End DX.

(** X4: in every run of the dashboard script, however it ends, every remote
    call is for an item of its two lists: it creates an epic of [EPICS] or a
    story of [STORIES], and nothing else is ever posted; its result is one
    that the transport gave. *)
Theorem dashboard_calls_are_for_catalog_items (email token : string)
    (oracle : nat -> exn + Response)
    (epics : list jira_import_dashboard.Epic)
    (stories : list jira_import_dashboard.Story) :
  Forall (dash_catalog_call email token oracle epics stories)
    (posts (events (snd (jira_import_dashboard.main email token oracle
                           epics stories world0)))).
Proof.
  destruct (jira_import_dashboard.main email token oracle epics stories world0)
    as [r w'] eqn:H.
  apply (DX.dx_main_catalog _ _ _ _ _ _ _ _ H). constructor.
Qed.

(** X5: when the tracker refuses every call, a run of the dashboard script
    reaches its end having made exactly one call per epic, in the order of
    [EPICS], and none for a story: every story is passed over, and the report
    counts no epic, no story and no point. *)
Theorem dashboard_run_all_refused (email token : string)
    (oracle : nat -> exn + Response)
    (epics : list jira_import_dashboard.Epic)
    (stories : list jira_import_dashboard.Story) :
  refuses oracle ->
  let run := jira_import_dashboard.main email token oracle epics stories world0 in
  fst run = Ok tt /\
  map fst (posts (events (snd run)))
    = map (jira_import_dashboard.epic_request email token) epics /\
  exists progress,
    printed (events (snd run)) = progress ++
      jira_import_dashboard.report 0 (len epics) 0 (len stories) 0.
Proof.
  intros Href run. subst run.
  pose proof (Hcat := DX.dx_main_catalog email token oracle epics stories world0).
  destruct (Dashboard.dash_main_total email token oracle (refuses_answers _ Href)
              epics stories world0) as (w' & H).
  specialize (Hcat _ _ H (List.Forall_nil _)).
  rewrite H. simpl.
  destruct (Dashboard.dash_main_Ok _ _ _ _ _ _ _ H)
    as (es & exs & sxs & eos & sos & m & progress & He & Hp & Hepics & Hstories & Hpr).
  simpl in He. subst es.
  assert (Hnone : Forall (fun x => created_key (snd x) = None) (posts (events w'))).
  { eapply Forall_impl; [exact Hcat|].
    intros x [(n & ->) _]. apply refuses_created_key. exact Href. }
  rewrite Hp in Hnone. apply Forall_app in Hnone as [Hexs _].
  destruct (DX.dx_epic_calls_refused _ _ _ _ _ _ _ Hepics Hexs) as (-> & Hreqs & _).
  destruct (DX.dx_story_calls_empty _ _ _ _ _ Hstories) as (-> & ->).
  destruct (DX.dx_skipped_counts stories) as (Hc & _ & Hpts).
  split; [reflexivity|]. split.
  - rewrite Hp, app_nil_r. exact Hreqs.
  - exists progress. rewrite Hpr, Hc, Hpts, map_size_empty. reflexivity.
Qed.

Lemma dashboard_run_all_refused_witness :
  refuses Samples.all_refused /\
  length (posts (events (snd (jira_import_dashboard.main "dev@example.com" "secret"
                                Samples.all_refused jira_import_dashboard.EPICS
                                jira_import_dashboard.STORIES world0))))
    = 10%nat.
Proof.
  split; [exact sample_refuses|].
  destruct (dashboard_run_all_refused "dev@example.com" "secret" Samples.all_refused
              jira_import_dashboard.EPICS jira_import_dashboard.STORIES
              sample_refuses) as (_ & Hreqs & _).
  rewrite <- (length_map fst), Hreqs, length_map. reflexivity.
Defined.

(** X6: when the tracker accepts every call, the catalog keys of the epics
    are distinct and every story names the key of an epic of the list, a run
    of the dashboard script reaches its end with one call per epic and one per
    story, and its report counts every epic and every story as created and
    gives the sum of the points of all stories as the total. *)
Theorem dashboard_run_all_accepted (email token : string)
    (oracle : nat -> exn + Response)
    (epics : list jira_import_dashboard.Epic)
    (stories : list jira_import_dashboard.Story) :
  accepts oracle ->
  NoDup (map jira_import_dashboard.epic_key epics) ->
  Forall (fun s => jira_import_dashboard.story_epic s
                   ∈ map jira_import_dashboard.epic_key epics) stories ->
  let run := jira_import_dashboard.main email token oracle epics stories world0 in
  fst run = Ok tt /\
  len (posts (events (snd run))) = len epics + len stories /\
  exists progress,
    printed (events (snd run)) = progress ++
      jira_import_dashboard.report (len epics) (len epics)
        (len stories) (len stories)
        (py_sum (map jira_import_dashboard.story_points stories)).
Proof.
  intros Hacc Hnodup Hrefs run. subst run.
  pose proof (Hcat := DX.dx_main_catalog email token oracle epics stories world0).
  destruct (Dashboard.dash_main_total email token oracle (accepts_answers _ Hacc)
              epics stories world0) as (w' & H).
  specialize (Hcat _ _ H (List.Forall_nil _)).
  rewrite H. simpl.
  destruct (Dashboard.dash_main_Ok _ _ _ _ _ _ _ H)
    as (es & exs & sxs & eos & sos & m & progress & He & Hp & Hepics & Hstories & Hpr).
  simpl in He. subst es.
  assert (Hsome : Forall (fun x => created_key (snd x) <> None) (posts (events w'))).
  { eapply Forall_impl; [exact Hcat|].
    intros x [(n & ->) _].
    destruct (accepts_created_key _ n Hacc) as (k & ->). discriminate. }
  rewrite Hp in Hsome. apply Forall_app in Hsome as [Hexs Hsxs].
  destruct (DX.dx_epic_calls_accepted _ _ _ _ _ _ _ Hepics Hexs)
    as (Hheld & Hce & Hle).
  pose proof (Dashboard.dash_epic_calls_size _ _ _ _ _ _ _ Hepics Hnodup
                (fun e _ => lookup_empty _)) as Hsize.
  rewrite map_size_empty in Hsize.
  assert (Hkeys : forall s, In s stories ->
                    truthy_opt (m !! jira_import_dashboard.story_epic s) = true).
  { intros s Hin. rewrite Forall_forall in Hrefs.
    apply list_elem_of_In in Hin. specialize (Hrefs s Hin).
    apply list_elem_of_fmap in Hrefs as (e & Hkey & He).
    apply list_elem_of_In in He.
    destruct (Hheld e He) as (k & Hk). rewrite Hkey, Hk. simpl.
    apply (Dashboard.dash_epic_calls_truthy _ _ _ _ _ _ _ Hepics
             (fun key k0 Hempty =>
                ltac:(rewrite lookup_empty in Hempty; discriminate Hempty))
             _ _ Hk). }
  destruct (DX.dx_story_calls_accepted _ _ _ _ _ _ Hstories Hkeys Hsxs)
    as (Hcs & Hpts & Hls).
  split; [reflexivity|]. split.
  - rewrite Hp. unfold len in *. rewrite length_app. lia.
  - exists progress. rewrite Hpr, Hcs, Hpts.
    replace (Z.of_nat (size m)) with (len epics) by lia. reflexivity.
Qed.

Lemma STORIES_name_epics :
  Forall (fun s => jira_import_dashboard.story_epic s
                   ∈ map jira_import_dashboard.epic_key jira_import_dashboard.EPICS)
         jira_import_dashboard.STORIES.
Proof. apply (bool_decide_unpack _). vm_compute. reflexivity. Qed.

Lemma dashboard_run_all_accepted_witness :
  accepts Samples.all_created /\
  NoDup (map jira_import_dashboard.epic_key jira_import_dashboard.EPICS) /\
  Forall (fun s => jira_import_dashboard.story_epic s
                   ∈ map jira_import_dashboard.epic_key jira_import_dashboard.EPICS)
         jira_import_dashboard.STORIES /\
  len (posts (events (snd (jira_import_dashboard.main "dev@example.com" "secret"
                             Samples.all_created jira_import_dashboard.EPICS
                             jira_import_dashboard.STORIES world0))))
    = 88.
Proof.
  split; [exact sample_accepts|]. split; [exact EPICS_keys_distinct|].
  split; [exact STORIES_name_epics|].
  destruct (dashboard_run_all_accepted "dev@example.com" "secret"
              Samples.all_created jira_import_dashboard.EPICS
              jira_import_dashboard.STORIES sample_accepts EPICS_keys_distinct
              STORIES_name_epics) as (_ & Hlen & _).
  rewrite Hlen. reflexivity.
Defined.

(** ** Pacing: the sleeps between the calls *)

Lemma pace_app (b : bool) (es es' : list event) :
  pace b (es ++ es') =
    match pace b es with
    | Some b' => pace b' es'
    | None => None
    end.
Proof.
  revert b. induction es as [|e es IH]; intros b; simpl; [reflexivity|].
  destruct e; simpl; [apply IH | apply IH |].
  destruct b; [apply IH | reflexivity].
Qed.

Lemma pace_None_app (b : bool) (es es' : list event) :
  pace b es = None -> pace b (es ++ es') = None.
Proof. intros H. rewrite pace_app, H. reflexivity. Qed.

(** A measure of the world that every returning turn moves by [c] is moved
    by the returning loop by [c] for every element. *)
Lemma for_each_measure {A St : Type} (body : St -> A -> M St) (f : World -> Z)
    (c : Z) :
  (forall s x w s' w', body s x w = (Ok s', w') -> f w' = f w + c) ->
  forall l s w s' w',
    for_each body l s w = (Ok s', w') -> f w' = f w + c * len l.
Proof.
  intros Hbody. induction l as [|x l IH]; intros s w s' w' H.
  - injection H as <- <-. unfold len. simpl. lia.
  - simpl in H. bind_inv H.
    rewrite (IH _ _ _ _ H), (Hbody _ _ _ _ _ Hrun).
    unfold len. simpl length. lia.
Qed.

Lemma len_enumerate {A : Type} (l : list A) (i : Z) : len (enumerate i l) = len l.
Proof.
  revert i. induction l as [|x l IH]; intros i; [reflexivity|].
  unfold len in *. simpl. specialize (IH (i + 1)). lia.
Qed.

(** ** The effects of one turn, and of a run, however they end *)

Lemma posts_prints (lines : list string) (tl : list event) :
  posts (map EvPrint lines ++ tl) = posts tl.
Proof. induction lines as [|l lines IH]; [reflexivity | exact IH]. Qed.

Lemma sleeps_prints (lines : list string) (tl : list event) :
  sleeps (map EvPrint lines ++ tl) = sleeps tl.
Proof. induction lines as [|l lines IH]; [reflexivity | exact IH]. Qed.

Lemma pace_prints (b : bool) (lines : list string) (tl : list event) :
  pace b (map EvPrint lines ++ tl) = pace b tl.
Proof. induction lines as [|l lines IH]; [reflexivity | exact IH]. Qed.


Lemma py_sum_app (l l' : list Z) : py_sum (l ++ l') = py_sum l + py_sum l'.
Proof.
  induction l as [|x l IH]; simpl; [reflexivity|].
  unfold py_sum in *. simpl. rewrite IH. lia.
Qed.

Lemma len_app {A : Type} (l l' : list A) : len (l ++ l') = len l + len l'.
Proof. unfold len. rewrite length_app. lia. Qed.

(** The calls, the sleeps and the pace of a turn's effects: a line, a call,
    more lines, and what closes the turn. *)
Lemma posts_turn (es : list event) (line : string) (req : Request)
    (res : exn + Response) (lines : list string) (tl : list event) :
  posts (es ++ EvPrint line :: EvPost req res :: map EvPrint lines ++ tl)
    = posts es ++ (req, res) :: posts tl.
Proof. rewrite posts_app. simpl. rewrite posts_prints. reflexivity. Qed.

Lemma sleeps_turn (es : list event) (line : string) (req : Request)
    (res : exn + Response) (lines : list string) (tl : list event) :
  sleeps (es ++ EvPrint line :: EvPost req res :: map EvPrint lines ++ tl)
    = sleeps es ++ sleeps tl.
Proof. rewrite sleeps_app. simpl. rewrite sleeps_prints. reflexivity. Qed.

Lemma pace_turn (b : bool) (es : list event) (line : string) (req : Request)
    (res : exn + Response) (lines : list string) (tl : list event) :
  pace b (es ++ EvPrint line :: EvPost req res :: map EvPrint lines ++ tl)
    = match pace b es with
      | Some true => pace false tl
      | _ => None
      end.
Proof.
  rewrite pace_app. destruct (pace b es) as [[|]|]; simpl; try reflexivity.
  apply pace_prints.
Qed.

Lemma posts_lines (lines : list string) : posts (map EvPrint lines) = [].
Proof. induction lines as [|l lines IH]; [reflexivity | exact IH]. Qed.

Lemma sleeps_lines (lines : list string) : sleeps (map EvPrint lines) = [].
Proof. induction lines as [|l lines IH]; [reflexivity | exact IH]. Qed.

Module CPy.
Import jira_import_cp.

Section Runs.

Variables JIRA_EMAIL JIRA_API_TOKEN : string.
Variable oracle : nat -> exn + Response.

Local Abbreviation create_issue := (create_issue JIRA_EMAIL JIRA_API_TOKEN oracle).
Local Abbreviation story_loop_body := (story_loop_body JIRA_EMAIL JIRA_API_TOKEN oracle).
Local Abbreviation epic_loop_body := (epic_loop_body JIRA_EMAIL JIRA_API_TOKEN oracle).
Local Abbreviation main := (main JIRA_EMAIL JIRA_API_TOKEN oracle).
Local Abbreviation epic_request := (epic_request JIRA_EMAIL JIRA_API_TOKEN).
Local Abbreviation story_request := (story_request JIRA_EMAIL JIRA_API_TOKEN).

(** One turn of the inner loop: a line, the call, more lines, and the sleep
    when the turn returns; when it raises, the call is its last effect. *)
Lemma cpy_story_body_shape (n : Z) (k : string) (cs j : Z) (s : Story)
    (w w' : World) (r : Result Z) :
  story_loop_body n k cs (j, s) w = (r, w') ->
  let res := oracle (served w) in
  exists line lines,
    events w' = events w ++
      EvPrint line :: EvPost (story_request s k) res
      :: map EvPrint lines ++ closing r 200 /\
    served w' = S (served w) /\
    match r with
    | Ok _ => cp_call_raises res = None
    | Raise ex => cp_call_raises res = Some ex /\ lines = []
    end.
Proof.
  unfold story_loop_body, create_story, bind, print, sleep, emit, ret.
  rewrite CP.cp_create_issue_run. cbv zeta. simpl served. simpl events.
  unfold cp_call_raises, error_lines.
  destruct (oracle (served w)) as [ex|r0].
  { intros [= <- <-]. eexists _, []. simpl.
    rewrite <- !app_assoc. simpl. repeat split. }
  destruct (status_code r0 =? 201)%Z eqn:Hst.
  - destruct (json_body r0) as [data|].
    + destruct (truthy_opt (data !! "key")); intros [= <- <-].
      * eexists _, [_]. simpl. rewrite <- !app_assoc. simpl. repeat split.
      * eexists _, [_]. simpl. rewrite <- !app_assoc. simpl. repeat split.
    + intros [= <- <-]. eexists _, []. simpl.
      rewrite <- !app_assoc. simpl. repeat split.
  - intros [= <- <-]. eexists _, [_; _; _]. simpl.
    rewrite <- !app_assoc. simpl. repeat split.
Qed.

(** One turn of the outer loop: a line and the parent's call; then, unless
    the call raised, more lines, the inner loop over the children when the
    parent was created, and the sleep when the turn returns. *)
Lemma cpy_epic_body_shape (te ce cs i : Z) (e : Entry) (w w' : World)
    (r : Result (Z * Z)) :
  epic_loop_body te (ce, cs) (i, e) w = (r, w') ->
  let res := oracle (served w) in
  exists line,
    match cp_call_raises res with
    | Some ex =>
        r = Raise ex /\
        events w' = events w ++ [EvPrint line; EvPost (epic_request (epic e)) res]
    | None =>
        exists lines w1 rl w2,
          events w1 = events w ++
            EvPrint line :: EvPost (epic_request (epic e)) res
            :: map EvPrint lines /\
          served w1 = S (served w) /\
          for_each (story_loop_body (len (stories e))
                      (default "" (created_key res)))
            (enumerate 1 (match created_key res with
                          | Some _ => stories e
                          | None => []
                          end)) cs w1 = (rl, w2) /\
          match rl with
          | Ok cs' =>
              r = Ok (ce + match created_key res with
                            | Some _ => 1
                            | None => 0
                            end, cs') /\
              events w' = events w2 ++ [EvSleep 500] /\
              served w' = served w2
          | Raise ex => r = Raise ex /\ w' = w2
          end
    end.
Proof.
  unfold epic_loop_body, create_epic.
  unfold bind at 1. unfold print at 1, emit at 1.
  unfold bind at 1. rewrite CP.cp_create_issue_run. cbv zeta.
  simpl served. simpl events.
  unfold cp_call_raises, created_key, error_lines.
  intros H. eexists.
  destruct (oracle (served w)) as [ex|r0].
  { injection H as <- <-. split; [reflexivity|].
    simpl. rewrite <- !app_assoc. reflexivity. }
  destruct (status_code r0 =? 201)%Z eqn:Hst.
  2: { unfold bind, print, sleep, emit, ret in H. simpl in H.
       injection H as <- <-.
       eexists [_; _; _],
         {| served := S (served w); events := events w ++ _ :: _ :: map EvPrint _ |},
         (Ok cs), _.
       split; [reflexivity|]. split; [reflexivity|]. split; [reflexivity|].
       simpl. rewrite Z.add_0_r. split; [reflexivity|]. split; [|reflexivity].
       rewrite <- !app_assoc. simpl. reflexivity. }
  destruct (json_body r0) as [data|] eqn:Hbody.
  2: { injection H as <- <-. split; [reflexivity|].
       simpl. rewrite <- !app_assoc. reflexivity. }
  destruct (truthy_opt (data !! "key")) eqn:Ht.
  2: { unfold bind, print, sleep, emit, ret in H. simpl in H.
       injection H as <- <-.
       eexists [_],
         {| served := S (served w); events := events w ++ _ :: _ :: map EvPrint _ |},
         (Ok cs), _.
       split; [reflexivity|]. split; [reflexivity|]. split; [reflexivity|].
       simpl. rewrite Z.add_0_r. split; [reflexivity|]. split; [|reflexivity].
       rewrite <- !app_assoc. simpl. reflexivity. }
  destruct (data !! "key") as [k|] eqn:Hkey; [|discriminate Ht].
  cbn [default from_option id] in *.
  unfold bind at 1 in H. unfold bind at 1 in H.
  unfold print at 1, emit at 1 in H. unfold bind at 1 in H.
  simpl served in H. simpl events in H.
  match type of H with context [for_each ?b ?l ?s ?w0] =>
    destruct (for_each b l s w0) as [rl w2] eqn:Hloop end.
  eexists [_], _, rl, w2. split; [|split; [|split]].
  3: exact Hloop.
  - simpl. rewrite <- !app_assoc. simpl. reflexivity.
  - reflexivity.
  - destruct rl as [cs'|ex].
    + unfold bind, sleep, emit, ret in H. simpl in H. injection H as <- <-.
      repeat split.
    + injection H as <- <-. split; reflexivity.
Qed.

(** A run of [main]: lines, the outer loop, and the report when the loop
    returns. *)
Lemma cpy_main_shape (cat : list Entry) (w w' : World) (r : Result unit) :
  main cat w = (r, w') ->
  exists header w0 rl w1,
    events w0 = events w ++ map EvPrint header /\
    served w0 = served w /\
    for_each (epic_loop_body (len cat)) (enumerate 1 cat) (0, 0) w0 = (rl, w1) /\
    match rl with
    | Ok _ =>
        r = Ok tt /\ served w' = served w1 /\
        exists lines, events w' = events w1 ++ map EvPrint lines
    | Raise ex => r = Raise ex /\ w' = w1
    end.
Proof.
  unfold main.
  do 4 (unfold bind at 1; unfold print at 1, emit at 1).
  unfold bind at 1. simpl served. simpl events.
  match goal with |- context [for_each ?b ?l ?s ?w0] =>
    destruct (for_each b l s w0) as [rl w1] eqn:Hloop end.
  intros H.
  eexists [_; _; _; _], _, rl, w1. split; [|split; [|split]].
  3: exact Hloop.
  - simpl. rewrite <- !app_assoc. simpl. reflexivity.
  - reflexivity.
  - destruct rl as [[ce cs]|ex].
    + unfold bind, print, emit in H. simpl in H. injection H as <- <-.
      split; [reflexivity|]. split; [reflexivity|].
      eexists [_; _; _; _; _; _]. simpl. rewrite <- !app_assoc. simpl. reflexivity.
    + injection H as <- <-. split; reflexivity.
Qed.

(** *** Where a run can stop *)





(** *** The sleeps of a run that returns *)

Lemma cpy_story_body_sleeps (n : Z) (k : string) (cs j : Z) (s : Story)
    (w w' : World) (cs' : Z) :
  story_loop_body n k cs (j, s) w = (Ok cs', w') ->
  sleeps (events w') = sleeps (events w) ++ [200] /\
  len (posts (events w')) = len (posts (events w)) + 1.
Proof.
  intros H.
  destruct (cpy_story_body_shape _ _ _ _ _ _ _ _ H) as (line & lines & Hev & _ & _).
  rewrite Hev, sleeps_turn, posts_turn, len_app. simpl closing. split; reflexivity.
Qed.

Lemma cpy_story_loop_sleeps (n : Z) (k : string) (l : list (Z * Story)) (cs : Z)
    (w w' : World) (cs' : Z) :
  for_each (story_loop_body n k) l cs w = (Ok cs', w') ->
  py_sum (sleeps (events w')) - 200 * len (posts (events w'))
    = py_sum (sleeps (events w)) - 200 * len (posts (events w)) /\
  len (sleeps (events w')) - len (posts (events w'))
    = len (sleeps (events w)) - len (posts (events w)).
Proof.
  intros H. split.
  - rewrite (for_each_measure (story_loop_body n k)
               (fun w => py_sum (sleeps (events w)) - 200 * len (posts (events w))) 0
               ltac:(intros s [j st] w0 s' w0' Hb;
                     destruct (cpy_story_body_sleeps _ _ _ _ _ _ _ _ Hb) as [-> ->];
                     rewrite py_sum_app; unfold py_sum; simpl; lia)
               _ _ _ _ _ H).
    lia.
  - rewrite (for_each_measure (story_loop_body n k)
               (fun w => len (sleeps (events w)) - len (posts (events w))) 0
               ltac:(intros s [j st] w0 s' w0' Hb;
                     destruct (cpy_story_body_sleeps _ _ _ _ _ _ _ _ Hb) as [-> ->];
                     rewrite len_app; unfold len; simpl; lia)
               _ _ _ _ _ H).
    lia.
Qed.

Lemma cpy_epic_body_sleeps (te ce cs i : Z) (e : Entry) (w w' : World)
    (c : Z * Z) :
  epic_loop_body te (ce, cs) (i, e) w = (Ok c, w') ->
  py_sum (sleeps (events w')) - 200 * len (posts (events w'))
    = py_sum (sleeps (events w)) - 200 * len (posts (events w)) + 300 /\
  len (sleeps (events w')) - len (posts (events w'))
    = len (sleeps (events w)) - len (posts (events w)).
Proof.
  intros H.
  destruct (cpy_epic_body_shape _ _ _ _ _ _ _ _ H) as (line & Hshape).
  destruct (cp_call_raises (oracle (served w))) as [ex|] eqn:Hres.
  - destruct Hshape as (Hr & _). discriminate Hr.
  - destruct Hshape as (lines & w1 & rl & w2 & Hev1 & _ & Hloop & Hrl).
    destruct rl as [cs'|ex]; [|destruct Hrl as (Hr & _); discriminate Hr].
    destruct Hrl as (_ & Hev & _).
    destruct (cpy_story_loop_sleeps _ _ _ _ _ _ _ Hloop) as (Hs & Hn).
    rewrite <- (app_nil_r (map EvPrint lines)) in Hev1.
    rewrite Hev1, sleeps_turn, posts_turn, !len_app in Hs, Hn.
    change (sleeps []) with (@nil Z) in Hs, Hn. rewrite app_nil_r in Hs, Hn.
    change (posts []) with (@nil exchange) in Hs, Hn.
    change (len [?x]) with 1 in Hs, Hn.
    rewrite Hev, sleeps_app, posts_app, py_sum_app, !len_app.
    change (sleeps [EvSleep 500]) with [500].
    change (posts [EvSleep 500]) with (@nil exchange).
    change (py_sum [500]) with 500. change (len [500]) with 1.
    change (len (@nil exchange)) with 0.
    split; lia.
Qed.

Lemma cpy_main_sleeps (cat : list Entry) (w w' : World) :
  main cat w = (Ok tt, w') ->
  py_sum (sleeps (events w')) - 200 * len (posts (events w'))
    = py_sum (sleeps (events w)) - 200 * len (posts (events w)) + 300 * len cat /\
  len (sleeps (events w')) - len (posts (events w'))
    = len (sleeps (events w)) - len (posts (events w)).
Proof.
  intros H.
  destruct (cpy_main_shape _ _ _ _ H) as (header & w0 & rl & w1 & Hev0 & _ & Hloop & Hrl).
  destruct rl as [c|ex]; [|destruct Hrl as (Hr & _); discriminate Hr].
  destruct Hrl as (_ & _ & lines & Hev).
  rewrite Hev, sleeps_app, posts_app, sleeps_lines, posts_lines, !app_nil_r.
  pose proof (for_each_measure (epic_loop_body (len cat))
               (fun w => py_sum (sleeps (events w)) - 200 * len (posts (events w))) 300
               ltac:(intros [ce cs] [i e] w2 s' w2' Hb;
                     exact (proj1 (cpy_epic_body_sleeps _ _ _ _ _ _ _ _ Hb)))
               _ _ _ _ _ Hloop) as Hs.
  pose proof (for_each_measure (epic_loop_body (len cat))
               (fun w => len (sleeps (events w)) - len (posts (events w))) 0
               ltac:(intros [ce cs] [i e] w2 s' w2' Hb;
                     rewrite (proj2 (cpy_epic_body_sleeps _ _ _ _ _ _ _ _ Hb)); lia)
               _ _ _ _ _ Hloop) as Hn.
  simpl in Hs, Hn. rewrite len_enumerate in Hs.
  rewrite Hev0, sleeps_app, posts_app, sleeps_lines, posts_lines, !app_nil_r in Hs, Hn.
  split; lia.
Qed.

(** *** Calls with no sleep between them *)

Lemma cpy_story_body_unpaced (n : Z) (k : string) (cs j : Z) (s : Story)
    (w w' : World) (r : Result Z) :
  story_loop_body n k cs (j, s) w = (r, w') ->
  pace true (events w) <> Some true ->
  pace true (events w') = None.
Proof.
  intros H Hp.
  destruct (cpy_story_body_shape _ _ _ _ _ _ _ _ H) as (line & lines & Hev & _ & _).
  rewrite Hev, pace_turn.
  destruct (pace true (events w)) as [[|]|]; [congruence | reflexivity | reflexivity].
Qed.

Lemma cpy_story_loop_unpaced (n : Z) (k : string) (l : list (Z * Story)) (cs : Z)
    (w w' : World) (r : Result Z) :
  for_each (story_loop_body n k) l cs w = (r, w') ->
  pace true (events w) = None \/ (pace true (events w) = Some false /\ l <> []) ->
  pace true (events w') = None.
Proof.
  intros H [Hp|[Hp Hl]].
  - refine (for_each_inv (story_loop_body n k) (fun w => pace true (events w) = None)
              _ _ _ _ _ _ H Hp).
    intros s [j st] w0 r0 w0' Hb Hp0.
    apply (cpy_story_body_unpaced _ _ _ _ _ _ _ _ Hb). congruence.
  - destruct l as [|[j st] l]; [congruence|].
    rewrite for_each_cons in H.
    destruct (story_loop_body n k cs (j, st) w) as [[cs1|ex] w1] eqn:Hb.
    + refine (for_each_inv (story_loop_body n k) (fun w => pace true (events w) = None)
                _ _ _ _ _ _ H _).
      * intros s [j0 st0] w0 r0 w0' Hb0 Hp0.
        apply (cpy_story_body_unpaced _ _ _ _ _ _ _ _ Hb0). congruence.
      * apply (cpy_story_body_unpaced _ _ _ _ _ _ _ _ Hb). congruence.
    + injection H as <- <-.
      apply (cpy_story_body_unpaced _ _ _ _ _ _ _ _ Hb). congruence.
Qed.

(** A turn of the outer loop, from a world whose calls are paced and all
    create epics: either it leaves such a world, or two of its calls have no
    sleep between them. *)
Lemma cpy_epic_body_unpaced (te ce cs i : Z) (e : Entry) (w w' : World)
    (r : Result (Z * Z)) :
  epic_loop_body te (ce, cs) (i, e) w = (r, w') ->
  pace true (events w) = None \/
    (pace true (events w) = Some true /\
     Forall (fun x : exchange => exists e, fst x = epic_request e) (posts (events w))) ->
  match r with
  | Ok _ =>
      pace true (events w') = None \/
      (pace true (events w') = Some true /\
       Forall (fun x : exchange => exists e, fst x = epic_request e)
         (posts (events w')))
  | Raise _ =>
      pace true (events w') = None \/
      Forall (fun x : exchange => exists e, fst x = epic_request e) (posts (events w'))
  end.
Proof.
  intros H HI.
  destruct (cpy_epic_body_shape _ _ _ _ _ _ _ _ H) as (line & Hshape).
  destruct (cp_call_raises (oracle (served w))) as [ex|] eqn:Hres.
  - destruct Hshape as (-> & Hev). destruct HI as [Hp|[Hp Hall]].
    + left. rewrite Hev. apply pace_None_app. exact Hp.
    + right. rewrite Hev, posts_app. simpl. apply Forall_app. split; [exact Hall|].
      constructor; [|constructor]. exists (epic e). reflexivity.
  - destruct Hshape as (lines & w1 & rl & w2 & Hev1 & _ & Hloop & Hrl).
    rewrite <- (app_nil_r (map EvPrint lines)) in Hev1.
    assert (Hw2 : pace true (events w2) = None \/
                  (w2 = w1 /\ rl = Ok cs /\ pace true (events w1) = Some false /\
                   Forall (fun x : exchange => exists e, fst x = epic_request e)
                     (posts (events w1)))).
    { destruct HI as [Hp|[Hp Hall]].
      - left. apply (cpy_story_loop_unpaced _ _ _ _ _ _ _ Hloop). left.
        rewrite Hev1. apply pace_None_app. exact Hp.
      - assert (Hp1 : pace true (events w1) = Some false).
        { rewrite Hev1, pace_turn, Hp. reflexivity. }
        destruct (enumerate 1 match created_key (oracle (served w)) with
                              | Some _ => stories e
                              | None => []
                              end) as [|x l] eqn:Hl.
        + right. injection Hloop as <- <-. repeat split; [exact Hp1|].
          rewrite Hev1, posts_turn. simpl. apply Forall_app. split; [exact Hall|].
          constructor; [|constructor]. exists (epic e). reflexivity.
        + left. apply (cpy_story_loop_unpaced _ _ _ _ _ _ _ Hloop). right.
          split; [exact Hp1 | discriminate]. }
    destruct Hw2 as [Hp2|(-> & -> & Hp1 & Hall1)].
    + destruct rl as [cs'|ex].
      * destruct Hrl as (-> & Hev & _). left. rewrite Hev. apply pace_None_app. exact Hp2.
      * destruct Hrl as (-> & ->). left. exact Hp2.
    + destruct Hrl as (-> & Hev & _). right. split.
      * rewrite Hev, pace_app, Hp1. reflexivity.
      * rewrite Hev, posts_app. simpl. rewrite app_nil_r. exact Hall1.
Qed.

Lemma cpy_main_unpaced (cat : list Entry) (w' : World) (r : Result unit) :
  main cat world0 = (r, w') ->
  pace true (events w') = None \/
  Forall (fun x : exchange => exists e, fst x = epic_request e) (posts (events w')).
Proof.
  intros H.
  destruct (cpy_main_shape _ _ _ _ H) as (header & w0 & rl & w1 & Hev0 & _ & Hloop & Hrl).
  simpl in Hev0.
  pose proof (for_each_inv_state (epic_loop_body (len cat))
           (fun _ w => pace true (events w) = None \/
              (pace true (events w) = Some true /\
               Forall (fun x : exchange => exists e, fst x = epic_request e)
                 (posts (events w))))
           (fun w => pace true (events w) = None \/
              Forall (fun x : exchange => exists e, fst x = epic_request e)
                (posts (events w)))
           (fun s x w s' w' =>
              match s, x return epic_loop_body (len cat) s x w = _ -> _ with
              | (ce, cs), (i, e) =>
                  fun Hb => cpy_epic_body_unpaced (len cat) ce cs i e w w' (Ok s') Hb
              end)
           (fun s x w ex w' =>
              match s, x return epic_loop_body (len cat) s x w = _ -> _ with
              | (ce, cs), (i, e) =>
                  fun Hb => cpy_epic_body_unpaced (len cat) ce cs i e w w' (Raise ex) Hb
              end)
           _ _ _ _ _ Hloop) as Hinv.
  assert (H0 : pace true (events w0) = None \/
             (pace true (events w0) = Some true /\
              Forall (fun x : exchange => exists e, fst x = epic_request e)
                (posts (events w0)))).
  { right. rewrite Hev0. rewrite <- (app_nil_r (map EvPrint header)).
    rewrite pace_prints, posts_prints. split; [reflexivity | constructor]. }
  specialize (Hinv H0).
  destruct rl as [c|ex].
  - destruct Hrl as (_ & _ & lines & Hev). rewrite Hev.
    destruct Hinv as [Hp|[Hp Hall]].
    + left. apply pace_None_app. exact Hp.
    + right. rewrite posts_app, posts_lines, app_nil_r. exact Hall.
  - destruct Hrl as (_ & ->). exact Hinv.
Qed.

End Runs.

End CPy.

(** The same for a turn that starts with its call. *)
Lemma posts_call (es : list event) (req : Request) (res : exn + Response)
    (lines : list string) (tl : list event) :
  posts (es ++ EvPost req res :: map EvPrint lines ++ tl)
    = posts es ++ (req, res) :: posts tl.
Proof. rewrite posts_app. simpl. rewrite posts_prints. reflexivity. Qed.

Lemma sleeps_call (es : list event) (req : Request) (res : exn + Response)
    (lines : list string) (tl : list event) :
  sleeps (es ++ EvPost req res :: map EvPrint lines ++ tl) = sleeps es ++ sleeps tl.
Proof. rewrite sleeps_app. simpl. rewrite sleeps_prints. reflexivity. Qed.

Lemma pace_call (b : bool) (es : list event) (req : Request)
    (res : exn + Response) (lines : list string) (tl : list event) :
  pace b (es ++ EvPost req res :: map EvPrint lines ++ tl)
    = match pace b es with
      | Some true => pace false tl
      | _ => None
      end.
Proof.
  rewrite pace_app. destruct (pace b es) as [[|]|]; simpl; try reflexivity.
  apply pace_prints.
Qed.

Module DY.
Import jira_import_dashboard.

Section Runs.

Variables JIRA_EMAIL JIRA_API_TOKEN : string.
Variable oracle : nat -> exn + Response.

Local Abbreviation epic_loop_body :=
  (epic_loop_body JIRA_EMAIL JIRA_API_TOKEN oracle).
Local Abbreviation story_loop_body :=
  (story_loop_body JIRA_EMAIL JIRA_API_TOKEN oracle).
Local Abbreviation main := (main JIRA_EMAIL JIRA_API_TOKEN oracle).
Local Abbreviation epic_request := (epic_request JIRA_EMAIL JIRA_API_TOKEN).
Local Abbreviation story_request := (story_request JIRA_EMAIL JIRA_API_TOKEN).

(** One turn of the first loop: the call, the lines, and the sleep when the
    turn returns; when it raises, the call is its last effect. *)
Lemma dy_epic_body_shape (m : gmap string string) (e : Epic) (w w' : World)
    (r : Result (gmap string string)) :
  epic_loop_body m e w = (r, w') ->
  let res := oracle (served w) in
  exists lines,
    events w' = events w ++
      EvPost (epic_request e) res :: map EvPrint lines ++ closing r 500 /\
    served w' = S (served w) /\
    match r with
    | Ok _ => dash_epic_call_raises res = None
    | Raise ex => dash_epic_call_raises res = Some ex /\ lines = []
    end.
Proof.
  unfold epic_loop_body, jira_import_dashboard.epic_loop_body, bind.
  rewrite Dashboard.dash_create_epic_run. cbv zeta.
  unfold dash_epic_call_raises, fail_lines, epic_request,
    jira_import_dashboard.epic_request.
  destruct (oracle (served w)) as [ex|r0].
  { intros [= <- <-]. exists []. simpl. repeat split. }
  destruct (status_code r0 =? 201)%Z eqn:Hst.
  - destruct (json_body r0) as [data|].
    + destruct (data !! "key") as [key|].
      * destruct (data !! "id") as [id|].
        -- unfold print, sleep, emit, ret, bind. simpl.
           destruct (truthy key); simpl; intros [= <- <-].
           ++ eexists [_]. simpl. rewrite <- !app_assoc. simpl. repeat split.
           ++ exists []. simpl. rewrite <- !app_assoc. simpl. repeat split.
        -- intros [= <- <-]. exists []. simpl. repeat split.
      * intros [= <- <-]. exists []. simpl. repeat split.
    + intros [= <- <-]. exists []. simpl. repeat split.
  - unfold print, sleep, emit, ret, bind. simpl. intros [= <- <-].
    eexists [_; _]. simpl. rewrite <- !app_assoc. simpl. repeat split.
Qed.

(** One turn of the second loop: a story whose epic has no key in the dict
    leaves one line and no call; any other story has its call, the lines,
    and the sleep when the turn returns. *)
Lemma dy_story_body_shape (m : gmap string string) (c : Z * Z) (s : Story)
    (w w' : World) (r : Result (Z * Z)) :
  story_loop_body m c s w = (r, w') ->
  let res := oracle (served w) in
  if truthy_opt (m !! story_epic s) then
    exists lines,
      events w' = events w ++
        EvPost (story_request s (default "" (m !! story_epic s))) res
        :: map EvPrint lines ++ closing r 300 /\
      served w' = S (served w) /\
      match r with
      | Ok _ => dash_story_call_raises res = None
      | Raise ex => dash_story_call_raises res = Some ex /\ lines = []
      end
  else
    exists line,
      r = Ok c /\ events w' = events w ++ [EvPrint line] /\ served w' = served w.
Proof.
  unfold story_loop_body, jira_import_dashboard.story_loop_body.
  destruct c as [cs tp].
  destruct (truthy_opt (m !! story_epic s)) eqn:Ht; cbv [negb].
  - unfold bind. rewrite Dashboard.dash_create_story_run. cbv zeta.
    unfold dash_story_call_raises, fail_lines, story_request,
      jira_import_dashboard.story_request.
    destruct (oracle (served w)) as [ex|r0].
    { intros [= <- <-]. exists []. simpl. repeat split. }
    destruct (status_code r0 =? 201)%Z eqn:Hst.
    + destruct (json_body r0) as [data|].
      * destruct (data !! "key") as [key|].
        -- unfold print, sleep, emit, ret, bind. simpl.
           destruct (truthy key); simpl; intros [= <- <-].
           ++ eexists [_]. simpl. rewrite <- !app_assoc. simpl. repeat split.
           ++ exists []. simpl. rewrite <- !app_assoc. simpl. repeat split.
        -- intros [= <- <-]. exists []. simpl. repeat split.
      * intros [= <- <-]. exists []. simpl. repeat split.
    + unfold print, sleep, emit, ret, bind. simpl. intros [= <- <-].
      eexists [_; _]. simpl. rewrite <- !app_assoc. simpl. repeat split.
  - unfold bind, print, emit, ret. simpl. intros [= <- <-].
    eexists. repeat split.
Qed.

(** A run of [main]: lines, the first loop, lines, the second loop, and the
    report when both loops return. *)
Lemma dy_main_shape (epics : list Epic) (stories : list Story) (w w' : World)
    (r : Result unit) :
  main epics stories w = (r, w') ->
  exists h1 w0 r1 w1,
    events w0 = events w ++ map EvPrint h1 /\
    for_each epic_loop_body epics ∅ w0 = (r1, w1) /\
    match r1 with
    | Raise ex => r = Raise ex /\ w' = w1
    | Ok m =>
        exists h2 w2 r2 w3,
          events w2 = events w1 ++ map EvPrint h2 /\
          for_each (story_loop_body m) stories (0, 0) w2 = (r2, w3) /\
          match r2 with
          | Raise ex => r = Raise ex /\ w' = w3
          | Ok _ => r = Ok tt /\ exists h3, events w' = events w3 ++ map EvPrint h3
          end
    end.
Proof.
  unfold main, jira_import_dashboard.main.
  do 9 (unfold bind at 1; unfold print at 1, emit at 1).
  unfold bind at 1. simpl served. simpl events.
  match goal with |- context [for_each ?b ?l ?s ?w0] =>
    destruct (for_each b l s w0) as [r1 w1] eqn:Hloop1 end.
  intros H.
  eexists [_; _; _; _; _; _; _; _; _], _, r1, w1. split; [|split].
  2: exact Hloop1.
  { simpl. rewrite <- !app_assoc. simpl. reflexivity. }
  destruct r1 as [m|ex]; [|injection H as <- <-; split; reflexivity].
  revert H.
  do 5 (unfold bind at 1; unfold print at 1, emit at 1).
  unfold bind at 1. simpl served. simpl events.
  match goal with |- context [for_each ?b ?l ?s ?w0] =>
    destruct (for_each b l s w0) as [r2 w3] eqn:Hloop2 end.
  intros H.
  eexists [_; _; _; _; _], _, r2, w3. split; [|split].
  2: exact Hloop2.
  { simpl. rewrite <- !app_assoc. simpl. reflexivity. }
  destruct r2 as [[cs tp]|ex]; [|injection H as <- <-; split; reflexivity].
  unfold bind, print, emit in H. simpl in H. injection H as <- <-.
  split; [reflexivity|].
  eexists [_; _; _; _; _; _; _; _; _; _]. simpl. rewrite <- !app_assoc. simpl.
  reflexivity.
Qed.

(** *** Every call waits for a sleep *)

Lemma dy_epic_body_paced (m : gmap string string) (e : Epic) (w w' : World)
    (r : Result (gmap string string)) :
  epic_loop_body m e w = (r, w') ->
  pace true (events w) = Some true ->
  pace true (events w') = Some (match r with Ok _ => true | Raise _ => false end).
Proof.
  intros H Hp.
  destruct (dy_epic_body_shape _ _ _ _ _ H) as (lines & Hev & _ & _).
  rewrite Hev, pace_call, Hp. destruct r; reflexivity.
Qed.

Lemma dy_story_body_paced (m : gmap string string) (c : Z * Z) (s : Story)
    (w w' : World) (r : Result (Z * Z)) :
  story_loop_body m c s w = (r, w') ->
  pace true (events w) = Some true ->
  pace true (events w') = Some (match r with Ok _ => true | Raise _ => false end).
Proof.
  intros H Hp. pose proof (dy_story_body_shape _ _ _ _ _ _ H) as Hshape.
  cbv zeta in Hshape. destruct (truthy_opt (m !! story_epic s)).
  - destruct Hshape as (lines & Hev & _ & _).
    rewrite Hev, pace_call, Hp. destruct r; reflexivity.
  - destruct Hshape as (line & -> & Hev & _).
    rewrite Hev, pace_app, Hp. reflexivity.
Qed.

Lemma dy_main_paced (epics : list Epic) (stories : list Story) (w w' : World)
    (r : Result unit) :
  main epics stories w = (r, w') ->
  pace true (events w) = Some true ->
  pace true (events w') = Some (match r with Ok _ => true | Raise _ => false end).
Proof.
  intros H Hp.
  destruct (dy_main_shape _ _ _ _ _ H) as (h1 & w0 & r1 & w1 & Hev0 & Hloop1 & Hr1).
  assert (Hp0 : pace true (events w0) = Some true).
  { rewrite Hev0, pace_app, Hp. rewrite <- (app_nil_r (map EvPrint h1)).
    apply pace_prints. }
  pose proof (for_each_inv_state epic_loop_body
                (fun _ w => pace true (events w) = Some true)
                (fun w => pace true (events w) = Some false)
                (fun s x w s' w' Hb => dy_epic_body_paced s x w w' (Ok s') Hb)
                (fun s x w ex w' Hb => dy_epic_body_paced s x w w' (Raise ex) Hb)
                _ _ _ _ _ Hloop1 Hp0) as Hp1.
  destruct r1 as [m|ex]; [|destruct Hr1 as (-> & ->); exact Hp1].
  destruct Hr1 as (h2 & w2 & r2 & w3 & Hev2 & Hloop2 & Hr2).
  assert (Hp2 : pace true (events w2) = Some true).
  { rewrite Hev2, pace_app, Hp1. rewrite <- (app_nil_r (map EvPrint h2)).
    apply pace_prints. }
  pose proof (for_each_inv_state (story_loop_body m)
                (fun _ w => pace true (events w) = Some true)
                (fun w => pace true (events w) = Some false)
                (fun s x w s' w' Hb => dy_story_body_paced m s x w w' (Ok s') Hb)
                (fun s x w ex w' Hb => dy_story_body_paced m s x w w' (Raise ex) Hb)
                _ _ _ _ _ Hloop2 Hp2) as Hp3.
  destruct r2 as [c|ex]; [|destruct Hr2 as (-> & ->); exact Hp3].
  destruct Hr2 as (-> & h3 & Hev). rewrite Hev, pace_app, Hp3.
  rewrite <- (app_nil_r (map EvPrint h3)). apply pace_prints.
Qed.

(** *** The sleeps of a run that returns *)

Lemma dy_epic_body_sleeps (m m' : gmap string string) (e : Epic) (w w' : World) :
  epic_loop_body m e w = (Ok m', w') ->
  sleeps (events w') = sleeps (events w) ++ [500] /\
  len (posts (events w')) = len (posts (events w)) + 1.
Proof.
  intros H.
  destruct (dy_epic_body_shape _ _ _ _ _ H) as (lines & Hev & _ & _).
  rewrite Hev, sleeps_call, posts_call, len_app. split; reflexivity.
Qed.

Lemma dy_story_body_sleeps (m : gmap string string) (c c' : Z * Z) (s : Story)
    (w w' : World) :
  story_loop_body m c s w = (Ok c', w') ->
  (sleeps (events w') = sleeps (events w) ++ [300] /\
   len (posts (events w')) = len (posts (events w)) + 1) \/
  (sleeps (events w') = sleeps (events w) /\
   posts (events w') = posts (events w)).
Proof.
  intros H. pose proof (dy_story_body_shape _ _ _ _ _ _ H) as Hshape.
  cbv zeta in Hshape. destruct (truthy_opt (m !! story_epic s)).
  - left. destruct Hshape as (lines & Hev & _ & _).
    rewrite Hev, sleeps_call, posts_call, len_app. split; reflexivity.
  - right. destruct Hshape as (line & _ & Hev & _).
    rewrite Hev, sleeps_app, posts_app. simpl. rewrite !app_nil_r. split; reflexivity.
Qed.

Lemma dy_main_sleeps (epics : list Epic) (stories : list Story) (w' : World) :
  main epics stories world0 = (Ok tt, w') ->
  len (sleeps (events w')) = len (posts (events w')) /\
  py_sum (sleeps (events w'))
    = 500 * len epics + 300 * (len (posts (events w')) - len epics).
Proof.
  intros H.
  destruct (dy_main_shape _ _ _ _ _ H) as (h1 & w0 & r1 & w1 & Hev0 & Hloop1 & Hr1).
  simpl in Hev0.
  destruct r1 as [m|ex]; [|destruct Hr1 as (Hr & _); discriminate Hr].
  destruct Hr1 as (h2 & w2 & r2 & w3 & Hev2 & Hloop2 & Hr2).
  destruct r2 as [c|ex]; [|destruct Hr2 as (Hr & _); discriminate Hr].
  destruct Hr2 as (_ & h3 & Hev).
  pose proof (for_each_measure epic_loop_body
               (fun w => py_sum (sleeps (events w))) 500
               ltac:(intros s x w2' s' w3' Hb;
                     destruct (dy_epic_body_sleeps _ _ _ _ _ Hb) as [-> _];
                     rewrite py_sum_app; reflexivity)
               _ _ _ _ _ Hloop1) as Hs1.
  pose proof (for_each_measure epic_loop_body
               (fun w => len (sleeps (events w))) 1
               ltac:(intros s x w2' s' w3' Hb;
                     destruct (dy_epic_body_sleeps _ _ _ _ _ Hb) as [-> _];
                     rewrite len_app; reflexivity)
               _ _ _ _ _ Hloop1) as Hn1.
  pose proof (for_each_measure epic_loop_body
               (fun w => len (posts (events w))) 1
               ltac:(intros s x w2' s' w3' Hb;
                     destruct (dy_epic_body_sleeps _ _ _ _ _ Hb) as [_ ->];
                     reflexivity)
               _ _ _ _ _ Hloop1) as Hc1.
  pose proof (for_each_measure (story_loop_body m)
               (fun w => py_sum (sleeps (events w)) - 300 * len (posts (events w))) 0
               ltac:(intros s x w2' s' w3' Hb;
                     destruct (dy_story_body_sleeps _ _ _ _ _ _ Hb) as [[-> ->]|[-> ->]];
                     [rewrite py_sum_app; change (py_sum [300]) with 300; lia | lia])
               _ _ _ _ _ Hloop2) as Hs2.
  pose proof (for_each_measure (story_loop_body m)
               (fun w => len (sleeps (events w)) - len (posts (events w))) 0
               ltac:(intros s x w2' s' w3' Hb;
                     destruct (dy_story_body_sleeps _ _ _ _ _ _ Hb) as [[-> ->]|[-> ->]];
                     [rewrite len_app; change (len [300]) with 1; lia | lia])
               _ _ _ _ _ Hloop2) as Hn2.
  cbv beta in Hs1, Hn1, Hc1, Hs2, Hn2.
  rewrite Hev2, sleeps_app, posts_app, sleeps_lines, posts_lines, !app_nil_r in Hs2, Hn2.
  rewrite Hev0, sleeps_lines in Hs1, Hn1. rewrite Hev0, posts_lines in Hc1.
  change (py_sum []) with 0 in Hs1. change (len []) with 0 in Hn1, Hc1.
  rewrite Hev, sleeps_app, posts_app, sleeps_lines, posts_lines, !app_nil_r.
  split; lia.
Qed.

(** *** Where a run can stop *)




End Runs.

End DY.


(** X8: a run of the CP script that returns has slept once per call, 0.5 s
    for every entry of the catalog and 0.2 s for every call that creates a
    story. *)
Theorem cp_completed_run_sleeps (email token : string)
    (oracle : nat -> exn + Response) (cat : list jira_import_cp.Entry) :
  let run := jira_import_cp.main email token oracle cat world0 in
  fst run = Ok tt ->
  len (sleeps (events (snd run))) = len (posts (events (snd run))) /\
  py_sum (sleeps (events (snd run)))
    = 500 * len cat + 200 * (len (posts (events (snd run))) - len cat).
Proof.
  intros run Hrun. subst run.
  destruct (jira_import_cp.main email token oracle cat world0) as [r w'] eqn:H.
  simpl in Hrun. subst r. simpl.
  destruct (CPy.cpy_main_sleeps _ _ _ _ _ _ H) as (Hs & Hn).
  change (events world0) with (@nil event) in Hs, Hn.
  change (sleeps []) with (@nil Z) in Hs, Hn.
  change (posts []) with (@nil exchange) in Hs, Hn.
  change (py_sum []) with 0 in Hs. change (len []) with 0 in Hs, Hn.
  split; lia.
Qed.

Lemma cp_completed_run_sleeps_witness :
  let run := jira_import_cp.main "dev@example.com" "secret" (Samples.refused_at 3)
               jira_import_cp.EPICS_AND_STORIES world0 in
  fst run = Ok tt /\
  py_sum (sleeps (events (snd run)))
    = 500 * 10 + 200 * (len (posts (events (snd run))) - 10).
Proof.
  intros run.
  assert (Hrun : fst run = Ok tt) by (vm_compute; reflexivity).
  split; [exact Hrun|].
  exact (proj2 (cp_completed_run_sleeps "dev@example.com" "secret"
                  (Samples.refused_at 3) jira_import_cp.EPICS_AND_STORIES Hrun)).
Defined.

(** X9: in any run of the CP script, however it ends, if a call that creates
    a story is made then two calls of the run follow each other with no sleep
    in between: the first story of an epic is posted right after its epic. *)
Theorem cp_child_call_comes_without_sleep (email token : string)
    (oracle : nat -> exn + Response) (cat : list jira_import_cp.Entry) :
  let run := jira_import_cp.main email token oracle cat world0 in
  (exists s k res,
     In (jira_import_cp.story_request email token s k, res)
        (posts (events (snd run)))) ->
  pace true (events (snd run)) = None.
Proof.
  intros run (s & k & res & Hin). subst run.
  destruct (jira_import_cp.main email token oracle cat world0) as [r w'] eqn:H.
  simpl in *.
  destruct (CPy.cpy_main_unpaced _ _ _ _ _ _ H) as [Hp|Hall]; [exact Hp|].
  rewrite List.Forall_forall in Hall.
  destruct (Hall _ Hin) as (e & He). simpl in He.
  exfalso. exact (CP.cp_request_distinct _ _ _ _ _ (eq_sym He)).
Qed.

Lemma cp_child_call_comes_without_sleep_witness :
  let run := jira_import_cp.main "dev@example.com" "secret" Samples.all_created
               Samples.one_entry world0 in
  In (jira_import_cp.story_request "dev@example.com" "secret"
        (jira_import_cp.mkStory "Write the weekly report" 5 "A child") "K-0",
      Samples.all_created 1)
     (posts (events (snd run))) /\
  pace true (events (snd run)) = None.
Proof.
  intros run.
  assert (Hin : In (jira_import_cp.story_request "dev@example.com" "secret"
                      (jira_import_cp.mkStory "Write the weekly report" 5 "A child")
                      "K-0",
                    Samples.all_created 1)
                   (posts (events (snd run)))).
  { vm_compute. right. left. reflexivity. }
  split; [exact Hin|].
  apply (cp_child_call_comes_without_sleep "dev@example.com" "secret"
           Samples.all_created Samples.one_entry).
  eexists _, _, _. exact Hin.
Defined.

(** X10: in every run of the dashboard script, however it ends, every call
    comes after a sleep that follows the call before it; a run that returns
    ends ready for a call, a run that ends with an exception ends at its
    call. *)
Theorem dashboard_run_is_paced (email token : string)
    (oracle : nat -> exn + Response)
    (epics : list jira_import_dashboard.Epic)
    (stories : list jira_import_dashboard.Story) :
  let run := jira_import_dashboard.main email token oracle epics stories world0 in
  pace true (events (snd run))
    = Some (match fst run with Ok _ => true | Raise _ => false end).
Proof.
  intros run. subst run.
  destruct (jira_import_dashboard.main email token oracle epics stories world0)
    as [r w'] eqn:H.
  apply (DY.dy_main_paced _ _ _ _ _ _ _ _ H). reflexivity.
Qed.

(** X11: a run of the dashboard script that returns has slept once per call,
    0.5 s for every epic of the catalog and 0.3 s for every call that creates
    a story; a story that is passed over costs no sleep. *)
Theorem dashboard_completed_run_sleeps (email token : string)
    (oracle : nat -> exn + Response)
    (epics : list jira_import_dashboard.Epic)
    (stories : list jira_import_dashboard.Story) :
  let run := jira_import_dashboard.main email token oracle epics stories world0 in
  fst run = Ok tt ->
  len (sleeps (events (snd run))) = len (posts (events (snd run))) /\
  py_sum (sleeps (events (snd run)))
    = 500 * len epics + 300 * (len (posts (events (snd run))) - len epics).
Proof.
  intros run Hrun. subst run.
  destruct (jira_import_dashboard.main email token oracle epics stories world0)
    as [r w'] eqn:H.
  simpl in Hrun. subst r. simpl.
  exact (DY.dy_main_sleeps _ _ _ _ _ _ H).
Qed.

Lemma dashboard_completed_run_sleeps_witness :
  let run := jira_import_dashboard.main "dev@example.com" "secret"
               (Samples.refused_at 3) jira_import_dashboard.EPICS
               jira_import_dashboard.STORIES world0 in
  fst run = Ok tt /\
  py_sum (sleeps (events (snd run)))
    = 500 * 10 + 300 * (len (posts (events (snd run))) - 10).
Proof.
  intros run.
  assert (Hrun : fst run = Ok tt) by (vm_compute; reflexivity).
  split; [exact Hrun|].
  exact (proj2 (dashboard_completed_run_sleeps "dev@example.com" "secret"
                  (Samples.refused_at 3) jira_import_dashboard.EPICS
                  jira_import_dashboard.STORIES Hrun)).
Defined.


(** ** No call is made twice *)




Module CPz.
Import jira_import_cp.

Section Runs.

Variables JIRA_EMAIL JIRA_API_TOKEN : string.
Variable oracle : nat -> exn + Response.

Local Abbreviation story_loop_body := (story_loop_body JIRA_EMAIL JIRA_API_TOKEN oracle).
Local Abbreviation epic_loop_body := (epic_loop_body JIRA_EMAIL JIRA_API_TOKEN oracle).
Local Abbreviation main := (main JIRA_EMAIL JIRA_API_TOKEN oracle).




End Runs.

End CPz.

Module DZ.
Import jira_import_dashboard.

Section Runs.

Variables JIRA_EMAIL JIRA_API_TOKEN : string.
Variable oracle : nat -> exn + Response.

Local Abbreviation epic_loop_body :=
  (epic_loop_body JIRA_EMAIL JIRA_API_TOKEN oracle).
Local Abbreviation story_loop_body :=
  (story_loop_body JIRA_EMAIL JIRA_API_TOKEN oracle).
Local Abbreviation main := (main JIRA_EMAIL JIRA_API_TOKEN oracle).




End Runs.

End DZ.



(** ** The dict of the dashboard script when catalog keys repeat *)

Lemma dz_epic_calls_last (email token : string) (m0 m : gmap string string)
    (es : list jira_import_dashboard.Epic) (xs : list exchange)
    (os : list outcome) (key : string) :
  jira_import_dashboard.epic_calls email token m0 es xs os m ->
  m !! key = match last_created key es os with
             | Some k => Some k
             | None => m0 !! key
             end.
Proof.
  induction 1 as [m|m m' e es res xs os Hcalls IH]; [reflexivity|].
  rewrite IH. simpl last_created.
  destruct (last_created key es os) as [k|]; [reflexivity|].
  unfold jira_import_dashboard.recorded, outcome_of.
  destruct (created_key res) as [k|].
  - destruct (decide (jira_import_dashboard.epic_key e = key)) as [->|Hne].
    + apply lookup_insert_eq.
    + apply lookup_insert_ne. exact Hne.
  - destruct (decide (jira_import_dashboard.epic_key e = key)); reflexivity.
Qed.

Lemma dz_epic_calls_size_le (email token : string) (m0 m : gmap string string)
    (es : list jira_import_dashboard.Epic) (xs : list exchange)
    (os : list outcome) :
  jira_import_dashboard.epic_calls email token m0 es xs os m ->
  Z.of_nat (size m) <= Z.of_nat (size m0) + count is_created os.
Proof.
  induction 1 as [m|m m' e es res xs os Hcalls IH].
  - change (count is_created []) with 0. lia.
  - rewrite count_cons.
    unfold jira_import_dashboard.recorded, outcome_of in *.
    destruct (created_key res) as [k|]; simpl is_created; cbv iota.
    + pose proof (map_size_insert (jira_import_dashboard.epic_key e) k m) as Hsz.
      destruct (m !! jira_import_dashboard.epic_key e); simpl in Hsz; lia.
    + lia.
Qed.

(** X15: in a run of the dashboard script that returns, whether or not the
    catalog keys of the epics are distinct, the dict holds for every catalog
    key the key of the last epic created under it, so that every story is
    linked to that epic; the number of epics that the report gives as
    created is the size of the dict, and is at most the number of epics that
    were created. *)
Theorem dashboard_dict_keeps_last_created (email token : string)
    (oracle : nat -> exn + Response)
    (epics : list jira_import_dashboard.Epic)
    (stories : list jira_import_dashboard.Story) (w : World) :
  let run := jira_import_dashboard.main email token oracle epics stories w in
  fst run = Ok tt ->
  exists es exs sxs eos sos m progress,
    events (snd run) = events w ++ es /\
    posts es = exs ++ sxs /\
    jira_import_dashboard.epic_calls email token ∅ epics exs eos m /\
    jira_import_dashboard.story_calls email token m stories sxs sos /\
    printed es = progress ++
      jira_import_dashboard.report (Z.of_nat (size m)) (len epics)
        (count is_created sos) (len stories)
        (jira_import_dashboard.created_points stories sos) /\
    (forall key, m !! key = last_created key epics eos) /\
    Z.of_nat (size m) <= count is_created eos.
Proof.
  intros run Hrun. subst run.
  destruct (jira_import_dashboard.main email token oracle epics stories w)
    as [r w'] eqn:H.
  simpl in Hrun. subst r. simpl.
  destruct (Dashboard.dash_main_Ok _ _ _ _ _ _ _ H)
    as (es & exs & sxs & eos & sos & m & progress & Hev & Hposts & Hepics
        & Hstories & Hprinted).
  exists es, exs, sxs, eos, sos, m, progress.
  split; [exact Hev|]. split; [exact Hposts|]. split; [exact Hepics|].
  split; [exact Hstories|]. split; [exact Hprinted|]. split.
  - intros key. rewrite (dz_epic_calls_last _ _ _ _ _ _ _ key Hepics).
    destruct (last_created key epics eos); [reflexivity | apply lookup_empty].
  - pose proof (dz_epic_calls_size_le _ _ _ _ _ _ _ Hepics) as Hsz.
    rewrite map_size_empty in Hsz. lia.
Qed.

Lemma dashboard_dict_keeps_last_created_witness :
  let run := jira_import_dashboard.main "dev@example.com" "secret"
               Samples.all_created twin_epics Samples.one_story world0 in
  fst run = Ok tt /\
  exists (eos : list outcome) (m : gmap string string),
    (forall key, m !! key = last_created key twin_epics eos) /\
    Z.of_nat (size m) <= count is_created eos.
Proof.
  intros run.
  assert (Hrun : fst run = Ok tt) by (vm_compute; reflexivity).
  split; [exact Hrun|].
  destruct (dashboard_dict_keeps_last_created "dev@example.com" "secret"
              Samples.all_created twin_epics Samples.one_story world0 Hrun)
    as (es & exs & sxs & eos & sos & m & progress & _ & _ & _ & _ & _ & Hlast & Hsz).
  exists eos, m. split; [exact Hlast | exact Hsz].
Defined.
